(** * practice-pumpfun-sdk: a shallow embedding of the demo scripts

    The repository is a set of TypeScript scripts around the pump.fun SDK:
    - [config/devnet]   (DEVNET_CONFIG, getDevnetRpcUrl, isDevnet)
    - [utils/wallet]    (WalletManager)
    - [utils/provider]  (ProviderManager)
    - [example/util]    (getOrCreateKeypair, getSPLBalance,
                         printSOLBalance, printSPLBalance)
    - [example/basic]   (getProvider, createAndBuyToken, buyTokens,
                         sellTokens, main)
    - [buy-tokens]      (TokenBuyer, main)
    - [create-and-buy]  (TokenCreator.getTokenInfo)

    JavaScript values are modelled as the code uses them: [number] is a
    binary64 float, [bigint] is [Z], [process.env] is a finite map from
    names to strings, an exception is a thrown [JsError], and an [async]
    function is a computation over the trace of calls it has made to the
    SDK and to the RPC connection.  Console output has no influence on
    control flow and is left out; the expressions evaluated inside a
    [console.log] argument that can throw are kept. *)

From Stdlib Require Import ZArith List String Ascii Bool Floats Lia
  DecimalString.
From stdpp Require Import base option gmap strings.
Import ListNotations.

Set Warnings "-inexact-float,-notation-for-abbreviation,-register-all".
Local Open Scope string_scope.
Local Open Scope Z_scope.

(** ** JavaScript runtime values *)

Module Js.

(** A thrown value, as [String(e)] prints it: [name ++ ": " ++ message]. *)
Record JsError := mkJsError { err_name : string; err_message : string }.

Definition Error (msg : string) : JsError := mkJsError "Error" msg.
Definition RangeError (msg : string) : JsError := mkJsError "RangeError" msg.
Definition TypeError (msg : string) : JsError := mkJsError "TypeError" msg.

(** The template literal [`${error}`]. *)
Definition toString (e : JsError) : string :=
  err_name e +:+ ": " +:+ err_message e.

(** Normal completion or a thrown exception. *)
Inductive Result (A : Type) : Type :=
| Ok (a : A)
| Throw (e : JsError).
Arguments Ok {A} a.
Arguments Throw {A} e.

(** [number]: IEEE binary64. *)
Definition number := float.

(** Truthiness of a number: everything but [0], [-0] and [NaN]. *)
Definition truthy_number (x : number) : bool :=
  negb (PrimFloat.is_zero x || PrimFloat.is_nan x).

(** Truthiness of a string: everything but the empty string. *)
Definition truthy_string (s : string) : bool :=
  match s with EmptyString => false | String _ _ => true end.

(** [a || b] where [a : string | undefined] and [b : string]. *)
Definition or_string (a : option string) (b : string) : string :=
  match a with
  | Some s => if truthy_string s then s else b
  | None => b
  end.

(** [a || b] where both sides are [string | undefined]. *)
Definition or_string_opt (a b : option string) : option string :=
  match a with
  | Some s => if truthy_string s then Some s else b
  | None => b
  end.

(** [balance || 0] where [balance : number | null | undefined]. *)
Definition or_number (a : option number) (b : number) : number :=
  match a with
  | Some x => if truthy_number x then x else b
  | None => b
  end.

(** The mathematical value of a finite number as [m * 2^e], [None] for
    [NaN] and the infinities. *)
Definition finite_value (x : number) : option (Z * Z) :=
  match Prim2SF x with
  | S754_zero _ => Some (0, 0)
  | S754_finite s m e => Some (if s then Z.neg m else Z.pos m, e)
  | S754_infinity _ => None
  | S754_nan => None
  end.

(** The integer a number denotes, when it denotes one
    ([Number.isInteger]). *)
Definition integer_value (x : number) : option Z :=
  match finite_value x with
  | Some (m, e) =>
      if 0 <=? e then Some (m * 2 ^ e)
      else if m mod 2 ^ (- e) =? 0 then Some (m / 2 ^ (- e))
      else None
  | None => None
  end.

(** The decimal digits of a natural number. *)
Definition decimal (z : Z) : string :=
  NilZero.string_of_uint (N.to_uint (Z.to_N z)).

(** [n] zeros. *)
Definition zeros (n : Z) : string :=
  String.concat "" (repeat "0" (Z.to_nat n)).

(** The decimal exponent of a positive number [m * 2^e]: the [n] with
    [10^(n-1) <= m * 2^e < 10^n]. *)
Definition decimal_exponent (m e : Z) : Z :=
  let reaches t :=
    10 ^ Z.max t 0 * 2 ^ Z.max (- e) 0
    <=? m * 2 ^ Z.max e 0 * 10 ^ Z.max (- t) 0 in
  let t0 := (Z.log2 m + e) * 30103 / 100000 in
  if reaches (t0 + 1) then t0 + 2 else if reaches t0 then t0 + 1 else t0.

(** A positive number [m * 2^e] written with [k] significant digits: the
    decimal [s * 10^(n - k)] nearest to it among those that round to it
    (the even [s] when two are as near), [None] when no decimal of [k]
    digits rounds to it.  The decimals that round to the number lie
    between the midpoints to its two neighbours, the midpoints included
    when [m] is even; below a power of two the neighbour is half as far
    away.  Everything is compared as an integer, in units of [2^(e-2)]
    scaled by a power of ten. *)
Definition shortest_at (m e n0 k : Z) : option (Z * Z) :=
  let E := e - 2 in
  let p := n0 - k in
  let scale := 2 ^ Z.max E 0 * 10 ^ Z.max (- p) 0 in
  let unit := 10 ^ Z.max p 0 * 2 ^ Z.max (- E) 0 in
  let x := 4 * m * scale in
  let above := (4 * m + 2) * scale in
  let below :=
    (if (m =? 2 ^ 52) && (-1074 <? e) then 4 * m - 1 else 4 * m - 2) * scale in
  let rounds_to v :=
    if Z.even m then (below <=? v) && (v <=? above)
    else (below <? v) && (v <? above) in
  let s0 := x / unit in
  let pick s := if s =? 10 ^ k then Some (1, n0 + 1) else Some (s, n0) in
  match rounds_to (s0 * unit), rounds_to ((s0 + 1) * unit) with
  | true, true =>
      let d0 := x - s0 * unit in
      let d1 := (s0 + 1) * unit - x in
      if d0 <? d1 then pick s0
      else if d1 <? d0 then pick (s0 + 1)
      else if Z.even s0 then pick s0 else pick (s0 + 1)
  | true, false => pick s0
  | false, true => pick (s0 + 1)
  | false, false => None
  end.

(** The least number of digits that is enough, tried from [k] upwards; 17
    digits always are. *)
Fixpoint shortest (fuel : nat) (m e n0 k : Z) : Z * Z :=
  match fuel with
  | O => (m, 0)
  | S fuel' =>
      match shortest_at m e n0 k with
      | Some r => r
      | None => shortest fuel' m e n0 (k + 1)
      end
  end.

(** The text of the number [s * 10^(n - k)], where [k] is the number of
    digits of [s]: plain digits up to 21 places, a decimal point, leading
    zeros down to [10^-7], the exponent form beyond. *)
Definition layout (s n : Z) : string :=
  let ds := decimal s in
  let k := Z.of_nat (String.length ds) in
  if (k <=? n) && (n <=? 21) then ds +:+ zeros (n - k)
  else if (0 <? n) && (n <=? 21) then
    substring 0 (Z.to_nat n) ds +:+ "."
    +:+ substring (Z.to_nat n) (Z.to_nat (k - n)) ds
  else if (-6 <? n) && (n <=? 0) then "0." +:+ zeros (- n) +:+ ds
  else
    let ex := n - 1 in
    let tail := "e" +:+ (if ex <? 0 then "-" else "+") +:+ decimal (Z.abs ex) in
    if k =? 1 then ds +:+ tail
    else substring 0 1 ds +:+ "." +:+ substring 1 (Z.to_nat (k - 1)) ds +:+ tail.

(** [String(x)] for a number [x]: the shortest decimal that reads back as
    [x]. *)
Definition Number_toString (x : number) : string :=
  match Prim2SF x with
  | S754_nan => "NaN"
  | S754_infinity false => "Infinity"
  | S754_infinity true => "-Infinity"
  | S754_zero _ => "0"
  | S754_finite sign m e =>
      let '(s, n) := shortest 17 (Z.pos m) e (decimal_exponent (Z.pos m) e) 1 in
      (if sign then "-" else "") +:+ layout s n
  end.

(** [BigInt(x)] for a number [x]: a [RangeError] that names the number
    unless [x] is an integer. *)
Definition BigInt (x : number) : Result Z :=
  match integer_value x with
  | Some z => Ok z
  | None =>
      Throw (RangeError ("The number " +:+ Number_toString x
                         +:+ " cannot be converted to a BigInt because it is not an integer"))
  end.

(** The number nearest to an integer (exact below 2^53). *)
Definition number_of_Z (z : Z) : number :=
  SF2Prim (binary_normalize prec emax z 0 false).

(** [Math.floor(x)]. *)
Definition Math_floor (x : number) : number :=
  match Prim2SF x with
  | S754_finite s m e =>
      if 0 <=? e then x
      else
        number_of_Z ((if s then Z.neg m else Z.pos m) / 2 ^ (- e))
  | _ => x
  end.

(** Sequencing of computations that may throw. *)
Definition bindR {A B} (r : Result A) (k : A -> Result B) : Result B :=
  match r with Ok a => k a | Throw e => Throw e end.

(** [try { body } catch (error) { handler }] *)
Definition try_catch {A} (body : Result A) (handler : JsError -> Result A)
  : Result A :=
  match body with Ok a => Ok a | Throw e => handler e end.

(** What [JSON.parse] returns. *)
Inductive Json : Type :=
| JNull
| JBool (b : bool)
| JNumber (x : number)
| JString (s : string)
| JArray (items : list Json)
| JObject (fields : list (string * Json)).

End Js.
Import Js.

Notation "'let!' x ':=' e 'in' k" := (bindR e (fun x => k))
  (at level 10, x name, e at level 100, k at level 200).

(** ** config/devnet *)

Module Devnet.

Definition RPC_ENDPOINTS_DEFAULT : string := "https://api.devnet.solana.com".
Definition RPC_ENDPOINTS_HELIUS : string :=
  "https://rpc-devnet.helius.xyz/?api-key=YOUR_API_KEY".
Definition FAUCET_URL : string := "https://faucet.solana.com/".
Definition SETTINGS_DEFAULT_COMMITMENT : string := "confirmed".
Definition SETTINGS_DEFAULT_SLIPPAGE : Z := 500.
Definition SETTINGS_MIN_SOL_BALANCE : number := 0.01%float.
Definition SETTINGS_MIN_SOL_FOR_CREATION : number := 0.05%float.

(** [process.env]: the variables that are set, each with its value. *)
Notation Environment := (gmap string string).

(** [process.env.DEVNET_RPC_URL || process.env.HELIUS_DEVNET_RPC_URL ||
    DEVNET_CONFIG.RPC_ENDPOINTS.DEFAULT] *)
Definition getDevnetRpcUrl (env : Environment) : string :=
  or_string
    (or_string_opt (env !! "DEVNET_RPC_URL") (env !! "HELIUS_DEVNET_RPC_URL"))
    RPC_ENDPOINTS_DEFAULT.

End Devnet.

(** ** @solana/web3.js and the Node runtime

    The functions of the platform the scripts call.  They are not code of
    this repository; every definition below is parametric in them. *)

Module Web3.

Record PublicKey := mkPublicKey { toBase58 : string }.

Record Keypair := mkKeypair {
  publicKey : PublicKey;
  secretKey : list Z;
}.

Definition LAMPORTS_PER_SOL : number := 1000000000%float.

Record Connection := mkConnection {
  rpcEndpoint : string;
  connection_commitment : string;
}.

(** [AnchorProvider]: a connection and the wallet that signs. *)
Record AnchorProvider := mkAnchorProvider {
  provider_connection : Connection;
  provider_wallet : Keypair;
}.

End Web3.
Import Web3.

Class Runtime := {
  (** [path.join(a, b)] *)
  path_join : string -> string -> string;
  (** [JSON.parse(text)], a [SyntaxError] on malformed text *)
  JSON_parse : string -> Result Json;
  (** the byte [new Uint8Array(array)] stores for one element *)
  ToUint8 : Json -> Z;
  (** [Keypair.fromSecretKey(bytes)], throws on a key that is not valid *)
  Keypair_fromSecretKey : list Z -> Result Keypair;
  (** [new PublicKey(text)], throws on text that is not a base58 key *)
  PublicKey_new : string -> Result PublicKey;
  (** [s.trim()] *)
  String_trim : string -> string;
  (** [s.split(sep)] *)
  String_split : string -> string -> list string;
  (** [s.endsWith(suffix)] *)
  String_endsWith : string -> string -> bool;
  (** [s.startsWith(prefix)] *)
  String_startsWith : string -> string -> bool;
  (** [s.includes(part)] *)
  String_includes : string -> string -> bool;
  (** [parseInt(s)] *)
  parseInt : string -> number;
  (** [new Connection(endpoint, { commitment })], throws on an endpoint
      that is not an http(s) URL *)
  Connection_new : string -> string -> Result Connection;
}.

(** The file system as the [fs] module shows it. *)
Record FileSystem := {
  existsSync : string -> bool;
  readFileSync : string -> Result string;
  readdirSync : string -> Result (list string);
}.

(** ** utils/wallet *)

Module Wallet.
Section WithRuntime.
Context `{Runtime}.
Variable fs : FileSystem.

Record WalletManager := { walletsDir : string }.

(** [constructor(walletsDir: string = "./wallets")] *)
Definition WalletManager_new : WalletManager := {| walletsDir := "./wallets" |}.

Definition loadWalletFromFile (this : WalletManager) (filename : string)
  : Result Keypair :=
  let filePath := path_join (walletsDir this) filename in
  if negb (existsSync fs filePath) then
    Throw (Error ("Wallet file not found: " +:+ filePath))
  else
    try_catch
      (let! walletData := readFileSync fs filePath in
       let! privateKeyArray := JSON_parse walletData in
       match privateKeyArray with
       | JArray items =>
           if negb (Nat.eqb (length items) 64) then
             Throw (Error ("Invalid wallet format in " +:+ filename))
           else Keypair_fromSecretKey (map ToUint8 items)
       | _ => Throw (Error ("Invalid wallet format in " +:+ filename))
       end)
      (fun error =>
         Throw (Error ("Failed to load wallet from " +:+ filename +:+ ": "
                       +:+ toString error))).

Definition loadWalletFromPrivateKey (this : WalletManager) (filename : string)
  : Result Keypair :=
  let filePath := path_join (walletsDir this) filename in
  if negb (existsSync fs filePath) then
    Throw (Error ("Private key file not found: " +:+ filePath))
  else
    try_catch
      (let! text := readFileSync fs filePath in
       let privateKeyString := String_trim text in
       let privateKeyArray :=
         map (fun num => parseInt (String_trim num))
             (String_split privateKeyString ",") in
       if negb (Nat.eqb (length privateKeyArray) 64) then
         Throw (Error ("Invalid private key format in " +:+ filename))
       else
         Keypair_fromSecretKey
           (map (fun x => ToUint8 (JNumber x)) privateKeyArray))
      (fun error =>
         Throw (Error ("Failed to load wallet from private key file "
                       +:+ filename +:+ ": " +:+ toString error))).

Definition listAvailableWallets (this : WalletManager) : Result (list string) :=
  if negb (existsSync fs (walletsDir this)) then Ok []
  else
    let! files := readdirSync fs (walletsDir this) in
    Ok (List.filter (fun file => String_endsWith file ".json"
                                 || String_endsWith file "_private_key.txt")
                    files).

Definition loadTradingWallet (this : WalletManager) : Result Keypair :=
  try_catch (loadWalletFromFile this "trading-wallet.json")
    (fun error =>
       try_catch (loadWalletFromPrivateKey this "trading-private_key.txt")
         (fun fallbackError =>
            Throw (Error ("Failed to load trading wallet: " +:+ toString error
                          +:+ ". Fallback also failed: "
                          +:+ toString fallbackError)))).

Definition loadTestWallet (this : WalletManager) : Result Keypair :=
  try_catch (loadWalletFromFile this "test-wallet.json")
    (fun error =>
       try_catch (loadWalletFromPrivateKey this "test-private_key.txt")
         (fun fallbackError =>
            Throw (Error ("Failed to load test wallet: " +:+ toString error
                          +:+ ". Fallback also failed: "
                          +:+ toString fallbackError)))).

End WithRuntime.
End Wallet.

(** ** pumpdotfun-sdk and the RPC connection

    What the scripts see of the SDK.  A call to the network is answered by
    the [Network]: its answer may depend on everything that was called
    before, and every call is appended to the trace. *)

Module Sdk.

Record PumpFunSDK := mkPumpFunSDK { connection : Connection }.

(** [new PumpFunSDK(provider)] *)
Definition PumpFunSDK_new (provider : AnchorProvider) : PumpFunSDK :=
  mkPumpFunSDK (provider_connection provider).

Definition DEFAULT_DECIMALS : Z := 6.

Record BondingCurveAccount := {
  virtualTokenReserves : Z;
  virtualSolReserves : Z;
  realTokenReserves : Z;
  tokenTotalSupply : Z;
  (** [getBuyPrice(amount)], throws on a completed curve *)
  getBuyPrice : Z -> Result Z;
  (** [getSellPrice(amount, feeBasisPoints)] *)
  getSellPrice : Z -> Z -> Result Z;
}.

Record PriorityFee := { unitLimit : Z; unitPrice : Z }.

Record Blob := { blob_parts : list string; blob_type : string }.

Record CreateTokenMetadata := {
  meta_name : string;
  meta_symbol : string;
  meta_description : string;
  meta_file : Blob;
}.

(** [TransactionResult]: [error] as [String(result.error)] when there is
    one. *)
Record TransactionResult := {
  success : bool;
  signature : option string;
  error : option string;
  results_slot : option Z;
}.

(** [confirmation.value.err]: [None] when it is falsy ([null]), else
    [String(err)]. *)
Record Confirmation := { value_err : option string }.

Inductive TokenAccountsFilter :=
| ByMint (mint : PublicKey)
| ByProgramId (programId : PublicKey).

(** One entry of [getParsedTokenAccountsByOwner(...).value].  The parsed
    account data is typed [any]: [parsed_uiAmount] is what evaluating
    [account.data.parsed.info.tokenAmount.uiAmount] gives, a [TypeError]
    when a link of the chain is missing, else a number, or [None] for
    [null] and [undefined]. *)
Record ParsedTokenAccount := {
  pubkey : PublicKey;
  parsed_uiAmount : Result (option number);
}.

Inductive Call :=
| GetBalance (c : Connection) (account : PublicKey)
| GetParsedTokenAccountsByOwner (c : Connection) (owner : PublicKey)
    (filter : TokenAccountsFilter)
| ConfirmTransaction (c : Connection) (sig : string) (commitment : string)
| GetBondingCurveAccount (sdk : PumpFunSDK) (mint : PublicKey)
| Buy (sdk : PumpFunSDK) (buyer : Keypair) (mint : PublicKey)
    (buyAmountSol slippageBasisPoints : Z) (priorityFees : option PriorityFee)
| Sell (sdk : PumpFunSDK) (seller : Keypair) (mint : PublicKey)
    (sellTokenAmount slippageBasisPoints : Z)
| CreateAndBuy (sdk : PumpFunSDK) (creator mint : Keypair)
    (metadata : CreateTokenMetadata) (buyAmountSol slippageBasisPoints : Z)
| KeypairGenerate.

Notation Trace := (list Call).

Class Network := {
  connection_getBalance : Trace -> Connection -> PublicKey -> Result number;
  connection_getParsedTokenAccountsByOwner :
    Trace -> Connection -> PublicKey -> TokenAccountsFilter ->
    Result (list ParsedTokenAccount);
  connection_confirmTransaction :
    Trace -> Connection -> string -> string -> Result Confirmation;
  sdk_getBondingCurveAccount :
    Trace -> PumpFunSDK -> PublicKey -> Result (option BondingCurveAccount);
  sdk_buy :
    Trace -> PumpFunSDK -> Keypair -> PublicKey -> Z -> Z ->
    option PriorityFee -> Result TransactionResult;
  sdk_sell :
    Trace -> PumpFunSDK -> Keypair -> PublicKey -> Z -> Z ->
    Result TransactionResult;
  sdk_createAndBuy :
    Trace -> PumpFunSDK -> Keypair -> Keypair -> CreateTokenMetadata ->
    Z -> Z -> Result TransactionResult;
  (** [Keypair.generate()] *)
  Keypair_generate : Trace -> Keypair;
}.

(** The state an [async] function runs in: the calls made so far, and the
    one mutable field of the scripts, [TokenBuyer.sdk]. *)
Record State := mkState {
  trace : Trace;
  this_sdk : option PumpFunSDK;
}.

Definition Eff (A : Type) : Type := State -> Result A * State.

Definition ret {A} (a : A) : Eff A := fun st => (Ok a, st).
Definition throw {A} (e : JsError) : Eff A := fun st => (Throw e, st).
Definition lift {A} (r : Result A) : Eff A := fun st => (r, st).

Definition bind {A B} (m : Eff A) (k : A -> Eff B) : Eff B :=
  fun st =>
    match m st with
    | (Ok a, st') => k a st'
    | (Throw e, st') => (Throw e, st')
    end.

(** [try { body } catch (error) { handler }] around awaited calls. *)
Definition try_catch_eff {A} (body : Eff A) (handler : JsError -> Eff A)
  : Eff A :=
  fun st =>
    match body st with
    | (Ok a, st') => (Ok a, st')
    | (Throw e, st') => handler e st'
    end.

Definition log (c : Call) (st : State) : State :=
  mkState (trace st ++ [c])%list (this_sdk st).

Definition get_sdk : Eff (option PumpFunSDK) := fun st => (Ok (this_sdk st), st).
Definition set_sdk (sdk : PumpFunSDK) : Eff unit :=
  fun st => (Ok tt, mkState (trace st) (Some sdk)).

Section Calls.
Context `{Network}.

Definition getBalance (c : Connection) (account : PublicKey) : Eff number :=
  fun st => (connection_getBalance (trace st) c account,
             log (GetBalance c account) st).

Definition getParsedTokenAccountsByOwner (c : Connection) (owner : PublicKey)
    (filter : TokenAccountsFilter) : Eff (list ParsedTokenAccount) :=
  fun st => (connection_getParsedTokenAccountsByOwner (trace st) c owner filter,
             log (GetParsedTokenAccountsByOwner c owner filter) st).

Definition confirmTransaction (c : Connection) (sig commitment : string)
  : Eff Confirmation :=
  fun st => (connection_confirmTransaction (trace st) c sig commitment,
             log (ConfirmTransaction c sig commitment) st).

Definition getBondingCurveAccount (sdk : PumpFunSDK) (mint : PublicKey)
  : Eff (option BondingCurveAccount) :=
  fun st => (sdk_getBondingCurveAccount (trace st) sdk mint,
             log (GetBondingCurveAccount sdk mint) st).

Definition buy (sdk : PumpFunSDK) (buyer : Keypair) (mint : PublicKey)
    (amount slippage : Z) (fees : option PriorityFee) : Eff TransactionResult :=
  fun st => (sdk_buy (trace st) sdk buyer mint amount slippage fees,
             log (Buy sdk buyer mint amount slippage fees) st).

Definition sell (sdk : PumpFunSDK) (seller : Keypair) (mint : PublicKey)
    (amount slippage : Z) : Eff TransactionResult :=
  fun st => (sdk_sell (trace st) sdk seller mint amount slippage,
             log (Sell sdk seller mint amount slippage) st).

Definition createAndBuy (sdk : PumpFunSDK) (creator mint : Keypair)
    (metadata : CreateTokenMetadata) (amount slippage : Z)
  : Eff TransactionResult :=
  fun st => (sdk_createAndBuy (trace st) sdk creator mint metadata amount slippage,
             log (CreateAndBuy sdk creator mint metadata amount slippage) st).

Definition generate : Eff Keypair :=
  fun st => (Ok (Keypair_generate (trace st)), log KeypairGenerate st).

End Calls.
End Sdk.
Import Sdk.

Notation "x <- m ;; k" := (bind m (fun x => k))
  (at level 100, m at next level, right associativity).
Notation "m ;;; k" := (bind m (fun _ => k))
  (at level 100, right associativity).

(** ** utils/provider *)

Module Provider.
Import Devnet.
Section WithRuntime.
Context `{Runtime}.

Record ProviderConfig := {
  rpcUrl : string;
  commitment : string;
  priorityFee : option number;
}.

Record ProviderManager := { config : ProviderConfig }.

(** [constructor(config?)] called without an argument. *)
Definition ProviderManager_new (env : Environment) : ProviderManager :=
  {| config :=
       {| rpcUrl := getDevnetRpcUrl env;
          commitment := or_string (env !! "COMMITMENT") SETTINGS_DEFAULT_COMMITMENT;
          priorityFee :=
            match env !! "PRIORITY_FEE" with
            | Some s => if truthy_string s then Some (parseInt s) else None
            | None => None
            end |} |}.

Definition createConnection (this : ProviderManager) : Result Connection :=
  Connection_new (rpcUrl (config this)) (commitment (config this)).

Definition createProvider (this : ProviderManager) (wallet : Keypair)
  : Result AnchorProvider :=
  let! connection := createConnection this in
  Ok (mkAnchorProvider connection wallet).

Definition validateConfig (this : ProviderManager) : bool * list string :=
  let errors : list string :=
    ((if truthy_string (rpcUrl (config this)) then []
      else ["No RPC URL configured"])
     ++ (if String_startsWith (rpcUrl (config this)) "http" then []
         else ["Invalid RPC URL format"])
     ++ (if existsb (String.eqb (commitment (config this)))
                    ["processed"; "confirmed"; "finalized"]
         then [] else ["Invalid commitment level"])
     ++ (match priorityFee (config this) with
         | Some fee => if (fee <? 0)%float
                       then ["Priority fee must be non-negative"] else []
         | None => []
         end))%list in
  (Nat.eqb (length errors) 0, errors).

End WithRuntime.
End Provider.

(** ** example/util *)

Module Util.
Section WithNetwork.
Context `{Network}.

Definition getSPLBalance (connection : Connection) (mint owner : PublicKey)
  : Eff number :=
  try_catch_eff
    (tokenAccounts <- getParsedTokenAccountsByOwner connection owner (ByMint mint) ;;
     match tokenAccounts with
     | [] => ret 0%float
     | first :: _ =>
         balance <- lift (parsed_uiAmount first) ;;
         ret (or_number balance 0%float)
     end)
    (fun error => ret 0%float).

Definition printSOLBalance (connection : Connection) (publicKey : PublicKey)
  : Eff unit :=
  try_catch_eff
    (balance <- getBalance connection publicKey ;; ret tt)
    (fun error => ret tt).

Definition printSPLBalance (connection : Connection) (mint owner : PublicKey)
  : Eff unit :=
  try_catch_eff
    (balance <- getSPLBalance connection mint owner ;; ret tt)
    (fun error => ret tt).

End WithNetwork.
End Util.

(** ** example/basic *)

Module Basic.
Import Util.
Section WithNetwork.
Context `{Network}.

Definition SLIPPAGE_BASIS_POINTS : Z := 100.

Definition createAndBuyToken (sdk : PumpFunSDK) (testAccount mint : Keypair)
  : Eff unit :=
  let tokenMetadata :=
    {| meta_name := "TST-7"; meta_symbol := "TST-7";
       meta_description := "TST-7: This is a test token";
       meta_file := {| blob_parts := ["Test token image"];
                       blob_type := "image/png" |} |} in
  try_catch_eff
    (amount <- lift (BigInt (0.0001 * LAMPORTS_PER_SOL)%float) ;;
     createResults <- createAndBuy sdk testAccount mint tokenMetadata
                        amount SLIPPAGE_BASIS_POINTS ;;
     if success createResults then
       printSPLBalance (connection sdk) (publicKey mint) (publicKey testAccount)
     else ret tt)
    (fun error => ret tt).

Definition buyTokens (sdk : PumpFunSDK) (testAccount mint : Keypair)
  : Eff unit :=
  try_catch_eff
    (tempMint <- generate ;;
     let tokenMetadata :=
       {| meta_name := "TEMP-BUY"; meta_symbol := "TEMP";
          meta_description := "Temporary token for buying";
          meta_file := {| blob_parts := ["Temp token"];
                          blob_type := "image/png" |} |} in
     amount <- lift (BigInt (0.0001 * LAMPORTS_PER_SOL)%float) ;;
     createResults <- createAndBuy sdk testAccount tempMint tokenMetadata
                        amount SLIPPAGE_BASIS_POINTS ;;
     if success createResults then
       printSPLBalance (connection sdk) (publicKey tempMint)
                       (publicKey testAccount) ;;;
       bondingCurveAccount <- getBondingCurveAccount sdk (publicKey tempMint) ;;
       ret tt
     else ret tt)
    (fun error => ret tt).

End WithNetwork.
End Basic.

(** ** buy-tokens: the TokenBuyer class and its main *)

Module TokenBuyer.
Import Devnet Wallet Provider.
Section WithPlatform.
Context `{Runtime} `{Network}.
Variable fs : FileSystem.
Variable env : Environment.

Inductive WalletType := Trading | Test.

Record BuyTokensConfig := {
  mintAddress : string;
  buyAmountSol : number;
  slippageBasisPoints : option number;
  walletType : option WalletType;
}.

Record TokenBuyer := {
  walletManager : WalletManager;
  providerManager : ProviderManager;
}.

(** [constructor()]; the field [sdk] starts as [null] in the state. *)
Definition TokenBuyer_new : TokenBuyer :=
  {| walletManager := WalletManager_new;
     providerManager := ProviderManager_new env |}.

Definition loadWallet (this : TokenBuyer) (walletType : WalletType)
  : Result Keypair :=
  match walletType with
  | Trading => loadTradingWallet fs (walletManager this)
  | Test => loadTestWallet fs (walletManager this)
  end.

Definition checkWalletBalance (this : TokenBuyer) (wallet : Keypair) : Eff unit :=
  sdk <- get_sdk ;;
  match sdk with
  | None => throw (Error "SDK not initialized")
  | Some sdk =>
      balance <- getBalance (connection sdk) (publicKey wallet) ;;
      ret tt
  end.

Definition initializeSDK (this : TokenBuyer) (walletType : WalletType) : Eff unit :=
  try_catch_eff
    (wallet <- lift (loadWallet this walletType) ;;
     provider <- lift (createProvider (providerManager this) wallet) ;;
     set_sdk (PumpFunSDK_new provider) ;;;
     checkWalletBalance this wallet)
    (fun error => throw error).

Definition getTokenInfo (this : TokenBuyer) (mintAddress : string) : Eff unit :=
  sdk <- get_sdk ;;
  match sdk with
  | None => throw (Error "SDK not initialized")
  | Some sdk =>
      try_catch_eff
        (mint <- lift (PublicKey_new mintAddress) ;;
         bondingCurveAccount <- getBondingCurveAccount sdk mint ;;
         match bondingCurveAccount with
         | Some account =>
             buyPrice <- lift (getBuyPrice account 1000) ;;
             sellPrice <- lift (getSellPrice account 1000 100) ;;
             ret tt
         | None => ret tt
         end)
        (fun error => throw error)
  end.

Definition buyTokens (this : TokenBuyer) (config : BuyTokensConfig) : Eff unit :=
  sdk <- get_sdk ;;
  match sdk with
  | None => throw (Error "SDK not initialized")
  | Some sdk =>
      try_catch_eff
        (let mintAddress := mintAddress config in
         let buyAmountSol := buyAmountSol config in
         let slippageBasisPoints :=
           default 500%float (slippageBasisPoints config) in
         let walletType := default Trading (walletType config) in
         wallet <- lift (loadWallet this walletType) ;;
         mint <- lift (PublicKey_new mintAddress) ;;
         buyAmountLamports <-
           lift (BigInt (Math_floor (buyAmountSol * LAMPORTS_PER_SOL)%float)) ;;
         getTokenInfo this mintAddress ;;;
         bondingCurveAccount <- getBondingCurveAccount sdk mint ;;
         match bondingCurveAccount with
         | None => throw (Error "Token not found on Pump.fun. Cannot buy.")
         | Some _ =>
             let priorityFees := {| unitLimit := 250000; unitPrice := 250000 |} in
             slippage <- lift (BigInt slippageBasisPoints) ;;
             result <- buy sdk wallet mint buyAmountLamports slippage
                         (Some priorityFees) ;;
             if negb (success result) then
               throw (Error ("Buy failed: "
                             +:+ or_string (error result) "Unknown error"))
             else
               confirmation <- confirmTransaction (connection sdk)
                                 (or_string (signature result) "") "confirmed" ;;
               match value_err confirmation with
               | Some err =>
                   throw (Error ("Transaction failed: " +:+ err))
               | None => getTokenInfo this mintAddress
               end
         end)
        (fun error => throw error)
  end.

Definition sellTokens (this : TokenBuyer) (mintAddress : string)
    (sellAmount : Z) (walletType : WalletType) : Eff unit :=
  sdk <- get_sdk ;;
  match sdk with
  | None => throw (Error "SDK not initialized")
  | Some sdk =>
      try_catch_eff
        (wallet <- lift (loadWallet this walletType) ;;
         mint <- lift (PublicKey_new mintAddress) ;;
         result <- sell sdk wallet mint sellAmount 500 ;;
         if negb (success result) then
           throw (Error ("Sell failed: "
                         +:+ or_string (error result) "Unknown error"))
         else
           confirmation <- confirmTransaction (connection sdk)
                             (or_string (signature result) "") "confirmed" ;;
           match value_err confirmation with
           | Some err => throw (Error ("Transaction failed: " +:+ err))
           | None => ret tt
           end)
        (fun error => throw error)
  end.

Definition listWallets (this : TokenBuyer) : Eff unit :=
  wallets <- lift (listAvailableWallets fs (walletManager this)) ;;
  ret tt.

(** How the Node process ends once [main()] has settled. *)
Inductive ProcessOutcome :=
| Completed
| Exited (code : Z)
| UnhandledRejection (e : JsError).

Definition buyConfig : BuyTokensConfig :=
  {| mintAddress := "7vS7ViHrrMSx19kG95k1KKDFDdq3YTBZNJrDwhPTTj9v";
     buyAmountSol := 0.0001%float;
     slippageBasisPoints := Some 500%float;
     walletType := Some Trading |}.

Definition main_body : Eff unit :=
  let buyer := TokenBuyer_new in
  listWallets buyer ;;;
  initializeSDK buyer Trading ;;;
  buyTokens buyer buyConfig.

(** [try { ... } catch (error) { console.error(...); process.exit(1); }] *)
Definition main (st : State) : ProcessOutcome * State :=
  match main_body st with
  | (Ok _, st') => (Completed, st')
  | (Throw error, st') => (Exited 1, st')
  end.

End WithPlatform.
End TokenBuyer.

(** ** example/basic: the rest of the script, with getOrCreateKeypair of
    example/util *)

Module Example.
Import Devnet Util Basic.

(** Truthiness of [process.env.NAME]: set, and not to the empty string. *)
Definition truthy_env (v : option string) : bool :=
  match v with Some s => truthy_string s | None => false end.

(** [Math.pow(10, n)] for an integer [n] from 0 to 22, where the power is
    a number. *)
Definition Math_pow10 (n : Z) : number := number_of_Z (10 ^ n).

(** [new PublicKey("TokenkegQfeZyiNwAJbNbGKPFXCWuBvf9Ss623VQ5DA")] *)
Definition TOKEN_PROGRAM_ID : string :=
  "TokenkegQfeZyiNwAJbNbGKPFXCWuBvf9Ss623VQ5DA".

(** [const balance = Number(uiAmount); if (balance > 0)]: the balance when
    it is above zero.  [Number(null)] is 0 and [Number(undefined)] is NaN;
    neither is above zero. *)
Definition positive_balance (uiAmount : option number) : option number :=
  match uiAmount with
  | Some balance => if (0 <? balance)%float then Some balance else None
  | None => None
  end.

(** The [for ... of] loop of [sellTokens]: the first account with a
    balance above zero.  Reading the balance of an account may throw. *)
Fixpoint firstWithBalance (accounts : list ParsedTokenAccount)
  : Result (option (PublicKey * number)) :=
  match accounts with
  | [] => Ok None
  | account :: rest =>
      let! uiAmount := parsed_uiAmount account in
      match positive_balance uiAmount with
      | Some balance => Ok (Some (pubkey account, balance))
      | None => firstWithBalance rest
      end
  end.

(** The file system with the operations that change it, over states of
    the disk of type [D]. *)
Record MutableFs (D : Type) := {
  view : D -> FileSystem;
  (** [mkdirSync(path, { recursive: true })] *)
  mkdirSync : D -> string -> Result unit * D;
  (** [writeFileSync(path, data)] *)
  writeFileSync : D -> string -> string -> Result unit * D;
}.
Arguments view {D} _ _.
Arguments mkdirSync {D} _ _ _.
Arguments writeFileSync {D} _ _ _ _.

Section WithPlatform.
Context `{Runtime} `{Network}.
Context {D : Type}.
Variable disk : MutableFs D.
(** [new Connection(rpcUrl)], the commitment left to its default *)
Variable Connection_of : string -> Result Connection.
(** [new Uint8Array(value)] for a value that is not an array *)
Variable Uint8Array_of : Json -> Result (list Z).
(** [JSON.stringify(Array.from(secretKey))] *)
Variable JSON_stringify : list Z -> string.
(** [__dirname] *)
Variable dirname : string.

Definition KEYS_FOLDER : string := dirname +:+ "/.keys".

(** A synchronous or asynchronous part of the script: it may change the
    disk, call the network, and throw. *)
Definition Script (A : Type) : Type := D -> State -> Result A * D * State.

Definition retS {A} (a : A) : Script A := fun d st => (Ok a, d, st).

Definition bindS {A B} (m : Script A) (k : A -> Script B) : Script B :=
  fun d st =>
    match m d st with
    | (Ok a, d', st') => k a d' st'
    | (Throw e, d', st') => (Throw e, d', st')
    end.

(** A computation that leaves the disk alone. *)
Definition liftE {A} (m : Eff A) : Script A :=
  fun d st => let '(r, st') := m st in (r, d, st').

(** An operation of the file system. *)
Definition on_disk {A} (op : D -> Result A * D) : Script A :=
  fun d st => let '(r, d') := op d in (r, d', st).

(** A look at the file system. *)
Definition look {A} (f : FileSystem -> Result A) : Script A :=
  fun d st => (f (view disk d), d, st).

(** [try { body } catch (error) { handler }] *)
Definition try_catch_script {A} (body : Script A)
    (handler : JsError -> Script A) : Script A :=
  fun d st =>
    match body d st with
    | (Ok a, d', st') => (Ok a, d', st')
    | (Throw e, d', st') => handler e d' st'
    end.

Notation "x <~ m ;; k" := (bindS m (fun x => k))
  (at level 100, m at next level, right associativity).
Notation "m ~;; k" := (bindS m (fun _ => k))
  (at level 100, right associativity).

(** [new Uint8Array(secretKey)] for what [JSON.parse] returned. *)
Definition Uint8Array_new (value : Json) : Result (list Z) :=
  match value with
  | JArray items => Ok (map ToUint8 items)
  | _ => Uint8Array_of value
  end.

(** [getProvider] of example/basic (and, word for word, of
    example/events).  [new Keypair()] draws a fresh keypair like
    [Keypair.generate()]. *)
Definition getProvider (env : Environment) : Eff AnchorProvider :=
  if negb (truthy_env (env !! "DEVNET_RPC_URL"))
     && negb (truthy_env (env !! "HELIUS_RPC_URL")) then
    throw (Error "Please set DEVNET_RPC_URL or HELIUS_RPC_URL in .env file")
  else
    let rpcUrl :=
      or_string (or_string_opt (env !! "DEVNET_RPC_URL") (env !! "HELIUS_RPC_URL"))
                "" in
    connection <- lift (Connection_of rpcUrl) ;;
    wallet <- generate ;;
    ret (mkAnchorProvider connection wallet).

(** [getOrCreateKeypair] of example/util *)
Definition getOrCreateKeypair (folder name : string) : Script Keypair :=
  let filePath := path_join folder (name +:+ ".json") in
  folderExists <~ look (fun fs => Ok (existsSync fs folder)) ;;
  (if negb folderExists then on_disk (fun d => mkdirSync disk d folder)
   else retS tt) ~;;
  fileExists <~ look (fun fs => Ok (existsSync fs filePath)) ;;
  if fileExists then
    text <~ look (fun fs => readFileSync fs filePath) ;;
    secretKey <~ liftE (lift (JSON_parse text)) ;;
    bytes <~ liftE (lift (Uint8Array_new secretKey)) ;;
    liftE (lift (Keypair_fromSecretKey bytes))
  else
    keypair <~ liftE generate ;;
    on_disk (fun d => writeFileSync disk d filePath
                        (JSON_stringify (secretKey keypair))) ~;;
    retS keypair.

Definition sellTokens (sdk : PumpFunSDK) (testAccount mint : Keypair)
  : Eff unit :=
  try_catch_eff
    (programId <- lift (PublicKey_new TOKEN_PROGRAM_ID) ;;
     tokenAccounts <- getParsedTokenAccountsByOwner (connection sdk)
                        (publicKey testAccount) (ByProgramId programId) ;;
     match tokenAccounts with
     | [] => ret tt
     | _ :: _ =>
         found <- lift (firstWithBalance tokenAccounts) ;;
         match found with
         | None => ret tt
         | Some (tokenToSell, tokenBalance) =>
             try_catch_eff
               (amount <- lift (BigInt (tokenBalance
                                         * Math_pow10 DEFAULT_DECIMALS)%float) ;;
                sellResults <- sell sdk testAccount (publicKey mint) amount
                                 SLIPPAGE_BASIS_POINTS ;;
                if success sellResults then
                  printSOLBalance (connection sdk) (publicKey testAccount) ;;;
                  bondingCurveAccount <-
                    getBondingCurveAccount sdk (publicKey mint) ;;
                  ret tt
                else ret tt)
               (fun sellError => ret tt)
         end
     end)
    (fun error => ret tt).

(** [main] of example/basic *)
Definition main (env : Environment) : Script unit :=
  try_catch_script
    (provider <~ liftE (getProvider env) ;;
     let sdk := PumpFunSDK_new provider in
     let connection := provider_connection provider in
     testAccount <~ getOrCreateKeypair KEYS_FOLDER "test-account" ;;
     mint <~ getOrCreateKeypair KEYS_FOLDER "mint" ;;
     liftE (printSOLBalance connection (publicKey testAccount)) ~;;
     currentSolBalance <~ liftE (getBalance connection (publicKey testAccount)) ;;
     found <~ liftE (getBondingCurveAccount sdk (publicKey mint)) ;;
     bondingCurveAccount <~
       match found with
       | Some account => retS (Some account)
       | None =>
           if (0 <? currentSolBalance)%float then
             liftE (createAndBuyToken sdk testAccount mint) ~;;
             liftE (getBondingCurveAccount sdk (publicKey mint))
           else retS None
       end ;;
     match bondingCurveAccount with
     | Some account =>
         currentPrice <~ liftE (lift (getBuyPrice account 1000)) ;;
         if (0 <? currentSolBalance)%float then
           liftE (Basic.buyTokens sdk testAccount mint) ~;;
           liftE (sellTokens sdk testAccount mint)
         else retS tt
     | None => retS tt
     end)
    (fun error => retS tt).

End WithPlatform.
End Example.

(** ** create-and-buy: TokenCreator.getTokenInfo

    The state's SDK field stands for [TokenCreator.sdk] here. *)

Module Creator.
Section WithPlatform.
Context `{Runtime} `{Network}.

Definition getTokenInfo (mintAddress : string) : Eff unit :=
  sdk <- get_sdk ;;
  match sdk with
  | None => throw (Error "SDK not initialized")
  | Some sdk =>
      try_catch_eff
        (mint <- lift (PublicKey_new mintAddress) ;;
         bondingCurveAccount <- getBondingCurveAccount sdk mint ;;
         ret tt)
        (fun error => ret tt)
  end.

End WithPlatform.
End Creator.

(** ** The transaction orchestrator of the specification

    The specification describes a transaction submission and confirmation
    orchestrator (its sections 3 to 7) that the scripts do not contain:
    they hand every operation to the SDK.  The definitions of this module
    follow the specification's text. *)

Module Orchestrator.

(** Modelled from the spec: the operation kinds of a TradeIntent (section
    3); no source file declares the data model of the orchestrator. *)
Inductive OperationKind := Buy | Sell | CreateAndBuy.

(** Modelled from the spec: TradeIntent of section 3; amounts are
    integers in the smallest unit, the tolerance is in basis points. *)
Record TradeIntent := {
  operationKind : OperationKind;
  account : string;
  asset : string;
  amount : Z;
  slippageBps : Z;
  priorityFeeHint : option Z;
}.

(** Modelled from the spec: BondingCurveState of section 3. *)
Record BondingCurveState := {
  virtualBase : Z;
  virtualQuote : Z;
  realBase : Z;
  totalSupply : Z;
}.

(** Modelled from the spec: the direction argument of
    PriceModel.quoteOutput (section 4.3). *)
Inductive Direction := QuoteToBase | BaseToQuote.

(** Modelled from the spec: a purchase and a creation pay quote for base,
    a sale pays base for quote. *)
Definition direction (kind : OperationKind) : Direction :=
  match kind with
  | Buy | CreateAndBuy => QuoteToBase
  | Sell => BaseToQuote
  end.

(** Modelled from the spec: PriceModel.quoteOutput of section 4.3.  The
    specification fixes no formula beyond "product-based pricing"; the
    constant-product rule in integer arithmetic is used. *)
Definition quoteOutput (st : BondingCurveState) (inputAmount : Z)
    (dir : Direction) : Z :=
  match dir with
  | QuoteToBase => virtualBase st * inputAmount / (virtualQuote st + inputAmount)
  | BaseToQuote => virtualQuote st * inputAmount / (virtualBase st + inputAmount)
  end.

(** Modelled from the spec: PriceModel.minAcceptable of section 4.3,
    "floor = expected x (1 - slippageBps/10000)" in integer arithmetic. *)
Definition minAcceptable (expectedOutput slippageBps : Z) : Z :=
  expectedOutput * (10000 - slippageBps) / 10000.

(** Modelled from the spec: the reasons of a ledger-side refusal that
    section 4.1 names (slippage check failed, insufficient funds detected
    at execution time, duplicate or stale submission). *)
Inductive LedgerError :=
| SlippageExceeded
| InsufficientFundsAtExecution
| DuplicateOrStale.

(** Modelled from the spec: the error taxonomy of section 7, with
    [KeyNotFound] of the KeyStore interface of section 6. *)
Inductive OperationError :=
| InvalidParameter
| InsufficientFunds
| AssetNotFound
| KeyNotFound
| NetworkError
| Rejected (detail : LedgerError)
| FailedExhaustedRetries.

(** Modelled from the spec: OperationOutcome of section 4.1, the typed
    result of [execute]: the confirmed submission or a terminal error. *)
Inductive OperationOutcome :=
| OutcomeConfirmed (submissionId : nat)
| OutcomeError (e : OperationError).

(** Modelled from the spec: the states of the submission and confirmation
    state machine of section 4.1. *)
Inductive MachineState :=
| Created
| Submitted
| Confirmed
| RejectedState
| TimedOut.

(** Modelled from the spec: the answers of ChainClient.getStatus of
    section 6. *)
Inductive ChainStatus :=
| ChainPending
| ChainConfirmed
| ChainRejected (detail : LedgerError)
| ChainUnknown.

(** Modelled from the spec: the status of a SubmissionRecord (section
    3). *)
Inductive RecordStatus := RecPending | RecConfirmed | RecFailed | RecExpired.

(** Modelled from the spec: SubmissionRecord of section 3. *)
Record SubmissionRecord := {
  rec_intent : TradeIntent;
  rec_submissionId : option nat;
  rec_submittedAt : Z;
  rec_status : RecordStatus;
  rec_retryCount : nat;
  rec_lastError : option OperationError;
}.

(** Modelled from the spec: what is handed to ChainClient.submit, the
    intent with its idempotency key {intent hash, retry count} and the
    floor the ledger is to enforce. *)
Record SignedOperation := {
  op_key : N * nat;
  op_intent : TradeIntent;
  op_minOut : Z;
}.

(** Modelled from the spec: how the ledger finalizes a submission
    (section 4.1): without error, with the realized output, or with an
    error. *)
Inductive Finalized :=
| FinalOk (realized : Z)
| FinalErr (detail : LedgerError).

(** Modelled from the spec: the ledger-side check of section 4.1.  A
    delivered operation is executed against the curve as it stands at
    that moment; the ledger refuses it when the realized output is below
    the floor it carries, or for a reason of its own. *)
Definition finalize (op : SignedOperation) (curveAtExecution : BondingCurveState)
    (refusal : option LedgerError) : Finalized :=
  match refusal with
  | Some detail => FinalErr detail
  | None =>
      let realized :=
        quoteOutput curveAtExecution (amount (op_intent op))
                    (direction (operationKind (op_intent op))) in
      if realized <? op_minOut op then FinalErr SlippageExceeded
      else FinalOk realized
  end.

(** Modelled from the spec: what may happen to a call of
    ChainClient.submit (section 6): a NetworkError, or delivery to the
    ledger, whose curve other users may have moved meanwhile. *)
Inductive SubmitNet :=
| NetworkDown
| Delivered (curveAtExecution : BondingCurveState) (refusal : option LedgerError).

(** Modelled from the spec: what may happen to a call of
    ChainClient.getStatus (section 6): the ledger's answer gets through,
    or the client answers "pending" or "unknown" by itself. *)
Inductive StatusNet :=
| Answered
| StillPending
| NotFound.

(** Modelled from the spec: everything outside the orchestrator (sections
    2 and 6): the curve the PriceModel resolves for an asset, the keys the
    KeyStore holds, and, call by call, what the network does to a
    submission, to a status query and what a balance query reads. *)
Record Scenario := {
  lookupCurve : string -> option BondingCurveState;
  hasKey : string -> bool;
  onSubmit : nat -> SubmitNet;
  onStatus : nat -> StatusNet;
  onBalance : nat -> Z;
}.

(** Modelled from the spec: the remote ledger behind the ChainClient: the
    finalized submissions by id, the next id, and the calls counted. *)
Record World := mkWorld {
  ledger : gmap nat (SignedOperation * Finalized);
  nextId : nat;
  submitCalls : nat;
  statusCalls : nat;
  balanceCalls : nat;
}.

(** Modelled from the spec: what an execution does, in order: the calls
    of the ChainClient with their answers, the transitions of the state
    machine of section 4.1 and the data-integrity warnings. *)
Inductive Event :=
| EvSubmit (key : N * nat) (handle : option nat)
| EvGetStatus (submissionId : nat) (answer : ChainStatus)
| EvReadBalance (account asset : string) (answer : Z)
| EvTransition (submissionId : nat) (from to : MachineState)
| EvIntegrityWarning (submissionId : nat).

(** Modelled from the spec: the configured values sections 4 and 5 name:
    maximum retry count, wait budget (as a number of polls), dedup window
    and estimated fee. *)
Record Config := {
  maxRetries : nat;
  maxPolls : nat;
  dedupWindow : Z;
  estimatedFee : Z;
  initialCurve : BondingCurveState;
  quoteAsset : string;
}.

(** Modelled from the spec: the state an execution runs in, the ledger
    behind the ChainClient and the OperationLog. *)
Record Sys := mkSys {
  world : World;
  oplog : gmap N SubmissionRecord;
}.

Section WithScenario.
Variable cfg : Config.
Variable sc : Scenario.
Variable intentHash : TradeIntent -> N.

(** Modelled from the spec: ChainClient.submit of section 6.  A delivered
    operation gets the next id and is finalized by the ledger. *)
Definition submit (op : SignedOperation) (w : World)
  : option nat * World * list Event :=
  match onSubmit sc (submitCalls w) with
  | NetworkDown =>
      (None,
       mkWorld (ledger w) (nextId w) (S (submitCalls w)) (statusCalls w)
               (balanceCalls w),
       [EvSubmit (op_key op) None])
  | Delivered curveAtExecution refusal =>
      (Some (nextId w),
       mkWorld (<[nextId w := (op, finalize op curveAtExecution refusal)]> (ledger w))
               (S (nextId w)) (S (submitCalls w)) (statusCalls w)
               (balanceCalls w),
       [EvSubmit (op_key op) (Some (nextId w))])
  end.

(** Modelled from the spec: ChainClient.getStatus of section 6.
    "Confirmed" and "rejected" are answers of the ledger. *)
Definition getStatus (submissionId : nat) (w : World)
  : ChainStatus * World * list Event :=
  let answer :=
    match onStatus sc (statusCalls w) with
    | StillPending => ChainPending
    | NotFound => ChainUnknown
    | Answered =>
        match ledger w !! submissionId with
        | Some (_, FinalOk _) => ChainConfirmed
        | Some (_, FinalErr detail) => ChainRejected detail
        | None => ChainUnknown
        end
    end in
  (answer,
   mkWorld (ledger w) (nextId w) (submitCalls w) (S (statusCalls w))
           (balanceCalls w),
   [EvGetStatus submissionId answer]).

(** Modelled from the spec: ChainClient.readBalance of section 6. *)
Definition readBalance (acct ast : string) (w : World)
  : Z * World * list Event :=
  let answer := onBalance sc (balanceCalls w) in
  (answer,
   mkWorld (ledger w) (nextId w) (submitCalls w) (statusCalls w)
           (S (balanceCalls w)),
   [EvReadBalance acct ast answer]).

(** Modelled from the spec: OperationLog.record of section 4.2, keyed by
    intent hash. *)
Definition record (r : SubmissionRecord) (log : gmap N SubmissionRecord)
  : gmap N SubmissionRecord :=
  <[intentHash (rec_intent r) := r]> log.

(** Modelled from the spec: OperationLog.lookup of section 4.2. *)
Definition lookup (h : N) (log : gmap N SubmissionRecord)
  : option SubmissionRecord := log !! h.

(** Modelled from the spec: a record with its status changed. *)
Definition set_status (st : RecordStatus) (r : SubmissionRecord)
  : SubmissionRecord :=
  {| rec_intent := rec_intent r; rec_submissionId := rec_submissionId r;
     rec_submittedAt := rec_submittedAt r; rec_status := st;
     rec_retryCount := rec_retryCount r; rec_lastError := rec_lastError r |}.

(** Modelled from the spec: OperationLog.updateStatus of section 4.2. *)
Definition updateStatus (h : N) (st : RecordStatus)
    (log : gmap N SubmissionRecord) : gmap N SubmissionRecord :=
  alter (set_status st) h log.

(** Modelled from the spec: the duplicate detection of section 4.2, the
    record of an earlier execution of the same intent hash when it is
    within the dedup window. *)
Definition dedupHit (now : Z) (intent : TradeIntent)
    (log : gmap N SubmissionRecord) : option SubmissionRecord :=
  match lookup (intentHash intent) log with
  | Some r => if now - rec_submittedAt r <=? dedupWindow cfg then Some r else None
  | None => None
  end.

(** Modelled from the spec: "returns the prior outcome" (section 4.2),
    the outcome a record stands for; a duplicate of an intent that is
    still in flight is refused. *)
Definition outcome_of_record (r : SubmissionRecord) : OperationOutcome :=
  match rec_status r, rec_submissionId r with
  | RecConfirmed, Some submissionId => OutcomeConfirmed submissionId
  | RecPending, _ => OutcomeError (Rejected DuplicateOrStale)
  | _, _ => OutcomeError (default FailedExhaustedRetries (rec_lastError r))
  end.

(** Modelled from the spec: the asset an operation spends (section
    4.1). *)
Definition spendingAsset (intent : TradeIntent) : string :=
  match operationKind intent with
  | Sell => asset intent
  | Buy | CreateAndBuy => quoteAsset cfg
  end.

(** Modelled from the spec: the asset an operation receives (section
    4.1). *)
Definition receivingAsset (intent : TradeIntent) : string :=
  match operationKind intent with
  | Sell => quoteAsset cfg
  | Buy | CreateAndBuy => asset intent
  end.

(** Modelled from the spec: the curve the quote is computed from: "For
    Buy/Sell: target asset must exist/resolve via PriceModel lookup"; a
    creation starts from the configured initial curve. *)
Definition curveFor (intent : TradeIntent) : option BondingCurveState :=
  match operationKind intent with
  | CreateAndBuy => Some (initialCurve cfg)
  | Buy | Sell => lookupCurve sc (asset intent)
  end.

(** Modelled from the spec: what one execution carries from its
    precondition checks on: the intent, the floor, the time, and the
    balances read before submission. *)
Record Attempt := {
  at_intent : TradeIntent;
  at_floor : Z;
  at_now : Z;
  at_spentBefore : Z;
  at_receivedBefore : Z;
}.

(** Modelled from the spec: the SubmissionRecord of an attempt. *)
Definition the_record (ctx : Attempt) (submissionId : option nat)
    (retryCount : nat) (st : RecordStatus) (err : option OperationError)
  : SubmissionRecord :=
  {| rec_intent := at_intent ctx; rec_submissionId := submissionId;
     rec_submittedAt := at_now ctx; rec_status := st;
     rec_retryCount := retryCount; rec_lastError := err |}.

(** Modelled from the spec: how a wait ends (section 4.1). *)
Inductive PollResult :=
| PollConfirmed
| PollRejected (detail : LedgerError)
| PollTimedOut.

(** Modelled from the spec: the confirmation poll of sections 4.1 and 5;
    the bounded wait budget is a bound on the number of polls. *)
Fixpoint poll (n : nat) (submissionId : nat) (w : World)
  : PollResult * World * list Event :=
  match n with
  | O => (PollTimedOut, w, [])
  | S n' =>
      let '(st, w1, ev1) := getStatus submissionId w in
      match st with
      | ChainConfirmed => (PollConfirmed, w1, ev1)
      | ChainRejected detail => (PollRejected detail, w1, ev1)
      | ChainPending | ChainUnknown =>
          let '(r, w2, ev2) := poll n' submissionId w1 in
          (r, w2, (ev1 ++ ev2)%list)
      end
  end.

Notation Run := (OperationOutcome * Sys * list Event)%type.

(** Modelled from the spec: the transition to Confirmed and the
    postcondition verification of section 4.1; a mismatch is logged, the
    outcome stands. *)
Definition confirm (ctx : Attempt) (from : MachineState) (submissionId : nat)
    (s : Sys) : Run :=
  let intent := at_intent ctx in
  let '(spentAfter, w1, ev1) :=
    readBalance (account intent) (spendingAsset intent) (world s) in
  let '(receivedAfter, w2, ev2) :=
    readBalance (account intent) (receivingAsset intent) w1 in
  let moved :=
    (spentAfter <? at_spentBefore ctx) && (at_receivedBefore ctx <? receivedAfter) in
  (OutcomeConfirmed submissionId,
   mkSys w2 (updateStatus (intentHash intent) RecConfirmed (oplog s)),
   ([EvTransition submissionId from Confirmed] ++ ev1 ++ ev2
    ++ (if moved then [] else [EvIntegrityWarning submissionId]))%list).

(** Modelled from the spec: the transition to Rejected, terminal. *)
Definition reject (ctx : Attempt) (from : MachineState) (submissionId : nat)
    (retryCount : nat) (detail : LedgerError) (s : Sys) : Run :=
  (OutcomeError (Rejected detail),
   mkSys (world s)
         (record (the_record ctx (Some submissionId) retryCount RecFailed
                             (Some (Rejected detail))) (oplog s)),
   [EvTransition submissionId from RejectedState]).

(** Modelled from the spec: "Failed: exhausted retries". *)
Definition exhaust (ctx : Attempt) (submissionId : option nat)
    (retryCount : nat) (s : Sys) : Run :=
  (OutcomeError FailedExhaustedRetries,
   mkSys (world s)
         (record (the_record ctx submissionId retryCount RecFailed
                             (Some FailedExhaustedRetries)) (oplog s)),
   []).

(** Modelled from the spec: what an attempt begins with: a new
    submission, or a further wait for a submission still pending. *)
Inductive Phase :=
| DoSubmit
| DoWait (submissionId : nat).

(** Modelled from the spec: the retry budget of section 4.1, the next
    attempt when the budget allows one ([again]), "Failed: exhausted
    retries" when it does not. *)
Definition retry_or_fail (again : option (Phase -> nat -> Sys -> Run))
    (ctx : Attempt) (phase : Phase) (submissionId : option nat)
    (retryCount : nat) (s : Sys) : Run :=
  match again with
  | Some run => run phase (S retryCount) s
  | None => exhaust ctx submissionId retryCount s
  end.

(** Modelled from the spec: waiting on a submission.  On a timeout the
    status of that submission is queried again, and only the answer
    "unknown" leads to a new submission; on "pending" the orchestrator
    goes on waiting for the same submission. *)
Definition await (again : option (Phase -> nat -> Sys -> Run))
    (ctx : Attempt) (submissionId : nat) (retryCount : nat) (s : Sys) : Run :=
  let '(r, w1, ev1) := poll (maxPolls cfg) submissionId (world s) in
  let s1 := mkSys w1 (oplog s) in
  match r with
  | PollConfirmed =>
      let '(o, s2, ev2) := confirm ctx Submitted submissionId s1 in
      (o, s2, (ev1 ++ ev2)%list)
  | PollRejected detail =>
      let '(o, s2, ev2) := reject ctx Submitted submissionId retryCount detail s1 in
      (o, s2, (ev1 ++ ev2)%list)
  | PollTimedOut =>
      let '(st, w2, ev2) := getStatus submissionId w1 in
      let s2 := mkSys w2 (oplog s) in
      let evs := (ev1 ++ [EvTransition submissionId Submitted TimedOut] ++ ev2)%list in
      match st with
      | ChainUnknown =>
          let '(o, s3, ev3) :=
            retry_or_fail again ctx DoSubmit (Some submissionId) retryCount s2 in
          (o, s3, (evs ++ ev3)%list)
      | ChainPending =>
          let '(o, s3, ev3) :=
            retry_or_fail again ctx (DoWait submissionId) (Some submissionId)
                          retryCount s2 in
          (o, s3, (evs ++ ev3)%list)
      | ChainConfirmed =>
          let '(o, s3, ev3) := confirm ctx TimedOut submissionId s2 in
          (o, s3, (evs ++ ev3)%list)
      | ChainRejected detail =>
          let '(o, s3, ev3) :=
            reject ctx TimedOut submissionId retryCount detail s2 in
          (o, s3, (evs ++ ev3)%list)
      end
  end.

(** Modelled from the spec: one attempt.  A submission carries the
    idempotency key {intent hash, retry count} and the floor; the record
    is written to the log before the wait begins; a NetworkError of
    submit is retried. *)
Definition step (again : option (Phase -> nat -> Sys -> Run))
    (ctx : Attempt) (phase : Phase) (retryCount : nat) (s : Sys) : Run :=
  match phase with
  | DoWait submissionId => await again ctx submissionId retryCount s
  | DoSubmit =>
      let op := {| op_key := (intentHash (at_intent ctx), retryCount);
                   op_intent := at_intent ctx;
                   op_minOut := at_floor ctx |} in
      let '(handle, w1, ev1) := submit op (world s) in
      match handle with
      | None =>
          let s1 := mkSys w1 (record (the_record ctx None retryCount RecPending
                                                 (Some NetworkError)) (oplog s)) in
          let '(o, s2, ev2) := retry_or_fail again ctx DoSubmit None retryCount s1 in
          (o, s2, (ev1 ++ ev2)%list)
      | Some submissionId =>
          let s1 := mkSys w1 (record (the_record ctx (Some submissionId) retryCount
                                                 RecPending None) (oplog s)) in
          let '(o, s2, ev2) := await again ctx submissionId retryCount s1 in
          (o, s2, (ev1 ++ [EvTransition submissionId Created Submitted] ++ ev2)%list)
      end
  end.

(** Modelled from the spec: the attempts of one execution; [fuel]
    further attempts are allowed after this one. *)
Fixpoint run (fuel : nat) (ctx : Attempt) (phase : Phase) (retryCount : nat)
    (s : Sys) : Run :=
  step (match fuel with O => None | S fuel' => Some (run fuel' ctx) end)
       ctx phase retryCount s.

(** Modelled from the spec: Orchestrator.execute of section 4.1.  A
    duplicate within the dedup window gets the earlier outcome; otherwise
    the preconditions are checked in the order the specification lists
    them, the floor is computed, and at most [maxRetries] attempts are
    made. *)
Definition execute (now : Z) (intent : TradeIntent) (s : Sys) : Run :=
  match dedupHit now intent (oplog s) with
  | Some r => (outcome_of_record r, s, [])
  | None =>
      let '(spentBefore, w1, ev1) :=
        readBalance (account intent) (spendingAsset intent) (world s) in
      if spentBefore <? amount intent + estimatedFee cfg then
        (OutcomeError InsufficientFunds, mkSys w1 (oplog s), ev1)
      else
        match curveFor intent with
        | None => (OutcomeError AssetNotFound, mkSys w1 (oplog s), ev1)
        | Some curve =>
            if negb ((0 <=? slippageBps intent) && (slippageBps intent <=? 10000))
            then (OutcomeError InvalidParameter, mkSys w1 (oplog s), ev1)
            else if negb (hasKey sc (account intent))
            then (OutcomeError KeyNotFound, mkSys w1 (oplog s), ev1)
            else
              let expected :=
                quoteOutput curve (amount intent)
                            (direction (operationKind intent)) in
              let floor := minAcceptable expected (slippageBps intent) in
              let '(receivedBefore, w2, ev2) :=
                readBalance (account intent) (receivingAsset intent) w1 in
              let ctx := {| at_intent := intent; at_floor := floor;
                            at_now := now; at_spentBefore := spentBefore;
                            at_receivedBefore := receivedBefore |} in
              let '(o, s', ev3) :=
                run (maxRetries cfg - 1) ctx DoSubmit 0 (mkSys w2 (oplog s)) in
              (o, s', (ev1 ++ ev2 ++ ev3)%list)
        end
  end.

End WithScenario.
End Orchestrator.

(** * The vocabulary of the properties

    The predicates the statements below are written with, and the concrete
    platforms and scenarios the scripts and the orchestrator are run
    on. *)

Module Props.

(** A variable that is not set and a variable set to the empty string are
    both falsy for [||]. *)
Definition unset_or_empty (v : option string) : Prop := v = None \/ v = Some "".

(** The file holds a JSON array of exactly 64 elements. *)
Definition holds_key_array `{Runtime} (fs : FileSystem) (filePath : string) : Prop :=
  exists data items,
    readFileSync fs filePath = Ok data
    /\ JSON_parse data = Ok (JArray items)
    /\ length items = 64%nat.

(** A call of the SDK's [buy]. *)
Definition is_buy_call (c : Call) : bool :=
  match c with
  | Buy _ _ _ _ _ _ => true
  | _ => false
  end.

(** The metadata of the throwaway token. *)
Definition tempTokenMetadata : CreateTokenMetadata :=
  {| meta_name := "TEMP-BUY"; meta_symbol := "TEMP";
     meta_description := "Temporary token for buying";
     meta_file := {| blob_parts := ["Temp token"]; blob_type := "image/png" |} |}.

(** [m] appends to the trace and never rewrites it. *)
Definition appends {A} (m : Eff A) : Prop :=
  forall st, exists calls, trace (snd (m st)) = (trace st ++ calls)%list.

Section WithNetwork.
Context `{Network}.

(** The trace holds a call of [sdk.buy] that was answered with a
    successful result. *)
Definition bought (tr : Trace) : Prop :=
  exists before after sdk buyer mint amount slippage fees result,
    tr = (before ++ Buy sdk buyer mint amount slippage fees :: after)%list
    /\ sdk_buy before sdk buyer mint amount slippage fees = Ok result
    /\ success result = true.

(** The trace holds a call of [confirmTransaction] that was answered
    without an error. *)
Definition confirmed (tr : Trace) : Prop :=
  exists before after c sig commitment confirmation,
    tr = (before ++ ConfirmTransaction c sig commitment :: after)%list
    /\ connection_confirmTransaction before c sig commitment = Ok confirmation
    /\ value_err confirmation = None.

End WithNetwork.
End Props.

(** ** A concrete platform to run the scripts on *)

Module Fixture.
Import Devnet Wallet Provider TokenBuyer.

(** The text of a wallet file: a JSON array of 64 ones. *)
Definition walletJson : string :=
  "[" +:+ String.concat "," (repeat "1" 64) +:+ "]".

Definition endsWith (s suffix : string) : bool :=
  let n := String.length s in
  let k := String.length suffix in
  Nat.leb k n && String.eqb (substring (n - k) k s) suffix.

Definition includes (s part : string) : bool :=
  match index 0 part s with Some _ => true | None => false end.

(** A runtime that parses the one wallet text and accepts every key. *)
Definition runtime : Runtime := {|
  path_join := fun a b => a +:+ "/" +:+ b;
  JSON_parse := fun text =>
    if String.eqb text walletJson then Ok (JArray (repeat (JNumber 1%float) 64))
    else Throw (mkJsError "SyntaxError" "Unexpected token");
  ToUint8 := fun j =>
    match j with
    | JNumber x => default 0 (integer_value x) mod 256
    | _ => 0
    end;
  Keypair_fromSecretKey := fun bytes => Ok (mkKeypair (mkPublicKey "TradingWallet") bytes);
  PublicKey_new := fun text => Ok (mkPublicKey text);
  String_trim := fun s => s;
  String_split := fun s sep => [s];
  String_endsWith := endsWith;
  String_startsWith := fun s p => String.prefix p s;
  String_includes := includes;
  parseInt := fun s => PrimFloat.nan;
  Connection_new := fun endpoint commitment =>
    if String.prefix "http" endpoint then Ok (mkConnection endpoint commitment)
    else Throw (TypeError "Endpoint URL must start with http: or https:");
|}.

(** A wallets directory holding [trading-wallet.json]. *)
Definition files : FileSystem := {|
  existsSync := fun p =>
    String.eqb p "./wallets" || String.eqb p "./wallets/trading-wallet.json";
  readFileSync := fun p =>
    if String.eqb p "./wallets/trading-wallet.json" then Ok walletJson
    else Throw (Error "ENOENT: no such file or directory");
  readdirSync := fun p => Ok ["trading-wallet.json"];
|}.

Definition curve : BondingCurveAccount := {|
  virtualTokenReserves := 1073000000000000;
  virtualSolReserves := 30000000000;
  realTokenReserves := 793100000000000;
  tokenTotalSupply := 1000000000000000;
  getBuyPrice := fun amount => Ok amount;
  getSellPrice := fun amount fee => Ok amount;
|}.

Definition accepted : TransactionResult :=
  {| success := true; signature := Some "5h4z"; error := None;
     results_slot := Some 1 |}.

(** A network on which every transaction is accepted and confirmed; the
    token is listed on the curve or not. *)
Definition network (listed : bool) : Network := {|
  connection_getBalance := fun _ _ _ => Ok 1000000000%float;
  connection_getParsedTokenAccountsByOwner := fun _ _ _ _ => Ok [];
  connection_confirmTransaction := fun _ _ _ _ => Ok {| value_err := None |};
  sdk_getBondingCurveAccount := fun _ _ _ =>
    Ok (if listed then Some curve else None);
  sdk_buy := fun _ _ _ _ _ _ _ => Ok accepted;
  sdk_sell := fun _ _ _ _ _ _ => Ok accepted;
  sdk_createAndBuy := fun _ _ _ _ _ _ _ => Ok accepted;
  Keypair_generate := fun _ => mkKeypair (mkPublicKey "TempMint") [];
|}.

Definition wallet : Keypair := mkKeypair (mkPublicKey "TradingWallet") (repeat 1 64).

Definition sdk : PumpFunSDK :=
  mkPumpFunSDK (mkConnection "https://api.devnet.solana.com" "confirmed").

Definition fees : PriorityFee := {| unitLimit := 250000; unitPrice := 250000 |}.

Definition buyer : TokenBuyer := @TokenBuyer_new runtime ∅.

(** The configuration of [main] with a slippage of 20000 basis points. *)
Definition wideConfig : BuyTokensConfig :=
  {| mintAddress := "7vS7ViHrrMSx19kG95k1KKDFDdq3YTBZNJrDwhPTTj9v";
     buyAmountSol := 0.0001%float;
     slippageBasisPoints := Some 20000%float;
     walletType := Some Trading |}.

Definition mint : PublicKey :=
  mkPublicKey "7vS7ViHrrMSx19kG95k1KKDFDdq3YTBZNJrDwhPTTj9v".

Definition initialized : State := mkState [] (Some sdk).
Definition fresh : State := mkState [] None.

End Fixture.

Module OrchestratorProps.
Import Orchestrator.

Notation Run := (OperationOutcome * Sys * list Event)%type.

(** The reserves of the specification's example. *)
Definition exampleCurve : BondingCurveState :=
  {| virtualBase := 30000000; virtualQuote := 1000000000;
     realBase := 0; totalSupply := 0 |}.

(** Every submission on the ledger has an identifier that was handed
    out. *)
Definition wf_world (w : World) : Prop :=
  forall sid x, ledger w !! sid = Some x -> (sid < nextId w)%nat.

(** The ledger and the identifiers handed out are the same in both
    worlds. *)
Definition same_ledger (w w' : World) : Prop :=
  ledger w' = ledger w /\ nextId w' = nextId w.

(** The ledger of [w'] holds every submission the ledger of [w] holds. *)
Definition grows (w w' : World) : Prop :=
  forall sid x, ledger w !! sid = Some x -> ledger w' !! sid = Some x.

(** The events of a poll are status queries of the submission. *)
Definition is_status_query (sid : nat) (e : Event) : Prop :=
  exists st, e = EvGetStatus sid st.

(** Balance reads and integrity warnings: events that are neither a
    submission, a status query nor a transition. *)
Definition is_quiet (e : Event) : bool :=
  match e with
  | EvReadBalance _ _ _ | EvIntegrityWarning _ => true
  | _ => false
  end.

Section WithAttempt.
Variable ctx : Attempt.

(** The submission [sid] is on the ledger, it was made for this intent,
    and if the ledger executed it the realized output is at or above the
    floor. *)
Definition submitted (sid : nat) (w : World) : Prop :=
  exists op fin,
    ledger w !! sid = Some (op, fin)
    /\ op_intent op = at_intent ctx
    /\ forall realized, fin = FinalOk realized -> at_floor ctx <= realized.

(** The errors an execution may end in once it has started to submit. *)
Definition terminal (e : OperationError) : Prop :=
  match e with
  | Rejected _ | FailedExhaustedRetries => True
  | _ => False
  end.

(** A confirmed outcome names a submission of this intent that the ledger
    executed at or above the floor; any other outcome is a terminal
    error. *)
Definition honoured (o : OperationOutcome) (w : World) : Prop :=
  match o with
  | OutcomeConfirmed sid =>
      exists op realized,
        ledger w !! sid = Some (op, FinalOk realized)
        /\ op_intent op = at_intent ctx
        /\ at_floor ctx <= realized
  | OutcomeError e => terminal e
  end.

(** What [honoured] asks of a run of attempts. *)
Definition floor_safe (r : Phase -> nat -> Sys -> Run) : Prop :=
  forall phase retry s o s' evs,
    r phase retry s = (o, s', evs) ->
    wf_world (world s) ->
    (forall sid, phase = DoWait sid -> submitted sid (world s)) ->
    wf_world (world s') /\ honoured o (world s').

End WithAttempt.

(** Reading a trace from the left: the submissions that have timed out
    and whose status has not been answered "unknown" since.  A call of
    submit is allowed only when there is none; [None] when the trace
    holds a call of submit that was not allowed. *)
Fixpoint scan (open : list nat) (evs : list Event) : option (list nat) :=
  match evs with
  | [] => Some open
  | EvTransition sid _ TimedOut :: rest => scan (sid :: open) rest
  | EvGetStatus sid ChainUnknown :: rest =>
      scan (List.filter (fun x => negb (Nat.eqb x sid)) open) rest
  | EvSubmit _ _ :: rest =>
      match open with
      | [] => scan [] rest
      | _ :: _ => None
      end
  | _ :: rest => scan open rest
  end.

(** A transition to Confirmed. *)
Definition is_confirmation (e : Event) : bool :=
  match e with
  | EvTransition _ _ Confirmed => true
  | _ => false
  end.

(** The number of transitions to Confirmed in a trace. *)
Definition confirmations (evs : list Event) : nat :=
  length (List.filter is_confirmation evs).

(** A call of ChainClient.submit. *)
Definition is_submit (e : Event) : bool :=
  match e with
  | EvSubmit _ _ => true
  | _ => false
  end.

(** The number of calls of ChainClient.submit in a trace. *)
Definition submissions (evs : list Event) : nat :=
  length (List.filter is_submit evs).

(** The transitions to Confirmed an outcome accounts for. *)
Definition tally (o : OperationOutcome) : nat :=
  match o with
  | OutcomeConfirmed _ => 1
  | OutcomeError _ => 0
  end.

(** What is open when a phase begins: nothing before a submission, at
    most the awaited submission during a wait. *)
Definition opening (phase : Phase) (open : list nat) : Prop :=
  match phase with
  | DoSubmit => open = []
  | DoWait sid => Forall (eq sid) open
  end.

(** A run of attempts submits only when nothing is open, and confirms
    once when it ends confirmed and never otherwise. *)
Definition guarded (r : Phase -> nat -> Sys -> Run) : Prop :=
  forall phase retry s o s' evs open,
    r phase retry s = (o, s', evs) ->
    opening phase open ->
    is_Some (scan open evs) /\ confirmations evs = tally o.

Section WithLog.
Variable intentHash : TradeIntent -> N.
Variable ctx : Attempt.

(** The log holds, under the hash of the intent, a record of this
    execution that stands for the outcome [o]. *)
Definition logged (o : OperationOutcome) (log : gmap N SubmissionRecord) : Prop :=
  exists r,
    log !! intentHash (at_intent ctx) = Some r
    /\ outcome_of_record r = o
    /\ rec_submittedAt r = at_now ctx
    /\ rec_intent r = at_intent ctx.

(** The log holds the record of the submission that is awaited. *)
Definition waiting (sid : nat) (log : gmap N SubmissionRecord) : Prop :=
  exists r,
    log !! intentHash (at_intent ctx) = Some r
    /\ rec_submissionId r = Some sid
    /\ rec_submittedAt r = at_now ctx
    /\ rec_intent r = at_intent ctx.

(** A run of attempts leaves its outcome in the log. *)
Definition recorded (r : Phase -> nat -> Sys -> Run) : Prop :=
  forall phase retry s o s' evs,
    r phase retry s = (o, s', evs) ->
    (forall sid, phase = DoWait sid -> waiting sid (oplog s)) ->
    logged o (oplog s').

(** A run of attempts keeps the submissions the ledger holds, and touches
    the log only under the hash of its intent. *)
Definition framed (r : Phase -> nat -> Sys -> Run) : Prop :=
  forall phase retry s o s' evs,
    r phase retry s = (o, s', evs) ->
    wf_world (world s) ->
    grows (world s) (world s')
    /\ forall h, h <> intentHash (at_intent ctx) ->
                 oplog s' !! h = oplog s !! h.

End WithLog.

(** A call of ChainClient.submit that was handed a submission id. *)
Definition is_delivery (e : Event) : bool :=
  match e with
  | EvSubmit _ (Some _) => true
  | _ => false
  end.

(** The number of submissions that reached the ledger. *)
Definition deliveries (evs : list Event) : nat :=
  length (List.filter is_delivery evs).

Section WithScenario.
Variable cfg : Config.
Variable sc : Scenario.

(** The status service never answers "unknown" by itself: it does so only
    for a submission the ledger does not hold. *)
Definition truthful : Prop := forall n, onStatus sc n <> NotFound.

(** No call of ChainClient.submit fails with a NetworkError. *)
Definition reliable : Prop := forall n, onSubmit sc n <> NetworkDown.

(** An intent is valid when its tolerance is in range, its asset resolves
    and the KeyStore holds the key of its account. *)
Definition valid (intent : TradeIntent) : Prop :=
  0 <= slippageBps intent <= 10000
  /\ is_Some (curveFor cfg sc intent)
  /\ hasKey sc (account intent) = true.

(** The balance the first query reads covers the amount and the fee. *)
Definition sufficient (intent : TradeIntent) (s : Sys) : Prop :=
  amount intent + estimatedFee cfg <= onBalance sc (balanceCalls (world s)).

(** The floor declared by an intent: the minimum acceptable output for
    the quote on the curve the PriceModel resolves. *)
Definition declaredFloor (intent : TradeIntent) : option Z :=
  match curveFor cfg sc intent with
  | Some curve =>
      Some (minAcceptable
              (quoteOutput curve (amount intent)
                           (direction (operationKind intent)))
              (slippageBps intent))
  | None => None
  end.

(** The outcome a record of the log stands for is backed by the ledger: a
    confirmed record names a submission of its intent that the ledger
    executed at or above the floor the intent declares; any other record
    stands for a terminal error. *)
Definition backed (r : SubmissionRecord) (w : World) : Prop :=
  match outcome_of_record r with
  | OutcomeConfirmed sid =>
      exists op realized floor,
        ledger w !! sid = Some (op, FinalOk realized)
        /\ op_intent op = rec_intent r
        /\ declaredFloor (rec_intent r) = Some floor
        /\ floor <= realized
  | OutcomeError e => terminal e
  end.

(** The states the orchestrator works in: the identifiers on the ledger
    were handed out, and every record of the log is backed by the ledger.
    The empty state is one, and [execute] leads from one to another. *)
Definition sound (s : Sys) : Prop :=
  wf_world (world s)
  /\ forall h r, oplog s !! h = Some r -> backed r (world s).

End WithScenario.

(** The log holds no record of another intent under the hash of this
    one. *)
Definition unambiguous (intentHash : TradeIntent -> N) (intent : TradeIntent)
    (s : Sys) : Prop :=
  forall r, oplog s !! intentHash intent = Some r -> rec_intent r = intent.

(** The intent an execution answers for: the intent of the record it finds
    in the log under the same hash within the dedup window, the executed
    intent when there is none. *)
Definition served (cfg : Config) (intentHash : TradeIntent -> N) (now : Z)
    (intent : TradeIntent) (s : Sys) : TradeIntent :=
  match dedupHit cfg intentHash now intent (oplog s) with
  | Some r => rec_intent r
  | None => intent
  end.

(** The deliveries a phase may still make. *)
Definition budget (phase : Phase) : nat :=
  match phase with
  | DoSubmit => 1
  | DoWait _ => 0
  end.

(** A run of attempts makes at most one delivery. *)
Definition delivers_once (r : Phase -> nat -> Sys -> Run) : Prop :=
  forall phase retry s o s' evs,
    r phase retry s = (o, s', evs) ->
    wf_world (world s) ->
    (forall sid, phase = DoWait sid -> is_Some (ledger (world s) !! sid)) ->
    (deliveries evs <= budget phase)%nat.

(** A run of attempts calls ChainClient.submit once when it begins with a
    submission, and not at all when it begins with a wait. *)
Definition submits_once (r : Phase -> nat -> Sys -> Run) : Prop :=
  forall phase retry s o s' evs,
    r phase retry s = (o, s', evs) ->
    (forall sid, phase = DoWait sid -> is_Some (ledger (world s) !! sid)) ->
    submissions evs = budget phase.

(** The reserves, the configuration and the intent of the examples. *)
Definition tokenCurve : BondingCurveState :=
  {| virtualBase := 30000000; virtualQuote := 1000000000;
     realBase := 20000000; totalSupply := 100000000 |}.

Definition config : Config :=
  {| maxRetries := 3; maxPolls := 2; dedupWindow := 60; estimatedFee := 5000;
     initialCurve := tokenCurve; quoteAsset := "SOL" |}.

Definition buyIntent : TradeIntent :=
  {| operationKind := Buy; account := "alice"; asset := "TKN";
     amount := 1000000; slippageBps := 500; priorityFeeHint := None |}.

(** A hash of the amount and the asset, enough to tell the intents of the
    examples apart. *)
Definition hashOf (intent : TradeIntent) : N :=
  Z.to_N (amount intent) + N.of_nat (String.length (asset intent)).

(** Every submission is delivered and every query answered. *)
Definition calm : Scenario :=
  {| lookupCurve := fun a => if String.eqb a "TKN" then Some tokenCurve else None;
     hasKey := fun _ => true;
     onSubmit := fun _ => Delivered tokenCurve None;
     onStatus := fun _ => Answered;
     onBalance := fun _ => 5000000 |}.

(** The first call of submit fails with a NetworkError, the second is
    delivered. *)
Definition transient : Scenario :=
  {| lookupCurve := lookupCurve calm;
     hasKey := fun _ => true;
     onSubmit := fun n => if Nat.eqb n 0 then NetworkDown
                          else Delivered tokenCurve None;
     onStatus := fun _ => Answered;
     onBalance := fun _ => 5000000 |}.

(** The first submission is delivered, its status stays pending, then is
    answered "unknown"; the second is delivered and confirmed. *)
Definition partitioned : Scenario :=
  {| lookupCurve := lookupCurve calm;
     hasKey := fun _ => true;
     onSubmit := fun _ => Delivered tokenCurve None;
     onStatus := fun n => if Nat.ltb n 2 then StillPending
                          else if Nat.eqb n 2 then NotFound else Answered;
     onBalance := fun _ => 5000000 |}.

(** An empty ledger and an empty log. *)
Definition start : Sys := mkSys (mkWorld ∅ 0 0 0 0) ∅.

(** The states the orchestrator reaches: the empty state, and the state
    any execution leaves behind. *)
Inductive reachable (cfg : Config) (sc : Scenario)
    (intentHash : TradeIntent -> N) : Sys -> Prop :=
| reachable_start : reachable cfg sc intentHash start
| reachable_execute (now : Z) (intent : TradeIntent) (s : Sys) :
    reachable cfg sc intentHash s ->
    reachable cfg sc intentHash
      (snd (fst (execute cfg sc intentHash now intent s))).

(** The intent of the examples with no tolerance at all: the same
    account, kind, asset and amount, and so the same hash. *)
Definition strictIntent : TradeIntent :=
  {| operationKind := Buy; account := "alice"; asset := "TKN";
     amount := 1000000; slippageBps := 0; priorityFeeHint := None |}.

(** The curve after other buyers have moved the price a little: 1000000
    units now buy 29000 instead of 29970. *)
Definition slippedCurve : BondingCurveState :=
  {| virtualBase := 29029000; virtualQuote := 1000000000;
     realBase := 20000000; totalSupply := 100000000 |}.

(** Every submission is delivered, and executed on the curve that has
    moved. *)
Definition slipped : Scenario :=
  {| lookupCurve := lookupCurve calm;
     hasKey := fun _ => true;
     onSubmit := fun _ => Delivered slippedCurve None;
     onStatus := fun _ => Answered;
     onBalance := fun _ => 5000000 |}.

(** The account is empty at the first balance query and funded from the
    second on. *)
Definition topped_up : Scenario :=
  {| lookupCurve := lookupCurve calm;
     hasKey := fun _ => true;
     onSubmit := fun _ => Delivered tokenCurve None;
     onStatus := fun _ => Answered;
     onBalance := fun n => if Nat.eqb n 0 then 0 else 5000000 |}.

End OrchestratorProps.

(** ** The vocabulary of the further properties of the scripts *)

Module WalletProps.

(** The file holds text that splits at its commas into exactly 64
    fields. *)
Definition holds_key_fields `{Runtime} (fs : FileSystem) (filePath : string) : Prop :=
  exists text,
    readFileSync fs filePath = Ok text
    /\ length (String_split (String_trim text) ",") = 64%nat.

(** The bytes [loadWalletFromPrivateKey] makes of the text of a file:
    [new Uint8Array(text.trim().split(",").map(num => parseInt(num.trim())))]. *)
Definition key_bytes `{Runtime} (text : string) : list Z :=
  map (fun x => ToUint8 (JNumber x))
      (map (fun num => parseInt (String_trim num))
           (String_split (String_trim text) ",")).

(** The message of the error thrown when neither the wallet file nor the
    private key file of a wallet is there. *)
Definition both_missing (kind walletPath keyPath : string) : string :=
  "Failed to load " +:+ kind +:+ " wallet: Error: Wallet file not found: "
  +:+ walletPath
  +:+ ". Fallback also failed: Error: Private key file not found: "
  +:+ keyPath.

(** The runtime's [endsWith] and [startsWith] are the string methods of
    ECMAScript: a comparison of the last, or the first, characters. *)
Definition standard_strings `{Runtime} : Prop :=
  (forall s suffix, String_endsWith s suffix = Fixture.endsWith s suffix)
  /\ (forall s prefix, String_startsWith s prefix = String.prefix prefix s).

End WalletProps.

Module BuyerProps.

(** The priority fees [buyTokens] attaches to a purchase. *)
Definition priorityFees : PriorityFee :=
  {| unitLimit := 250000; unitPrice := 250000 |}.

(** The calls of one complete purchase by [TokenBuyer.buyTokens], in
    order: the lookup of [getTokenInfo], the lookup that checks that the
    token exists, the purchase, its confirmation, and the lookup of the
    closing [getTokenInfo]. *)
Definition purchase_calls (sdk : PumpFunSDK) (wallet : Keypair)
    (mint : PublicKey) (lamports slippage : Z) (sig : string) : list Call :=
  [GetBondingCurveAccount sdk mint;
   GetBondingCurveAccount sdk mint;
   Buy sdk wallet mint lamports slippage (Some priorityFees);
   ConfirmTransaction (connection sdk) sig "confirmed";
   GetBondingCurveAccount sdk mint].

(** The calls of one complete sale by [TokenBuyer.sellTokens]. *)
Definition sale_calls (sdk : PumpFunSDK) (wallet : Keypair)
    (mint : PublicKey) (amount : Z) (sig : string) : list Call :=
  [Sell sdk wallet mint amount 500;
   ConfirmTransaction (connection sdk) sig "confirmed"].

End BuyerProps.

Module ExampleProps.
Import Example.

(** A call that submits a transaction. *)
Definition is_transaction (c : Call) : bool :=
  match c with
  | Buy _ _ _ _ _ _ | Sell _ _ _ _ _ | CreateAndBuy _ _ _ _ _ _ => true
  | _ => false
  end.

(** A call of the SDK's [sell]. *)
Definition is_sell_call (c : Call) : bool :=
  match c with
  | Sell _ _ _ _ _ => true
  | _ => false
  end.

(** The balance of the account can be read and is not above zero. *)
Definition no_balance (account : ParsedTokenAccount) : Prop :=
  exists uiAmount,
    parsed_uiAmount account = Ok uiAmount
    /\ positive_balance uiAmount = None.

(** The inner [try] of [sellTokens]: the sale of the balance that was
    found, and the reads that follow it. *)
Definition sale_attempt `{Network} (sdk : PumpFunSDK)
    (testAccount mint : Keypair) (tokenBalance : number) : Eff unit :=
  try_catch_eff
    (amount <- lift (BigInt (tokenBalance * Math_pow10 DEFAULT_DECIMALS)%float) ;;
     sellResults <- sell sdk testAccount (publicKey mint) amount
                      Basic.SLIPPAGE_BASIS_POINTS ;;
     if success sellResults then
       Util.printSOLBalance (connection sdk) (publicKey testAccount) ;;;
       bondingCurveAccount <- getBondingCurveAccount sdk (publicKey mint) ;;
       ret tt
     else ret tt)
    (fun sellError => ret tt).

(** [m] only reads: whatever it is run on, the calls it adds submit no
    transaction. *)
Definition reads_only {A} (m : Eff A) : Prop :=
  forall st, exists calls,
    trace (snd (m st)) = (trace st ++ calls)%list
    /\ forallb (fun c => negb (is_transaction c)) calls = true.

(** The same for a part of the script that may change the disk. *)
Definition script_reads_only {D A} (m : D -> State -> Result A * D * State)
  : Prop :=
  forall d st, exists calls,
    trace (snd (m d st)) = (trace st ++ calls)%list
    /\ forallb (fun c => negb (is_transaction c)) calls = true.

(** [m] may return [a]. *)
Definition script_returns {D A} (m : D -> State -> Result A * D * State)
    (a : A) : Prop :=
  exists d st d' st', m d st = (Ok a, d', st').

(** Every balance the connection reports is not above zero. *)
Definition without_funds `{Network} : Prop :=
  forall tr c account balance,
    connection_getBalance tr c account = Ok balance ->
    (0 <? balance)%float = false.

(** A file system that keeps what is written to it: a file that was
    written exists and reads back as written, a directory that was made
    exists, and writing a file removes nothing. *)
Record lawful {D} (disk : MutableFs D) : Prop := {
  write_read : forall d p text d',
    writeFileSync disk d p text = (Ok tt, d') ->
    existsSync (view disk d') p = true
    /\ readFileSync (view disk d') p = Ok text;
  write_keeps : forall d p text d' q,
    writeFileSync disk d p text = (Ok tt, d') ->
    existsSync (view disk d) q = true ->
    existsSync (view disk d') q = true;
  mkdir_exists : forall d p d',
    mkdirSync disk d p = (Ok tt, d') ->
    existsSync (view disk d') p = true;
}.

End ExampleProps.

(** ** A disk in memory and further networks for the examples *)

Module ExampleFixture.
Import Example.

(** A disk in memory: the entries written so far, the latest first; a
    directory is an entry [None], a file an entry [Some] of its text.  Its
    operations never fail. *)
Definition entry (d : list (string * option string)) (p : string)
  : option (option string) :=
  match List.find (fun e => String.eqb (fst e) p) d with
  | Some e => Some (snd e)
  | None => None
  end.

Definition memory : MutableFs (list (string * option string)) := {|
  view := fun d => {|
    existsSync := fun p =>
      match entry d p with Some _ => true | None => false end;
    readFileSync := fun p =>
      match entry d p with
      | Some (Some text) => Ok text
      | Some None => Throw (Error "EISDIR: illegal operation on a directory")
      | None => Throw (Error "ENOENT: no such file or directory")
      end;
    readdirSync := fun p => Ok [];
  |};
  mkdirSync := fun d p => (Ok tt, (p, None) :: d);
  writeFileSync := fun d p text => (Ok tt, (p, Some text) :: d);
|}.

(** [JSON.stringify] of an array of bytes. *)
Definition stringify (bytes : list Z) : string :=
  "[" +:+ String.concat ","
            (map (fun b => NilZero.string_of_int (Z.to_int b)) bytes)
  +:+ "]".

(** A network on which the owner holds 2.5 units of some token, every
    transaction is accepted, and [generate] draws the key of the wallet
    file. *)
Definition holding : Network := {|
  connection_getBalance := fun _ _ _ => Ok 1000000000%float;
  connection_getParsedTokenAccountsByOwner := fun _ _ _ _ =>
    Ok [ {| pubkey := mkPublicKey "EmptyAccount";
            parsed_uiAmount := Ok (Some 0%float) |};
         {| pubkey := mkPublicKey "OtherToken";
            parsed_uiAmount := Ok (Some 2.5%float) |} ];
  connection_confirmTransaction := fun _ _ _ _ => Ok {| value_err := None |};
  sdk_getBondingCurveAccount := fun _ _ _ => Ok (Some Fixture.curve);
  sdk_buy := fun _ _ _ _ _ _ _ => Ok Fixture.accepted;
  sdk_sell := fun _ _ _ _ _ _ => Ok Fixture.accepted;
  sdk_createAndBuy := fun _ _ _ _ _ _ _ => Ok Fixture.accepted;
  Keypair_generate := fun _ => Fixture.wallet;
|}.

(** A network on which the account holds no SOL. *)
Definition broke : Network := {|
  connection_getBalance := fun _ _ _ => Ok 0%float;
  connection_getParsedTokenAccountsByOwner := fun _ _ _ _ => Ok [];
  connection_confirmTransaction := fun _ _ _ _ => Ok {| value_err := None |};
  sdk_getBondingCurveAccount := fun _ _ _ => Ok (Some Fixture.curve);
  sdk_buy := fun _ _ _ _ _ _ _ => Ok Fixture.accepted;
  sdk_sell := fun _ _ _ _ _ _ => Ok Fixture.accepted;
  sdk_createAndBuy := fun _ _ _ _ _ _ _ => Ok Fixture.accepted;
  Keypair_generate := fun _ => Fixture.wallet;
|}.

(** A network on which the SDK reports every purchase as failed. *)
Definition refusing : Network := {|
  connection_getBalance := fun _ _ _ => Ok 1000000000%float;
  connection_getParsedTokenAccountsByOwner := fun _ _ _ _ => Ok [];
  connection_confirmTransaction := fun _ _ _ _ => Ok {| value_err := None |};
  sdk_getBondingCurveAccount := fun _ _ _ => Ok (Some Fixture.curve);
  sdk_buy := fun _ _ _ _ _ _ _ =>
    Ok {| success := false; signature := None;
          error := Some "insufficient lamports"; results_slot := None |};
  sdk_sell := fun _ _ _ _ _ _ => Ok Fixture.accepted;
  sdk_createAndBuy := fun _ _ _ _ _ _ _ => Ok Fixture.accepted;
  Keypair_generate := fun _ => Fixture.wallet;
|}.

(** [new Connection(url)] of the examples. *)
Definition connect (url : string) : Result Connection :=
  if String.prefix "http" url then Ok (mkConnection url "")
  else Throw (TypeError "Endpoint URL must start with http: or https:").

End ExampleFixture.

(** * Properties *)

(** ** config/devnet: getDevnetRpcUrl *)

Module DevnetFacts.
Import Devnet Props.

Lemma truthy_string_nonempty (s : string) : truthy_string s = true <-> s <> "".
Proof. destruct s; simpl; split; congruence. Qed.

Lemma or_string_truthy (s d : string) :
  s <> "" -> or_string (Some s) d = s.
Proof. intros Hs. unfold or_string. destruct s; [congruence | reflexivity]. Qed.

Lemma or_string_opt_falsy (a b : option string) :
  unset_or_empty a -> or_string_opt a b = b.
Proof. intros [-> | ->]; reflexivity. Qed.

(** C8, as stated, fails: [DEVNET_RPC_URL] may be set, to the empty
    string, and its value is then not what [getDevnetRpcUrl] returns. *)
Lemma getDevnetRpcUrl_set_but_empty :
  ~ (forall (env : Environment) (v : string),
        env !! "DEVNET_RPC_URL" = Some v -> getDevnetRpcUrl env = v).
Proof.
  intros Hclaim.
  specialize (Hclaim {[ "DEVNET_RPC_URL" := "" ]} "").
  rewrite lookup_singleton_eq in Hclaim.
  specialize (Hclaim eq_refl).
  unfold getDevnetRpcUrl in Hclaim.
  rewrite lookup_singleton_eq, lookup_singleton_ne in Hclaim by discriminate.
  discriminate Hclaim.
Qed.

(** C8 (amended): [getDevnetRpcUrl] is a total three-way fallback on the
    truthiness of the two variables: the value of [DEVNET_RPC_URL] when it
    is set and not empty; otherwise the value of [HELIUS_DEVNET_RPC_URL]
    when that is set and not empty; otherwise the default endpoint
    "https://api.devnet.solana.com". *)
Theorem getDevnetRpcUrl_three_way (env : Environment) :
  (forall v, env !! "DEVNET_RPC_URL" = Some v -> v <> "" ->
             getDevnetRpcUrl env = v)
  /\ (forall v, unset_or_empty (env !! "DEVNET_RPC_URL") ->
                env !! "HELIUS_DEVNET_RPC_URL" = Some v -> v <> "" ->
                getDevnetRpcUrl env = v)
  /\ (unset_or_empty (env !! "DEVNET_RPC_URL") ->
      unset_or_empty (env !! "HELIUS_DEVNET_RPC_URL") ->
      getDevnetRpcUrl env = "https://api.devnet.solana.com").
Proof.
  unfold getDevnetRpcUrl. repeat split.
  - intros v -> Hv. unfold or_string_opt.
    destruct v; [congruence | reflexivity].
  - intros v Hd -> Hv. rewrite (or_string_opt_falsy _ _ Hd).
    now apply or_string_truthy.
  - intros Hd Hh. rewrite (or_string_opt_falsy _ _ Hd).
    destruct Hh as [-> | ->]; reflexivity.
Qed.

(** The three branches on concrete environments. *)
Example getDevnetRpcUrl_three_way_witness :
  getDevnetRpcUrl {[ "DEVNET_RPC_URL" := "http://localhost:8899" ]}
    = "http://localhost:8899"
  /\ getDevnetRpcUrl (<[ "DEVNET_RPC_URL" := "" ]>
                        {[ "HELIUS_DEVNET_RPC_URL" := "https://helius.example" ]})
    = "https://helius.example"
  /\ getDevnetRpcUrl ∅ = "https://api.devnet.solana.com".
Proof.
  split; [| split].
  - apply (proj1 (getDevnetRpcUrl_three_way _));
      [apply lookup_singleton_eq | discriminate].
  - apply (proj1 (proj2 (getDevnetRpcUrl_three_way _))).
    + right. apply lookup_insert_eq.
    + rewrite lookup_insert_ne by discriminate. apply lookup_singleton_eq.
    + discriminate.
  - apply (proj2 (proj2 (getDevnetRpcUrl_three_way _))); left; apply lookup_empty.
Defined.

End DevnetFacts.

(** ** utils/wallet: loadWalletFromFile *)

Module WalletFacts.
Import Wallet Props.

Section WithRuntime.
Context `{Runtime}.
Variable fs : FileSystem.

Lemma try_catch_ok {A} (body : Result A) handler (a : A) :
  try_catch body handler = Ok a ->
  body = Ok a \/ exists e, body = Throw e /\ handler e = Ok a.
Proof. destruct body as [b | e]; simpl; intros Hb; eauto. Qed.

(** Inside the [try], only a 64-element array reaches [fromSecretKey]. *)
Lemma load_body_ok (filePath filename : string) (kp : Keypair) :
  (let! walletData := readFileSync fs filePath in
   let! privateKeyArray := JSON_parse walletData in
   match privateKeyArray with
   | JArray items =>
       if negb (Nat.eqb (length items) 64) then
         Throw (Error ("Invalid wallet format in " +:+ filename))
       else Keypair_fromSecretKey (map ToUint8 items)
   | _ => Throw (Error ("Invalid wallet format in " +:+ filename))
   end) = Ok kp ->
  holds_key_array fs filePath.
Proof.
  unfold holds_key_array.
  destruct (readFileSync fs filePath) as [data | e] eqn:Hread; simpl; [| discriminate].
  destruct (JSON_parse data) as [json | e] eqn:Hparse; simpl; [| discriminate].
  destruct json as [| b | x | str | items | fields]; try discriminate.
  destruct (Nat.eqb (length items) 64) eqn:Hlen; simpl; [| discriminate].
  intros _. exists data, items. apply Nat.eqb_eq in Hlen. auto.
Qed.

(** Without such an array the body of the [try] throws. *)
Lemma load_body_throws (filePath filename : string) :
  ~ holds_key_array fs filePath ->
  exists e,
    (let! walletData := readFileSync fs filePath in
     let! privateKeyArray := JSON_parse walletData in
     match privateKeyArray with
     | JArray items =>
         if negb (Nat.eqb (length items) 64) then
           Throw (Error ("Invalid wallet format in " +:+ filename))
         else Keypair_fromSecretKey (map ToUint8 items)
     | _ => Throw (Error ("Invalid wallet format in " +:+ filename))
     end) = Throw e.
Proof.
  intros Hnot.
  match goal with |- exists e, ?body = _ => destruct body as [kp | e] eqn:Hbody end.
  - exfalso. apply Hnot. eapply load_body_ok. exact Hbody.
  - eauto.
Qed.

(** C9: [loadWalletFromFile] returns a keypair only when the file exists
    and holds a JSON array of exactly 64 elements.  When the file is
    missing it throws "Wallet file not found: <path>"; when the file
    exists but does not hold such an array (unreadable, unparseable, not
    an array, wrong length) it throws an error wrapped as "Failed to load
    wallet from <filename>: <cause>". *)
Theorem loadWalletFromFile_outcomes (this : WalletManager) (filename : string) :
  let filePath := path_join (walletsDir this) filename in
  (forall kp, loadWalletFromFile fs this filename = Ok kp ->
              existsSync fs filePath = true /\ holds_key_array fs filePath)
  /\ (existsSync fs filePath = false ->
      loadWalletFromFile fs this filename
      = Throw (Error ("Wallet file not found: " +:+ filePath)))
  /\ (existsSync fs filePath = true -> ~ holds_key_array fs filePath ->
      exists cause,
        loadWalletFromFile fs this filename
        = Throw (Error ("Failed to load wallet from " +:+ filename +:+ ": "
                        +:+ toString cause))).
Proof.
  intros filePath. unfold loadWalletFromFile. fold filePath.
  destruct (existsSync fs filePath) eqn:Hex; simpl.
  - split; [| split].
    + intros kp Hok. split; [reflexivity |].
      apply try_catch_ok in Hok. destruct Hok as [Hbody | (e & _ & Hh)].
      * eapply load_body_ok. exact Hbody.
      * discriminate Hh.
    + discriminate.
    + intros _ Hnot.
      destruct (load_body_throws filePath filename Hnot) as [e He].
      exists e. rewrite He. reflexivity.
  - split; [| split].
    + discriminate.
    + reflexivity.
    + discriminate.
Qed.

(** Every exception of [loadWalletFromFile] is one of the two. *)
Lemma loadWalletFromFile_throws (this : WalletManager) (filename : string) e :
  loadWalletFromFile fs this filename = Throw e ->
  e = Error ("Wallet file not found: " +:+ path_join (walletsDir this) filename)
  \/ exists cause,
      e = Error ("Failed to load wallet from " +:+ filename +:+ ": "
                 +:+ toString cause).
Proof.
  unfold loadWalletFromFile.
  destruct (existsSync fs _); simpl.
  - match goal with |- try_catch ?body _ = _ -> _ => destruct body as [kp | c] end;
      simpl; [discriminate |].
    intros [= <-]. right. eauto.
  - intros [= <-]. left. reflexivity.
Qed.

End WithRuntime.

(** The theorem on the wallets directory of the examples: a file that is
    not there. *)
Lemma loadWalletFromFile_outcomes_witness :
  @loadWalletFromFile Fixture.runtime Fixture.files WalletManager_new
     "missing.json"
  = Throw (Error "Wallet file not found: ./wallets/missing.json").
Proof.
  apply (proj1 (proj2 (@loadWalletFromFile_outcomes Fixture.runtime
                         Fixture.files WalletManager_new "missing.json"))).
  reflexivity.
Defined.

(** A wallet file with 64 bytes is loaded. *)
Example loadWalletFromFile_loads :
  @loadWalletFromFile Fixture.runtime Fixture.files WalletManager_new
     "trading-wallet.json"
  = Ok Fixture.wallet.
Proof. vm_compute. reflexivity. Qed.

End WalletFacts.

(** ** example/util: getSPLBalance *)

Module UtilFacts.
Import Util.
Section WithNetwork.
Context `{Network}.

(** C10: [getSPLBalance] never throws and always returns a number; the
    number is [0] when the owner has no token account for the mint, when
    the balance reported for the first account is null or undefined, when
    reading it throws, and when the query itself throws. *)
Theorem getSPLBalance_total (connection : Connection) (mint owner : PublicKey)
    (st : State) :
  let answer :=
    connection_getParsedTokenAccountsByOwner (trace st) connection owner
                                             (ByMint mint) in
  exists balance : number,
    fst (getSPLBalance connection mint owner st) = Ok balance
    /\ (answer = Ok [] -> balance = 0%float)
    /\ (forall e, answer = Throw e -> balance = 0%float)
    /\ (forall first rest, answer = Ok (first :: rest) ->
          parsed_uiAmount first = Ok None -> balance = 0%float)
    /\ (forall first rest e, answer = Ok (first :: rest) ->
          parsed_uiAmount first = Throw e -> balance = 0%float)
    /\ (forall first rest x, answer = Ok (first :: rest) ->
          parsed_uiAmount first = Ok (Some x) ->
          balance = if truthy_number x then x else 0%float).
Proof.
  intros answer.
  unfold getSPLBalance, try_catch_eff, bind, getParsedTokenAccountsByOwner.
  fold answer.
  destruct answer as [accounts | e] eqn:Hanswer; simpl.
  - destruct accounts as [| first rest]; simpl.
    + exists 0%float. repeat split; intros; congruence.
    + unfold lift. destruct (parsed_uiAmount first) as [[x |] | e] eqn:Hui; simpl.
      * exists (if truthy_number x then x else 0%float).
        repeat split; intros; try congruence.
        match goal with Hc : Ok _ = Ok _ |- _ => injection Hc as <- <- end.
        match goal with Hc : parsed_uiAmount first = Ok (Some _) |- _ =>
          rewrite Hui in Hc; injection Hc as <- end.
        reflexivity.
      * exists 0%float. repeat split; intros; congruence.
      * exists 0%float. repeat split; intros; congruence.
  - exists 0%float. repeat split; intros; congruence.
Qed.

(** [getSPLBalance] makes exactly one call to the connection and ends
    normally. *)
Lemma getSPLBalance_run (connection : Connection) (mint owner : PublicKey)
    (st : State) :
  exists balance : number,
    getSPLBalance connection mint owner st
    = (Ok balance,
       mkState (trace st ++ [GetParsedTokenAccountsByOwner connection owner
                                                           (ByMint mint)])%list
               (this_sdk st)).
Proof.
  unfold getSPLBalance, try_catch_eff, bind, getParsedTokenAccountsByOwner, log.
  destruct (connection_getParsedTokenAccountsByOwner _ _ _ _) as [accounts | e];
    simpl; [| eauto].
  destruct accounts as [| first rest]; simpl; [eauto |].
  unfold lift. destruct (parsed_uiAmount first) as [[x |] | e]; simpl; eauto.
Qed.

End WithNetwork.

(** The theorem on a network that knows no token account of the owner. *)
Lemma getSPLBalance_total_witness :
  fst (@getSPLBalance (Fixture.network true)
         (connection Fixture.sdk) Fixture.mint (publicKey Fixture.wallet)
         Fixture.fresh)
  = Ok 0%float.
Proof.
  destruct (@getSPLBalance_total (Fixture.network true)
              (connection Fixture.sdk) Fixture.mint (publicKey Fixture.wallet)
              Fixture.fresh) as (balance & Hok & Hempty & _).
  rewrite Hok. f_equal. apply Hempty. reflexivity.
Defined.

End UtilFacts.

(** ** example/basic: buyTokens *)

Module BasicFacts.
Import Util Basic Props.

(** [BigInt(0.0001 * LAMPORTS_PER_SOL)] is [100000n]: the product is an
    integer in binary64. *)
Lemma BigInt_buy_amount :
  BigInt (0.0001 * LAMPORTS_PER_SOL)%float = Ok 100000.
Proof. vm_compute. reflexivity. Qed.

Section WithNetwork.
Context `{Network}.

Lemma printSPLBalance_run (connection : Connection) (mint owner : PublicKey)
    (st : State) :
  printSPLBalance connection mint owner st
  = (Ok tt,
     mkState (trace st ++ [GetParsedTokenAccountsByOwner connection owner (ByMint mint)])%list
             (this_sdk st)).
Proof.
  unfold printSPLBalance, try_catch_eff, bind.
  destruct (UtilFacts.getSPLBalance_run connection mint owner st)
    as [balance ->].
  reflexivity.
Qed.

(** C7: whatever mint it is given, [buyTokens] of the basic example
    generates a keypair, calls [createAndBuy] for that new mint (with
    100000 lamports and 100 basis points) and never calls the SDK's [buy]:
    after the two calls it only reads the balance and the bonding curve of
    the new mint.  It never throws, and the mint passed in has no
    influence on what it does. *)
Theorem buyTokens_buys_a_throwaway_mint (sdk : PumpFunSDK)
    (testAccount mint : Keypair) (st : State) :
  let tempMint := Keypair_generate (trace st) in
  let st' := snd (buyTokens sdk testAccount mint st) in
  fst (buyTokens sdk testAccount mint st) = Ok tt
  /\ (exists rest,
        trace st'
        = (trace st
           ++ KeypairGenerate
              :: CreateAndBuy sdk testAccount tempMint tempTokenMetadata 100000 100
              :: rest)%list
        /\ forallb (fun c => negb (is_buy_call c)) rest = true)
  /\ (forall otherMint,
        buyTokens sdk testAccount otherMint st = buyTokens sdk testAccount mint st).
Proof.
  intros tempMint st'. subst st'.
  unfold buyTokens. rewrite BigInt_buy_amount.
  unfold try_catch_eff, bind, generate, lift, createAndBuy. simpl.
  fold tempMint. fold tempTokenMetadata. unfold SLIPPAGE_BASIS_POINTS.
  destruct (sdk_createAndBuy _ _ _ _ _ _ _) as [createResults | e] eqn:Hcreate;
    simpl.
  - destruct (success createResults) eqn:Hsuccess.
    + rewrite printSPLBalance_run. unfold getBondingCurveAccount. simpl.
      destruct (sdk_getBondingCurveAccount _ _ _) as [account | e]; simpl.
      * split; [reflexivity |]. split; [| reflexivity].
        eexists. split.
        -- rewrite <- !app_assoc. simpl. reflexivity.
        -- reflexivity.
      * split; [reflexivity |]. split; [| reflexivity].
        eexists. split.
        -- rewrite <- !app_assoc. simpl. reflexivity.
        -- reflexivity.
    + simpl. split; [reflexivity |]. split; [| reflexivity].
      exists []. split; [| reflexivity].
      rewrite <- app_assoc. reflexivity.
  - split; [reflexivity |]. split; [| reflexivity].
    exists []. split; [| reflexivity].
    rewrite <- app_assoc. reflexivity.
Qed.

End WithNetwork.

(** The theorem on the network of the examples: the calls of one run. *)
Lemma buyTokens_buys_a_throwaway_mint_witness :
  fst (@buyTokens (Fixture.network true) Fixture.sdk Fixture.wallet
         (mkKeypair Fixture.mint []) Fixture.fresh) = Ok tt.
Proof.
  apply (proj1 (@buyTokens_buys_a_throwaway_mint (Fixture.network true)
                  Fixture.sdk Fixture.wallet (mkKeypair Fixture.mint [])
                  Fixture.fresh)).
Defined.

Example buyTokens_calls :
  trace (snd (@buyTokens (Fixture.network true) Fixture.sdk Fixture.wallet
                (mkKeypair Fixture.mint []) Fixture.fresh))
  = [KeypairGenerate;
     CreateAndBuy Fixture.sdk Fixture.wallet
       (mkKeypair (mkPublicKey "TempMint") []) tempTokenMetadata 100000 100;
     GetParsedTokenAccountsByOwner (connection Fixture.sdk)
       (publicKey Fixture.wallet) (ByMint (mkPublicKey "TempMint"));
     GetBondingCurveAccount Fixture.sdk (mkPublicKey "TempMint")].
Proof. vm_compute. reflexivity. Qed.

End BasicFacts.

(** ** The trace only grows *)

Module TraceFacts.
Import Props.

Lemma appends_ret {A} (a : A) : appends (ret a).
Proof. intros st. exists []. simpl. now rewrite app_nil_r. Qed.

Lemma appends_throw {A} e : appends (@throw A e).
Proof. intros st. exists []. simpl. now rewrite app_nil_r. Qed.

Lemma appends_lift {A} (r : Result A) : appends (lift r).
Proof. intros st. exists []. simpl. now rewrite app_nil_r. Qed.

Lemma appends_get_sdk : appends get_sdk.
Proof. intros st. exists []. simpl. now rewrite app_nil_r. Qed.

Lemma appends_set_sdk sdk : appends (set_sdk sdk).
Proof. intros st. exists []. simpl. now rewrite app_nil_r. Qed.

Lemma appends_bind {A B} (m : Eff A) (k : A -> Eff B) :
  appends m -> (forall a, appends (k a)) -> appends (bind m k).
Proof.
  intros Hm Hk st. unfold bind.
  destruct (Hm st) as [c1 H1]. destruct (m st) as [[a | e] st1]; simpl in *.
  - destruct (Hk a st1) as [c2 H2]. exists (c1 ++ c2)%list.
    rewrite H2, H1. now rewrite app_assoc.
  - eauto.
Qed.

Lemma appends_try_catch {A} (body : Eff A) handler :
  appends body -> (forall e, appends (handler e)) ->
  appends (try_catch_eff body handler).
Proof.
  intros Hm Hk st. unfold try_catch_eff.
  destruct (Hm st) as [c1 H1]. destruct (body st) as [[a | e] st1]; simpl in *.
  - eauto.
  - destruct (Hk e st1) as [c2 H2]. exists (c1 ++ c2)%list.
    rewrite H2, H1. now rewrite app_assoc.
Qed.

Section WithNetwork.
Context `{Network}.

Lemma appends_getBalance c a : appends (getBalance c a).
Proof. intros st. eexists. reflexivity. Qed.

Lemma appends_confirmTransaction c s m : appends (confirmTransaction c s m).
Proof. intros st. eexists. reflexivity. Qed.

Lemma appends_getBondingCurveAccount sdk mint :
  appends (getBondingCurveAccount sdk mint).
Proof. intros st. eexists. reflexivity. Qed.

Lemma appends_buy sdk b m a s f : appends (buy sdk b m a s f).
Proof. intros st. eexists. reflexivity. Qed.

Lemma appends_sell sdk b m a s : appends (sell sdk b m a s).
Proof. intros st. eexists. reflexivity. Qed.

End WithNetwork.

Create HintDb appends discriminated.
#[export] Hint Resolve appends_ret appends_throw appends_lift appends_get_sdk
  appends_set_sdk appends_getBalance appends_confirmTransaction
  appends_getBondingCurveAccount appends_buy appends_sell : appends.

(** Decomposes a goal [appends m] along the structure of [m]. *)
Ltac appends_tac :=
  repeat first
    [ apply appends_bind; [| intros ?]
    | apply appends_try_catch; [| intros ?]
    | solve [auto with appends]
    | match goal with
      | |- appends (match ?x with _ => _ end) => destruct x
      | |- appends (if ?b then _ else _) => destruct b
      end ].

End TraceFacts.

Module TokenBuyerFacts.
Import Devnet Wallet Provider TokenBuyer Props TraceFacts.

(** C4, as stated, fails: with a slippage of 20000 basis points, outside
    [0, 10000], [buyTokens] does not fail; it submits the purchase to the
    SDK with that slippage. *)
Lemma buyTokens_submits_slippage_20000 :
  ~ (0 <= 20000 <= 10000)
  /\ fst (@buyTokens Fixture.runtime (Fixture.network true) Fixture.files
             Fixture.buyer Fixture.wideConfig Fixture.initialized) = Ok tt
  /\ In (Buy Fixture.sdk Fixture.wallet Fixture.mint 100000 20000
             (Some Fixture.fees))
        (trace (snd (@buyTokens Fixture.runtime (Fixture.network true)
                       Fixture.files Fixture.buyer Fixture.wideConfig
                       Fixture.initialized))).
Proof.
  split; [lia |]. vm_compute. split; [reflexivity |]. auto.
Qed.

(** C6, as stated, fails: when the token is not listed, [buyTokens]
    reports it by throwing, and [main] ends the process with exit code
    1. *)
Lemma main_exits_when_token_is_not_listed :
  fst (@buyTokens Fixture.runtime (Fixture.network false) Fixture.files
         Fixture.buyer buyConfig Fixture.initialized)
  = Throw (Error "Token not found on Pump.fun. Cannot buy.")
  /\ fst (@main Fixture.runtime (Fixture.network false) Fixture.files ∅
            Fixture.fresh) = Exited 1.
Proof. vm_compute. split; reflexivity. Qed.

(** On the same platform with the token listed, [main] completes. *)
Example main_completes_when_token_is_listed :
  fst (@main Fixture.runtime (Fixture.network true) Fixture.files ∅
         Fixture.fresh) = Completed.
Proof. vm_compute. reflexivity. Qed.

(** Running a sequence whose first step is known. *)
Lemma bind_run {A B} (m : Eff A) (k : A -> Eff B) st a st1 :
  m st = (Ok a, st1) -> bind m k st = k a st1.
Proof. intros Hm. unfold bind. now rewrite Hm. Qed.

Lemma bind_lift {A B} (r : Result A) (k : A -> Eff B) st a :
  r = Ok a -> bind (lift r) k st = k a st.
Proof. intros ->. reflexivity. Qed.

Lemma bind_get_sdk {B} (k : option PumpFunSDK -> Eff B) st :
  bind get_sdk k st = k (this_sdk st) st.
Proof. reflexivity. Qed.

(** A call that is in the trace when the body of a [try] ends is still
    there after the [catch]. *)
Lemma in_trace_try_catch {A} (body : Eff A) handler st c :
  (forall e, appends (handler e)) ->
  In c (trace (snd (body st))) ->
  In c (trace (snd (try_catch_eff body handler st))).
Proof.
  intros Hh Hin. unfold try_catch_eff.
  destruct (body st) as [[a | e] st1]; simpl in *; [assumption |].
  destruct (Hh e st1) as [calls ->]. apply in_or_app. now left.
Qed.

Lemma in_trace_bind {A B} (m : Eff A) (k : A -> Eff B) st c :
  (forall a, appends (k a)) ->
  In c (trace (snd (m st))) ->
  In c (trace (snd (bind m k st))).
Proof.
  intros Hk Hin. unfold bind.
  destruct (m st) as [[a | e] st1]; simpl in *; [| assumption].
  destruct (Hk a st1) as [calls ->]. apply in_or_app. now left.
Qed.

Section WithPlatform.
Context `{Runtime} `{Network}.
Variable fs : FileSystem.

Lemma appends_getTokenInfo (this : TokenBuyer) (mintAddress : string) :
  appends (getTokenInfo this mintAddress).
Proof. unfold getTokenInfo. appends_tac. Qed.

Lemma appends_buyTokens (this : TokenBuyer) (config : BuyTokensConfig) :
  appends (buyTokens fs this config).
Proof.
  unfold buyTokens. pose proof appends_getTokenInfo. appends_tac.
Qed.

Lemma bind_getBondingCurveAccount {B} sdk mint
    (k : option BondingCurveAccount -> Eff B) st account :
  sdk_getBondingCurveAccount (trace st) sdk mint = Ok account ->
  bind (getBondingCurveAccount sdk mint) k st
  = k account (log (GetBondingCurveAccount sdk mint) st).
Proof. intros Ha. unfold bind, getBondingCurveAccount. now rewrite Ha. Qed.

(** The calls [sellTokens] adds to the trace. *)
Lemma sellTokens_calls (this : TokenBuyer) (mintAddress : string)
    (sellAmount : Z) (walletType : WalletType) (st : State) :
  exists calls,
    trace (snd (sellTokens fs this mintAddress sellAmount walletType st))
    = (trace st ++ calls)%list
    /\ forall sdk seller mint amount slippage,
         In (Sell sdk seller mint amount slippage) calls -> slippage = 500.
Proof.
  unfold sellTokens. rewrite bind_get_sdk.
  destruct (this_sdk st) as [sdk |].
  2:{ exists []. simpl. rewrite app_nil_r. split; [reflexivity | intros; contradiction]. }
  unfold try_catch_eff, bind, lift, sell, confirmTransaction, throw, ret.
  destruct (loadWallet fs this walletType) as [wallet | e].
  2:{ exists []. simpl. rewrite app_nil_r. split; [reflexivity | intros; contradiction]. }
  destruct (PublicKey_new mintAddress) as [mint | e].
  2:{ exists []. simpl. rewrite app_nil_r. split; [reflexivity | intros; contradiction]. }
  destruct (sdk_sell _ _ _ _ _ _) as [result | e].
  2:{ eexists. simpl. split; [reflexivity |].
      intros ? ? ? ? ? [[=] | []]. congruence. }
  destruct (success result); simpl.
  2:{ eexists. split; [reflexivity |].
      intros ? ? ? ? ? [[=] | []]. congruence. }
  destruct (connection_confirmTransaction _ _ _ _) as [confirmation | e]; simpl.
  2:{ eexists. rewrite <- app_assoc. split; [reflexivity |].
      intros ? ? ? ? ? [[=] | [[=] | []]]. congruence. }
  destruct (value_err confirmation); simpl;
    (eexists; rewrite <- app_assoc; split; [reflexivity |];
     intros ? ? ? ? ? [[=] | [[=] | []]]; congruence).
Qed.

(** C4 (amended): [buyTokens] makes no range check on the slippage.
    Whenever it gets as far as the purchase, every integral
    [slippageBasisPoints], inside or outside [0, 10000] (500 when the
    field is omitted), is passed on to [sdk.buy] as
    [BigInt(slippageBasisPoints)].  It gets that far when the SDK is
    initialized, the wallet and the mint are resolved, the amount
    converts ([BigInt(Math.floor(buyAmountSol * LAMPORTS_PER_SOL))] does
    not throw, as it does for NaN and the infinities), the [getTokenInfo]
    that comes first returns normally (it throws when its lookup or a
    price computation on the curve throws) and the lookup after it finds
    the token listed.  [sellTokens] takes no slippage: every sale it
    submits carries 500 basis points. *)
Theorem slippage_is_forwarded_unchecked (this : TokenBuyer) :
  (forall (config : BuyTokensConfig) (st st1 : State)
          (sdk : PumpFunSDK) (wallet : Keypair) (mint : PublicKey)
          (lamports slippage : Z) (account : BondingCurveAccount),
      this_sdk st = Some sdk ->
      loadWallet fs this (default Trading (walletType config)) = Ok wallet ->
      PublicKey_new (mintAddress config) = Ok mint ->
      BigInt (Math_floor (buyAmountSol config * LAMPORTS_PER_SOL)%float)
      = Ok lamports ->
      getTokenInfo this (mintAddress config) st = (Ok tt, st1) ->
      sdk_getBondingCurveAccount (trace st1) sdk mint = Ok (Some account) ->
      BigInt (default 500%float (slippageBasisPoints config)) = Ok slippage ->
      In (Buy sdk wallet mint lamports slippage
              (Some {| unitLimit := 250000; unitPrice := 250000 |}))
         (trace (snd (buyTokens fs this config st))))
  /\ (forall (mintAddress : string) (sellAmount : Z) (walletType : WalletType)
             (st : State),
        exists calls,
          trace (snd (sellTokens fs this mintAddress sellAmount walletType st))
          = (trace st ++ calls)%list
          /\ forall sdk seller mint amount slippage,
               In (Sell sdk seller mint amount slippage) calls ->
               slippage = 500).
Proof.
  split; [| apply sellTokens_calls].
  intros config st st1 sdk wallet mint lamports slippage account
         Hsdk Hwallet Hmint Hlamports Hinfo Haccount Hslippage.
  unfold buyTokens. rewrite bind_get_sdk, Hsdk.
  apply in_trace_try_catch; [intros e; apply appends_throw |].
  cbv zeta.
  rewrite (bind_lift _ _ _ _ Hwallet), (bind_lift _ _ _ _ Hmint),
          (bind_lift _ _ _ _ Hlamports), (bind_run _ _ _ _ _ Hinfo),
          (bind_getBondingCurveAccount _ _ _ _ _ Haccount),
          (bind_lift _ _ _ _ Hslippage).
  apply in_trace_bind.
  - intros result. pose proof appends_getTokenInfo. appends_tac.
  - unfold buy. simpl. apply in_or_app. right. now left.
Qed.

End WithPlatform.

Section MainOutcome.
Context `{Runtime} `{Network}.
Variable fs : FileSystem.
Variable env : Environment.

(** [buyTokens] returns normally only after a purchase that the SDK
    reported successful and the connection confirmed. *)
Lemma buyTokens_returns_only_when_confirmed (this : TokenBuyer)
    (config : BuyTokensConfig) (st st' : State) :
  buyTokens fs this config st = (Ok tt, st') ->
  bought (trace st') /\ confirmed (trace st').
Proof.
  unfold buyTokens. rewrite bind_get_sdk.
  destruct (this_sdk st) as [sdk |]; [| discriminate].
  unfold try_catch_eff, bind, lift, throw, getBondingCurveAccount, buy,
    confirmTransaction.
  cbv zeta.
  destruct (loadWallet fs this _) as [wallet | e]; [| discriminate].
  destruct (PublicKey_new _) as [mint | e]; [| discriminate].
  destruct (BigInt (Math_floor _)) as [lamports | e]; [| discriminate].
  destruct (getTokenInfo this _ st) as [[[] | e] st1]; [| discriminate].
  destruct (sdk_getBondingCurveAccount _ _ _) as [[account |] | e];
    [| discriminate | discriminate].
  destruct (BigInt (default 500%float (slippageBasisPoints config)))
    as [slippage | e]; [| discriminate].
  destruct (sdk_buy _ _ _ _ _ _ _) as [result | e] eqn:Hbuy; [| discriminate].
  destruct (success result) eqn:Hsuccess; simpl; [| discriminate].
  destruct (connection_confirmTransaction _ _ _ _) as [confirmation | e]
    eqn:Hconfirm; [| discriminate].
  destruct (value_err confirmation) eqn:Herr; [discriminate |].
  match goal with
  | |- context [getTokenInfo this ?a ?s] =>
      destruct (appends_getTokenInfo this a s) as [calls Hcalls];
      destruct (getTokenInfo this a s) as [[[] | e] st2]; [| discriminate]
  end.
  intros [= <-]. simpl in Hcalls. rewrite Hcalls. split.
  - do 9 eexists. split; [| split; [exact Hbuy | exact Hsuccess]].
    simpl. rewrite <- !app_assoc. reflexivity.
  - do 6 eexists. split; [| split; [exact Hconfirm | exact Herr]].
    simpl. rewrite <- !app_assoc. reflexivity.
Qed.

(** C6 (amended): [buyTokens] returns no result value.  It returns
    normally only after the purchase was submitted, reported successful
    and confirmed without error; every other outcome, among them a token
    that is not found and a transaction the SDK reports as failed, is
    thrown to the caller as an exception.  [main] catches every exception
    of its body and ends the process with exit code 1; no exception
    leaves [main] unhandled, and [main] completes only when its body, and
    so the purchase, went through. *)
Theorem failures_are_thrown_and_main_exits (this : TokenBuyer)
    (config : BuyTokensConfig) (st : State) :
  match buyTokens fs this config st with
  | (Ok _, st') => bought (trace st') /\ confirmed (trace st')
  | (Throw failure, _) => True
  end
  /\ match main fs env st with
     | (Completed, st') =>
         main_body fs env st = (Ok tt, st')
         /\ bought (trace st') /\ confirmed (trace st')
     | (Exited code, st') =>
         code = 1 /\ exists failure, main_body fs env st = (Throw failure, st')
     | (UnhandledRejection _, _) => False
     end.
Proof.
  split.
  - destruct (buyTokens fs this config st) as [[[] | e] st'] eqn:Hrun; [| exact I].
    now apply buyTokens_returns_only_when_confirmed in Hrun.
  - unfold main.
    destruct (main_body fs env st) as [[[] | e] st'] eqn:Hbody.
    + split; [reflexivity |].
      unfold main_body, bind in Hbody.
      destruct (listWallets fs _ st) as [[[] | e1] st1]; [| discriminate].
      destruct (initializeSDK fs _ _ st1) as [[[] | e2] st2]; [| discriminate].
      now apply buyTokens_returns_only_when_confirmed in Hbody.
    + split; [reflexivity |]. now exists e.
Qed.

End MainOutcome.

(** The theorem at the platform of the counterexample: 20000 basis points
    reach [sdk.buy]. *)
Lemma slippage_is_forwarded_unchecked_witness :
  In (Buy Fixture.sdk Fixture.wallet Fixture.mint 100000 20000
          (Some Fixture.fees))
     (trace (snd (@buyTokens Fixture.runtime (Fixture.network true)
                    Fixture.files Fixture.buyer Fixture.wideConfig
                    Fixture.initialized))).
Proof.
  apply (proj1 (@slippage_is_forwarded_unchecked Fixture.runtime
                  (Fixture.network true) Fixture.files Fixture.buyer))
    with (st1 := mkState [GetBondingCurveAccount Fixture.sdk Fixture.mint]
                         (Some Fixture.sdk))
         (account := Fixture.curve);
    vm_compute; reflexivity.
Defined.

End TokenBuyerFacts.

(** ** The orchestrator of the specification *)

Module OrchestratorFacts.
Import Orchestrator OrchestratorProps.

(** C5: the floor is the expected output with the haircut, rounded down:
    for every expected output and every tolerance in [0, 10000] it is at
    most the expected output and lies less than one unit below the exact
    value expected x (10000 - bps) / 10000.  For the reserves
    (30_000_000, 1_000_000_000), an input of 1_000_000 and 500 basis
    points, the expected output is 29970 and the floor is 28471, within
    one unit of 0.95 x 29970 = 28471.5. *)
Theorem minAcceptable_haircut :
  (forall expected bps : Z,
      0 <= expected -> 0 <= bps <= 10000 ->
      0 <= minAcceptable expected bps <= expected
      /\ 0 <= expected * (10000 - bps) - 10000 * minAcceptable expected bps < 10000)
  /\ quoteOutput exampleCurve 1000000 QuoteToBase = 29970
  /\ minAcceptable (quoteOutput exampleCurve 1000000 QuoteToBase) 500 = 28471
  /\ 28471 <= 29970
  /\ 0 <= 29970 * 9500 - 10000 * 28471 < 10000.
Proof.
  split; [| repeat split; try reflexivity; lia].
  intros expected bps Hexp Hbps. unfold minAcceptable.
  pose proof (Z.div_mod (expected * (10000 - bps)) 10000 ltac:(lia)) as Hdm.
  pose proof (Z.mod_pos_bound (expected * (10000 - bps)) 10000 ltac:(lia)) as Hm.
  assert (0 <= expected * (10000 - bps) <= expected * 10000) by nia.
  split; [| lia].
  split.
  - apply Z.div_pos; lia.
  - apply Z.div_le_upper_bound; lia.
Qed.

(** The general bound at the inputs of the example. *)
Lemma minAcceptable_haircut_witness :
  0 <= minAcceptable 29970 500 <= 29970
  /\ 0 <= 29970 * (10000 - 500) - 10000 * minAcceptable 29970 500 < 10000.
Proof. apply (proj1 minAcceptable_haircut); lia. Defined.

Section WithScenario.
Variable cfg : Config.
Variable sc : Scenario.
Variable intentHash : TradeIntent -> N.

Notation submit := (submit sc).
Notation getStatus := (getStatus sc).
Notation readBalance := (readBalance sc).
Notation poll := (poll sc).
Notation confirm := (confirm cfg sc intentHash).
Notation reject := (reject intentHash).
Notation exhaust := (exhaust intentHash).
Notation retry_or_fail := (retry_or_fail intentHash).
Notation await := (await cfg sc intentHash).
Notation step := (step cfg sc intentHash).
Notation run := (run cfg sc intentHash).
Notation execute := (execute cfg sc intentHash).
Notation truthful := (truthful sc).
Notation reliable := (reliable sc).
Notation served := (served cfg intentHash).
Notation reachable := (reachable cfg sc intentHash).
Notation valid := (valid cfg sc).
Notation sufficient := (sufficient cfg sc).
Notation declaredFloor := (declaredFloor cfg sc).
Notation backed := (backed cfg sc).
Notation sound := (sound cfg sc).
Notation unambiguous := (unambiguous intentHash).

(** *** What the ChainClient does to the world *)

Lemma same_ledger_refl w : same_ledger w w.
Proof. split; reflexivity. Qed.

Lemma same_ledger_trans w1 w2 w3 :
  same_ledger w1 w2 -> same_ledger w2 w3 -> same_ledger w1 w3.
Proof. intros [H1 H2] [H3 H4]. split; congruence. Qed.

Lemma same_ledger_wf w w' : same_ledger w w' -> wf_world w -> wf_world w'.
Proof. intros [Hl Hn] Hwf sid x. rewrite Hl, Hn. apply Hwf. Qed.

Lemma getStatus_spec sid w st w' ev :
  getStatus sid w = (st, w', ev) ->
  same_ledger w w'
  /\ ev = [EvGetStatus sid st]
  /\ (st = ChainConfirmed ->
      exists op realized, ledger w !! sid = Some (op, FinalOk realized)).
Proof.
  unfold Orchestrator.getStatus. cbv zeta. intros ?; simplify_eq.
  split; [split; reflexivity |]. split; [reflexivity |].
  destruct (onStatus sc (statusCalls w)); try discriminate.
  destruct (ledger w !! sid) as [[op [realized | detail]] |]; try discriminate.
  eauto.
Qed.

Lemma readBalance_spec acct ast w x w' ev :
  readBalance acct ast w = (x, w', ev) ->
  same_ledger w w' /\ ev = [EvReadBalance acct ast x].
Proof.
  unfold Orchestrator.readBalance. cbv zeta. intros ?; simplify_eq.
  split; [split |]; reflexivity.
Qed.

Lemma poll_spec n sid w r w' ev :
  poll n sid w = (r, w', ev) ->
  same_ledger w w'
  /\ Forall (is_status_query sid) ev
  /\ (r = PollConfirmed ->
      exists op realized, ledger w !! sid = Some (op, FinalOk realized)).
Proof.
  revert w r w' ev. induction n as [| n IH]; intros w r w' ev;
    cbn [Orchestrator.poll].
  - intros ?; simplify_eq. split; [apply same_ledger_refl |].
    split; [constructor | discriminate].
  - destruct (getStatus sid w) as [[st w1] ev1] eqn:Hst.
    apply getStatus_spec in Hst as (Hsame & -> & Hconf).
    assert (Hq : is_status_query sid (EvGetStatus sid st)) by (now exists st).
    destruct st.
    + destruct (poll n sid w1) as [[r2 w2] ev2] eqn:Hpoll.
      intros ?; simplify_eq. apply IH in Hpoll as (Hsame2 & Hall & Hconf2).
      split; [eapply same_ledger_trans; eauto |].
      split; [constructor; assumption |].
      intros Hr. destruct (Hconf2 Hr) as (op & realized & Hl).
      destruct Hsame as [Hl1 _]. rewrite Hl1 in Hl. eauto.
    + intros ?; simplify_eq. split; [assumption |].
      split; [repeat constructor; assumption | auto].
    + intros ?; simplify_eq. split; [assumption |].
      split; [repeat constructor; assumption | discriminate].
    + destruct (poll n sid w1) as [[r2 w2] ev2] eqn:Hpoll.
      intros ?; simplify_eq. apply IH in Hpoll as (Hsame2 & Hall & Hconf2).
      split; [eapply same_ledger_trans; eauto |].
      split; [constructor; assumption |].
      intros Hr. destruct (Hconf2 Hr) as (op & realized & Hl).
      destruct Hsame as [Hl1 _]. rewrite Hl1 in Hl. eauto.
Qed.

Lemma submit_spec op w handle w' ev :
  wf_world w ->
  submit op w = (handle, w', ev) ->
  wf_world w'
  /\ ev = [EvSubmit (op_key op) handle]
  /\ (forall sid x, ledger w !! sid = Some x -> ledger w' !! sid = Some x)
  /\ (forall sid, handle = Some sid ->
        exists fin, ledger w' !! sid = Some (op, fin)
                    /\ forall realized, fin = FinalOk realized ->
                                        op_minOut op <= realized).
Proof.
  intros Hwf. unfold Orchestrator.submit.
  destruct (onSubmit sc (submitCalls w)) as [| curveAtExecution refusal].
  - intros ?; simplify_eq. repeat split; auto. discriminate.
  - intros ?; simplify_eq. simpl. repeat split.
    + intros sid x. simpl. rewrite lookup_insert. case_decide.
      * subst. intros _. lia.
      * intros Hl. apply Hwf in Hl. lia.
    + intros sid x Hl. rewrite lookup_insert_ne; [assumption |].
      intros <-. apply Hwf in Hl. lia.
    + intros sid [= <-]. eexists. split; [apply lookup_insert_eq |].
      unfold finalize. destruct refusal; [discriminate |].
      destruct (_ <? _) eqn:Hlt; [discriminate |].
      intros realized [= <-]. apply Z.ltb_ge in Hlt. exact Hlt.
Qed.

(** *** The terminal steps *)

Lemma confirm_spec ctx from sid s o s' ev :
  confirm ctx from sid s = (o, s', ev) ->
  o = OutcomeConfirmed sid
  /\ same_ledger (world s) (world s')
  /\ oplog s' = updateStatus (intentHash (at_intent ctx)) RecConfirmed (oplog s)
  /\ exists ev', ev = EvTransition sid from Confirmed :: ev'
                 /\ forallb is_quiet ev' = true.
Proof.
  unfold Orchestrator.confirm. cbv zeta.
  destruct (readBalance _ _ (world s)) as [[x1 w1] ev1] eqn:H1.
  destruct (readBalance _ _ w1) as [[x2 w2] ev2] eqn:H2.
  apply readBalance_spec in H1 as [Hs1 ->].
  apply readBalance_spec in H2 as [Hs2 ->].
  intros ?; simplify_eq. split; [reflexivity |].
  split; [eapply same_ledger_trans; eauto |]. split; [reflexivity |].
  eexists. split; [reflexivity |]. simpl.
  destruct (_ && _); reflexivity.
Qed.

Lemma reject_spec ctx from sid retry detail s o s' ev :
  reject ctx from sid retry detail s = (o, s', ev) ->
  o = OutcomeError (Rejected detail)
  /\ world s' = world s
  /\ oplog s' = record intentHash
                  (the_record ctx (Some sid) retry RecFailed
                              (Some (Rejected detail))) (oplog s)
  /\ ev = [EvTransition sid from RejectedState].
Proof. unfold Orchestrator.reject. intros ?; simplify_eq. auto. Qed.

Lemma exhaust_spec ctx sid retry s o s' ev :
  exhaust ctx sid retry s = (o, s', ev) ->
  o = OutcomeError FailedExhaustedRetries
  /\ world s' = world s
  /\ oplog s' = record intentHash
                  (the_record ctx sid retry RecFailed
                              (Some FailedExhaustedRetries)) (oplog s)
  /\ ev = [].
Proof. unfold Orchestrator.exhaust. intros ?; simplify_eq. auto. Qed.

(** A property of the attempts holds for [run] when [step] carries it
    over from the attempts that may follow. *)
Lemma run_induction (ctx : Attempt)
    (P : (Phase -> nat -> Sys -> Run) -> Prop) :
  (forall again, (forall r, again = Some r -> P r) -> P (step again ctx)) ->
  forall fuel, P (run fuel ctx).
Proof.
  intros Hstep. induction fuel as [| fuel IH].
  - change (P (step None ctx)). apply Hstep. discriminate.
  - change (P (step (Some (run fuel ctx)) ctx)). apply Hstep.
    intros r [= <-]. exact IH.
Qed.

(** *** The floor (C1) *)

Section Floor.
Variable ctx : Attempt.

Notation submitted := (submitted ctx).
Notation honoured := (honoured ctx).
Notation floor_safe := (floor_safe ctx).

Lemma submitted_same sid w w' :
  same_ledger w w' -> submitted sid w -> submitted sid w'.
Proof. intros [Hl _] (op & fin & H1 & H2). exists op, fin. now rewrite Hl. Qed.

Lemma honoured_confirmed sid w w' :
  submitted sid w ->
  (exists op realized, ledger w !! sid = Some (op, FinalOk realized)) ->
  same_ledger w w' ->
  honoured (OutcomeConfirmed sid) w'.
Proof.
  intros (op & fin & Hl & Hint & Hfloor) (op' & realized & Hl') [Hsame _].
  rewrite Hl in Hl'. injection Hl' as <- ->.
  exists op, realized. rewrite Hsame. auto.
Qed.

Lemma retry_floor_safe again phase sid retry s o s' evs :
  (forall r, again = Some r -> floor_safe r) ->
  retry_or_fail again ctx phase sid retry s = (o, s', evs) ->
  wf_world (world s) ->
  (forall sid, phase = DoWait sid -> submitted sid (world s)) ->
  wf_world (world s') /\ honoured o (world s').
Proof.
  intros IH Hrun Hwf Hsub. unfold Orchestrator.retry_or_fail in Hrun.
  destruct again as [r |].
  - eapply (IH r eq_refl); eauto.
  - apply exhaust_spec in Hrun as (-> & Hw & _). rewrite Hw.
    split; [assumption | exact I].
Qed.

Lemma await_floor_safe again sid retry s o s' evs :
  (forall r, again = Some r -> floor_safe r) ->
  await again ctx sid retry s = (o, s', evs) ->
  wf_world (world s) ->
  submitted sid (world s) ->
  wf_world (world s') /\ honoured o (world s').
Proof.
  intros IH Hrun Hwf Hsub. unfold Orchestrator.await in Hrun.
  destruct (poll _ sid (world s)) as [[r w1] ev1] eqn:Hpoll.
  apply poll_spec in Hpoll as (Hsame1 & _ & Hconf1).
  destruct r as [| detail |].
  - destruct (confirm ctx Submitted sid _) as [[o2 s2] ev2] eqn:Hc.
    apply confirm_spec in Hc as (-> & Hsame2 & _). simpl in Hsame2.
    simplify_eq.
    assert (Hsame : same_ledger (world s) (world s'))
      by (eapply same_ledger_trans; eauto).
    split; [eapply same_ledger_wf; eauto |].
    eapply honoured_confirmed; eauto.
  - destruct (reject ctx Submitted sid retry detail _) as [[o2 s2] ev2] eqn:Hc.
    apply reject_spec in Hc as (-> & Hw & _). simpl in Hw. simplify_eq.
    split; [eapply same_ledger_wf; eauto | exact I].
  - destruct (getStatus sid w1) as [[st w2] ev2] eqn:Hst.
    apply getStatus_spec in Hst as (Hsame2 & _ & Hconf2).
    assert (Hsame : same_ledger (world s) w2)
      by (eapply same_ledger_trans; eauto).
    assert (Hwf2 : wf_world w2) by (eapply same_ledger_wf; eauto).
    destruct st as [| | detail |].
    + destruct (retry_or_fail again ctx (DoWait sid) _ _ _)
        as [[o3 s3] ev3] eqn:Hr.
      simplify_eq. eapply retry_floor_safe; eauto. simpl.
      intros sid' [= <-]. eapply submitted_same; eauto.
    + destruct (confirm ctx TimedOut sid _) as [[o3 s3] ev3] eqn:Hc.
      apply confirm_spec in Hc as (-> & Hsame3 & _). simpl in Hsame3.
      simplify_eq.
      split; [eapply same_ledger_wf; eauto |].
      eapply honoured_confirmed; [eapply submitted_same; eauto | | eauto].
      destruct (Hconf2 eq_refl) as (op & realized & Hl).
      destruct Hsame2 as [Hl2 _]. exists op, realized. congruence.
    + destruct (reject ctx TimedOut sid retry detail _) as [[o3 s3] ev3] eqn:Hc.
      apply reject_spec in Hc as (-> & Hw & _). simpl in Hw. simplify_eq.
      split; [assumption | exact I].
    + destruct (retry_or_fail again ctx DoSubmit _ _ _)
        as [[o3 s3] ev3] eqn:Hr.
      simplify_eq. eapply retry_floor_safe; eauto. discriminate.
Qed.

Lemma step_floor_safe again :
  (forall r, again = Some r -> floor_safe r) -> floor_safe (step again ctx).
Proof.
  intros IH phase retry s o s' evs Hrun Hwf Hsub.
  unfold Orchestrator.step in Hrun. destruct phase as [| sid].
  - destruct (submit _ (world s)) as [[handle w1] ev1] eqn:Hsubmit.
    apply (submit_spec _ _ _ _ _ Hwf) in Hsubmit as (Hwf1 & _ & _ & Hnew).
    destruct handle as [sid |].
    + destruct (await again ctx sid retry _) as [[o2 s2] ev2] eqn:Ha.
      simplify_eq. eapply await_floor_safe; eauto. simpl.
      destruct (Hnew sid eq_refl) as (fin & Hl & Hfloor).
      eexists _, fin. split; [exact Hl |]. split; [reflexivity | exact Hfloor].
    + destruct (retry_or_fail again ctx DoSubmit None retry _)
        as [[o2 s2] ev2] eqn:Hr.
      simplify_eq. eapply retry_floor_safe; eauto. discriminate.
  - eapply await_floor_safe; eauto.
Qed.

Lemma run_floor_safe fuel : floor_safe (run fuel ctx).
Proof. apply run_induction. exact step_floor_safe. Qed.

End Floor.

(** *** Resubmission only after "unknown", one confirmation (C3) *)

Lemma confirmations_app a b :
  confirmations (a ++ b) = (confirmations a + confirmations b)%nat.
Proof. unfold confirmations. now rewrite List.filter_app, length_app. Qed.

Lemma submissions_app a b :
  submissions (a ++ b) = (submissions a + submissions b)%nat.
Proof. unfold submissions. now rewrite List.filter_app, length_app. Qed.

Lemma scan_app open a b :
  scan open (a ++ b)
  = match scan open a with Some open' => scan open' b | None => None end.
Proof.
  revert open. induction a as [| e a IH]; intros open; [reflexivity |].
  destruct e as [key handle | sid st | acct ast x | sid from to | sid];
    cbn [app scan]; auto.
  - destruct open; auto.
  - destruct st; auto.
  - destruct to; auto.
Qed.

Lemma scan_app_some open a b open1 open2 :
  scan open a = Some open1 -> scan open1 b = Some open2 ->
  scan open (a ++ b) = Some open2.
Proof. intros Ha Hb. now rewrite scan_app, Ha. Qed.

(** A submission that is open when a trace is read, and that is followed
    by a call of submit, was answered "unknown" before that call. *)
Lemma scan_open_answered open mid key handle post sid :
  is_Some (scan open (mid ++ EvSubmit key handle :: post)) ->
  In sid open ->
  In (EvGetStatus sid ChainUnknown) mid.
Proof.
  revert open. induction mid as [| e mid IH]; intros open Hscan Hin.
  - cbn [app scan] in Hscan. destruct open; [contradiction |].
    destruct Hscan as [x Hx]. discriminate.
  - destruct e as [key' handle' | sid' st | acct ast x | sid' from to | sid'];
      cbn [app scan] in Hscan.
    + destruct open; [contradiction |]. destruct Hscan as [x Hx]. discriminate.
    + destruct (Nat.eq_dec sid' sid) as [-> | Hne].
      * destruct st; try (right; eapply IH; eassumption). now left.
      * right. destruct st; try (eapply IH; eassumption).
        eapply IH; [eassumption |]. apply List.filter_In. split; [assumption |].
        apply negb_true_iff, Nat.eqb_neq. congruence.
    + right. eapply IH; eassumption.
    + right. destruct to; try (eapply IH; eassumption).
      eapply IH; [eassumption |]. now right.
    + right. eapply IH; eassumption.
Qed.

Lemma scan_guard open evs pre sid from mid key handle post :
  is_Some (scan open evs) ->
  evs = (pre ++ EvTransition sid from TimedOut :: mid
             ++ EvSubmit key handle :: post)%list ->
  In (EvGetStatus sid ChainUnknown) mid.
Proof.
  intros Hscan ->. rewrite scan_app in Hscan.
  destruct (scan open pre) as [open1 |]; [| destruct Hscan; discriminate].
  cbn [scan] in Hscan.
  eapply scan_open_answered; [exact Hscan | now left].
Qed.

Lemma filter_only sid open :
  Forall (eq sid) open ->
  List.filter (fun x => negb (Nat.eqb x sid)) open = [].
Proof.
  induction 1 as [| x open <- _ IH]; [reflexivity |].
  cbn [List.filter]. now rewrite Nat.eqb_refl.
Qed.

Lemma scan_status_queries sid open ev :
  Forall (is_status_query sid) ev ->
  Forall (eq sid) open ->
  (exists open', scan open ev = Some open' /\ Forall (eq sid) open')
  /\ confirmations ev = 0%nat /\ submissions ev = 0%nat.
Proof.
  intros Hev. revert open. induction Hev as [| e ev [st ->] _ IH]; intros open Hopen.
  - split; [exists open; auto | split; reflexivity].
  - cbn [scan]. destruct st.
    1-3: (destruct (IH open Hopen) as (Hs & Hc & Hn); split; [exact Hs |];
          split; assumption).
    rewrite (filter_only _ _ Hopen).
    destruct (IH [] ltac:(constructor)) as (Hs & Hc & Hn).
    split; [exact Hs |]. split; assumption.
Qed.

Lemma scan_quiet open ev :
  forallb is_quiet ev = true ->
  scan open ev = Some open
  /\ confirmations ev = 0%nat /\ submissions ev = 0%nat.
Proof.
  induction ev as [| e ev IH]; [auto |]. cbn [forallb].
  intros [He Hev]%andb_true_iff. destruct (IH Hev) as (Hs & Hc & Hn).
  destruct e; try discriminate; cbn [scan]; auto.
Qed.

Section Guard.
Variable ctx : Attempt.

Lemma retry_guarded again phase sid retry s o s' evs open :
  (forall r, again = Some r -> guarded r) ->
  retry_or_fail again ctx phase sid retry s = (o, s', evs) ->
  opening phase open ->
  is_Some (scan open evs) /\ confirmations evs = tally o.
Proof.
  intros IH Hrun Hopen. unfold Orchestrator.retry_or_fail in Hrun.
  destruct again as [r |].
  - eapply (IH r eq_refl); eauto.
  - apply exhaust_spec in Hrun as (-> & _ & _ & ->). split; [now eexists | reflexivity].
Qed.

Lemma confirm_guarded from sid s o s' ev open :
  from <> TimedOut ->
  confirm ctx from sid s = (o, s', ev) ->
  scan open ev = Some open /\ confirmations ev = tally o.
Proof.
  intros _ Hc. apply confirm_spec in Hc as (-> & _ & _ & ev' & -> & Hq).
  destruct (scan_quiet open ev' Hq) as (Hs & Hn & _).
  split; [exact Hs |].
  change (EvTransition sid from Confirmed :: ev')
    with ([EvTransition sid from Confirmed] ++ ev')%list.
  rewrite confirmations_app, Hn. reflexivity.
Qed.

Lemma await_guarded again sid retry s o s' evs open :
  (forall r, again = Some r -> guarded r) ->
  await again ctx sid retry s = (o, s', evs) ->
  Forall (eq sid) open ->
  is_Some (scan open evs) /\ confirmations evs = tally o.
Proof.
  intros IH Hrun Hopen. unfold Orchestrator.await in Hrun.
  destruct (poll _ sid (world s)) as [[r w1] ev1] eqn:Hpoll.
  apply poll_spec in Hpoll as (_ & Hq & _).
  destruct (scan_status_queries sid open ev1 Hq Hopen)
    as ((open1 & Hs1 & Hopen1) & Hc1 & _).
  destruct r as [| detail |].
  - destruct (confirm ctx Submitted sid _) as [[o2 s2] ev2] eqn:Hc.
    apply confirm_guarded with (open := open1) in Hc as [Hs2 Hc2];
      [| discriminate].
    simplify_eq. rewrite confirmations_app, Hc1, Hc2.
    split; [| reflexivity]. rewrite scan_app, Hs1, Hs2. now eexists.
  - destruct (reject ctx Submitted sid retry detail _) as [[o2 s2] ev2] eqn:Hc.
    apply reject_spec in Hc as (-> & _ & _ & ->). simplify_eq.
    rewrite confirmations_app, Hc1. split; [| reflexivity].
    rewrite scan_app, Hs1. now eexists.
  - destruct (getStatus sid w1) as [[st w2] ev2] eqn:Hst.
    apply getStatus_spec in Hst as (_ & -> & _).
    destruct st as [| | detail |].
    + destruct (retry_or_fail again ctx (DoWait sid) _ _ _)
        as [[o3 s3] ev3] eqn:Hr.
      apply retry_guarded with (open := sid :: open1) in Hr as [[open3 Hs3] Hc3];
        [| assumption | now constructor].
      simplify_eq. rewrite !confirmations_app, Hc1, Hc3.
      split; [| reflexivity].
      rewrite <- !app_assoc, scan_app, Hs1. cbn [app scan].
      rewrite Hs3. now eexists.
    + destruct (confirm ctx TimedOut sid _) as [[o3 s3] ev3] eqn:Hc.
      apply confirm_spec in Hc as (-> & _ & _ & ev' & -> & Hquiet).
      destruct (scan_quiet (sid :: open1) ev' Hquiet) as (Hs3 & Hn3 & _).
      simplify_eq. split.
      * rewrite <- !app_assoc, scan_app, Hs1. cbn [app scan].
        rewrite Hs3. now eexists.
      * change (EvTransition sid TimedOut Confirmed :: ev')
          with ([EvTransition sid TimedOut Confirmed] ++ ev')%list.
        rewrite !confirmations_app, Hc1, Hn3. reflexivity.
    + destruct (reject ctx TimedOut sid retry detail _) as [[o3 s3] ev3] eqn:Hc.
      apply reject_spec in Hc as (-> & _ & _ & ->). simplify_eq.
      rewrite !confirmations_app, Hc1. split; [| reflexivity].
      rewrite <- !app_assoc, scan_app, Hs1. cbn [app scan]. now eexists.
    + destruct (retry_or_fail again ctx DoSubmit _ _ _)
        as [[o3 s3] ev3] eqn:Hr.
      apply retry_guarded with (open := []) in Hr as [[open3 Hs3] Hc3];
        [| assumption | reflexivity].
      simplify_eq. rewrite !confirmations_app, Hc1, Hc3.
      split; [| reflexivity].
      rewrite <- !app_assoc, scan_app, Hs1. cbn [app scan List.filter].
      rewrite Nat.eqb_refl. cbn [negb].
      rewrite (filter_only _ _ Hopen1), Hs3. now eexists.
Qed.

Lemma step_guarded again :
  (forall r, again = Some r -> guarded r) -> guarded (step again ctx).
Proof.
  intros IH phase retry s o s' evs open Hrun Hopen.
  unfold Orchestrator.step in Hrun. destruct phase as [| sid].
  - simpl in Hopen. subst open.
    destruct (submit _ (world s)) as [[handle w1] ev1] eqn:Hsubmit.
    assert (Hev1 : ev1 = [EvSubmit (intentHash (at_intent ctx), retry) handle]).
    { unfold Orchestrator.submit in Hsubmit.
      destruct (onSubmit _ _); now simplify_eq. }
    destruct handle as [sid |].
    + destruct (await again ctx sid retry _) as [[o2 s2] ev2] eqn:Ha.
      apply await_guarded with (open := []) in Ha as [[open2 Hs2] Hc2];
        [| assumption | constructor].
      simplify_eq. split.
      * cbn [app scan]. rewrite Hs2. now eexists.
      * unfold confirmations in *. cbn [app List.filter is_confirmation].
        exact Hc2.
    + destruct (retry_or_fail again ctx DoSubmit None retry _)
        as [[o2 s2] ev2] eqn:Hr.
      apply retry_guarded with (open := []) in Hr as [[open2 Hs2] Hc2];
        [| assumption | reflexivity].
      simplify_eq. split.
      * cbn [app scan]. rewrite Hs2. now eexists.
      * unfold confirmations in *. cbn [app List.filter is_confirmation].
        exact Hc2.
  - eapply await_guarded; eauto.
Qed.

Lemma run_guarded fuel : guarded (run fuel ctx).
Proof. apply run_induction. exact step_guarded. Qed.

End Guard.

(** *** The log after an execution (C2) *)

Section Log.
Variable ctx : Attempt.

Notation logged := (logged intentHash ctx).
Notation waiting := (waiting intentHash ctx).
Notation recorded := (recorded intentHash ctx).

Lemma logged_record sid retry st err log :
  logged (outcome_of_record (the_record ctx sid retry st err))
         (record intentHash (the_record ctx sid retry st err) log).
Proof.
  eexists. split; [apply lookup_insert_eq |].
  split; [reflexivity | split; reflexivity].
Qed.

Lemma confirm_logged from sid s o s' ev :
  confirm ctx from sid s = (o, s', ev) ->
  waiting sid (oplog s) ->
  logged o (oplog s').
Proof.
  intros Hc (r & Hl & Hid & Hat & Hint).
  apply confirm_spec in Hc as (-> & _ & -> & _).
  exists (set_status RecConfirmed r). unfold updateStatus.
  rewrite lookup_alter_eq, Hl. split; [reflexivity |].
  split; [| split; [exact Hat | exact Hint]].
  unfold outcome_of_record. simpl. now rewrite Hid.
Qed.

Lemma reject_logged from sid retry detail s o s' ev :
  reject ctx from sid retry detail s = (o, s', ev) -> logged o (oplog s').
Proof.
  intros Hc. apply reject_spec in Hc as (-> & _ & -> & _).
  apply (logged_record (Some sid) retry RecFailed (Some (Rejected detail))).
Qed.

Lemma retry_logged again phase sid retry s o s' evs :
  (forall r, again = Some r -> recorded r) ->
  retry_or_fail again ctx phase sid retry s = (o, s', evs) ->
  (forall sid, phase = DoWait sid -> waiting sid (oplog s)) ->
  logged o (oplog s').
Proof.
  intros IH Hrun Hw. unfold Orchestrator.retry_or_fail in Hrun.
  destruct again as [r |].
  - eapply (IH r eq_refl); eauto.
  - apply exhaust_spec in Hrun as (-> & _ & -> & _).
    apply (logged_record sid retry RecFailed (Some FailedExhaustedRetries)).
Qed.

Lemma await_logged again sid retry s o s' evs :
  (forall r, again = Some r -> recorded r) ->
  await again ctx sid retry s = (o, s', evs) ->
  waiting sid (oplog s) ->
  logged o (oplog s').
Proof.
  intros IH Hrun Hw. unfold Orchestrator.await in Hrun.
  destruct (poll _ sid (world s)) as [[r w1] ev1].
  destruct r as [| detail |].
  - destruct (confirm ctx Submitted sid _) as [[o2 s2] ev2] eqn:Hc.
    simplify_eq. eapply confirm_logged; eauto.
  - destruct (reject ctx Submitted sid retry detail _) as [[o2 s2] ev2] eqn:Hc.
    simplify_eq. eapply reject_logged; eauto.
  - destruct (getStatus sid w1) as [[st w2] ev2].
    destruct st as [| | detail |].
    + destruct (retry_or_fail again ctx (DoWait sid) _ _ _)
        as [[o3 s3] ev3] eqn:Hr.
      simplify_eq. eapply retry_logged; eauto. simpl. now intros sid' [= <-].
    + destruct (confirm ctx TimedOut sid _) as [[o3 s3] ev3] eqn:Hc.
      simplify_eq. eapply confirm_logged; eauto.
    + destruct (reject ctx TimedOut sid retry detail _) as [[o3 s3] ev3] eqn:Hc.
      simplify_eq. eapply reject_logged; eauto.
    + destruct (retry_or_fail again ctx DoSubmit _ _ _)
        as [[o3 s3] ev3] eqn:Hr.
      simplify_eq. eapply retry_logged; eauto. discriminate.
Qed.

Lemma step_recorded again :
  (forall r, again = Some r -> recorded r) -> recorded (step again ctx).
Proof.
  intros IH phase retry s o s' evs Hrun Hw.
  unfold Orchestrator.step in Hrun. destruct phase as [| sid].
  - destruct (submit _ (world s)) as [[handle w1] ev1].
    destruct handle as [sid |].
    + destruct (await again ctx sid retry _) as [[o2 s2] ev2] eqn:Ha.
      simplify_eq. eapply await_logged; eauto. simpl.
      eexists. split; [apply lookup_insert_eq |].
      split; [reflexivity | split; reflexivity].
    + destruct (retry_or_fail again ctx DoSubmit None retry _)
        as [[o2 s2] ev2] eqn:Hr.
      simplify_eq. eapply retry_logged; eauto. discriminate.
  - eapply await_logged; eauto.
Qed.

Lemma run_recorded fuel : recorded (run fuel ctx).
Proof. apply run_induction. exact step_recorded. Qed.

End Log.

(** *** What an execution leaves untouched *)

Lemma grows_refl w : grows w w.
Proof. intros sid x Hl. exact Hl. Qed.

Lemma grows_trans w1 w2 w3 : grows w1 w2 -> grows w2 w3 -> grows w1 w3.
Proof. intros H1 H2 sid x Hl. apply H2, H1, Hl. Qed.

Lemma same_ledger_grows w w' : same_ledger w w' -> grows w w'.
Proof. intros [Hl _] sid x. now rewrite Hl. Qed.

Section Frame.
Variable ctx : Attempt.

Notation framed := (framed intentHash ctx).

Lemma record_frame sid retry st err log h :
  h <> intentHash (at_intent ctx) ->
  record intentHash (the_record ctx sid retry st err) log !! h = log !! h.
Proof.
  intros Hh. unfold Orchestrator.record. simpl.
  apply lookup_insert_ne. congruence.
Qed.

Lemma updateStatus_frame st log h :
  h <> intentHash (at_intent ctx) ->
  updateStatus (intentHash (at_intent ctx)) st log !! h = log !! h.
Proof.
  intros Hh. unfold updateStatus. apply lookup_alter_ne. congruence.
Qed.

Lemma confirm_framed from sid s o s' ev :
  confirm ctx from sid s = (o, s', ev) ->
  grows (world s) (world s')
  /\ forall h, h <> intentHash (at_intent ctx) ->
               oplog s' !! h = oplog s !! h.
Proof.
  intros Hc. apply confirm_spec in Hc as (_ & Hsame & -> & _).
  split; [now apply same_ledger_grows |].
  intros h Hh. now apply updateStatus_frame.
Qed.

Lemma reject_framed from sid retry detail s o s' ev :
  reject ctx from sid retry detail s = (o, s', ev) ->
  grows (world s) (world s')
  /\ forall h, h <> intentHash (at_intent ctx) ->
               oplog s' !! h = oplog s !! h.
Proof.
  intros Hc. apply reject_spec in Hc as (_ & -> & -> & _).
  split; [apply grows_refl |].
  intros h Hh. now apply record_frame.
Qed.

Lemma retry_framed again phase sid retry s o s' evs :
  (forall r, again = Some r -> framed r) ->
  retry_or_fail again ctx phase sid retry s = (o, s', evs) ->
  wf_world (world s) ->
  grows (world s) (world s')
  /\ forall h, h <> intentHash (at_intent ctx) ->
               oplog s' !! h = oplog s !! h.
Proof.
  intros IH Hrun Hwf. unfold Orchestrator.retry_or_fail in Hrun.
  destruct again as [r |].
  - eapply (IH r eq_refl); eauto.
  - apply exhaust_spec in Hrun as (_ & -> & -> & _).
    split; [apply grows_refl |].
    intros h Hh. now apply record_frame.
Qed.

Lemma await_framed again sid retry s o s' evs :
  (forall r, again = Some r -> framed r) ->
  await again ctx sid retry s = (o, s', evs) ->
  wf_world (world s) ->
  grows (world s) (world s')
  /\ forall h, h <> intentHash (at_intent ctx) ->
               oplog s' !! h = oplog s !! h.
Proof.
  intros IH Hrun Hwf. unfold Orchestrator.await in Hrun.
  destruct (poll _ sid (world s)) as [[r w1] ev1] eqn:Hpoll.
  apply poll_spec in Hpoll as (Hsame1 & _ & _).
  assert (Hg1 : grows (world s) w1) by now apply same_ledger_grows.
  destruct r as [| detail |].
  - destruct (confirm ctx Submitted sid _) as [[o2 s2] ev2] eqn:Hc.
    apply confirm_framed in Hc as [Hg Hf]. simpl in Hg, Hf. simplify_eq.
    split; [eapply grows_trans; eauto | exact Hf].
  - destruct (reject ctx Submitted sid retry detail _) as [[o2 s2] ev2] eqn:Hc.
    apply reject_framed in Hc as [Hg Hf]. simpl in Hg, Hf. simplify_eq.
    split; [eapply grows_trans; eauto | exact Hf].
  - destruct (getStatus sid w1) as [[st w2] ev2] eqn:Hst.
    apply getStatus_spec in Hst as (Hsame2 & _ & _).
    assert (Hsame : same_ledger (world s) w2)
      by (eapply same_ledger_trans; eauto).
    assert (Hg2 : grows (world s) w2) by now apply same_ledger_grows.
    assert (Hwf2 : wf_world w2) by (eapply same_ledger_wf; eauto).
    destruct st as [| | detail |].
    + destruct (retry_or_fail again ctx (DoWait sid) _ _ _)
        as [[o3 s3] ev3] eqn:Hr.
      apply retry_framed in Hr as [Hg Hf]; [| assumption | assumption].
      simpl in Hg, Hf. simplify_eq.
      split; [eapply grows_trans; eauto | exact Hf].
    + destruct (confirm ctx TimedOut sid _) as [[o3 s3] ev3] eqn:Hc.
      apply confirm_framed in Hc as [Hg Hf]. simpl in Hg, Hf. simplify_eq.
      split; [eapply grows_trans; eauto | exact Hf].
    + destruct (reject ctx TimedOut sid retry detail _) as [[o3 s3] ev3] eqn:Hc.
      apply reject_framed in Hc as [Hg Hf]. simpl in Hg, Hf. simplify_eq.
      split; [eapply grows_trans; eauto | exact Hf].
    + destruct (retry_or_fail again ctx DoSubmit _ _ _)
        as [[o3 s3] ev3] eqn:Hr.
      apply retry_framed in Hr as [Hg Hf]; [| assumption | assumption].
      simpl in Hg, Hf. simplify_eq.
      split; [eapply grows_trans; eauto | exact Hf].
Qed.

Lemma step_framed again :
  (forall r, again = Some r -> framed r) -> framed (step again ctx).
Proof.
  intros IH phase retry s o s' evs Hrun Hwf.
  unfold Orchestrator.step in Hrun. destruct phase as [| sid].
  - destruct (submit _ (world s)) as [[handle w1] ev1] eqn:Hsubmit.
    apply (submit_spec _ _ _ _ _ Hwf) in Hsubmit as (Hwf1 & _ & Hg1 & _).
    destruct handle as [sid |].
    + destruct (await again ctx sid retry _) as [[o2 s2] ev2] eqn:Ha.
      apply await_framed in Ha as [Hg Hf]; [| assumption | assumption].
      simpl in Hg, Hf. simplify_eq.
      split; [eapply grows_trans; eauto |].
      intros h Hh. rewrite (Hf h Hh). now apply record_frame.
    + destruct (retry_or_fail again ctx DoSubmit None retry _)
        as [[o2 s2] ev2] eqn:Hr.
      apply retry_framed in Hr as [Hg Hf]; [| assumption | assumption].
      simpl in Hg, Hf. simplify_eq.
      split; [eapply grows_trans; eauto |].
      intros h Hh. rewrite (Hf h Hh). now apply record_frame.
  - eapply await_framed; eauto.
Qed.

Lemma run_framed fuel : framed (run fuel ctx).
Proof. apply run_induction. exact step_framed. Qed.

End Frame.

(** *** One delivery when "unknown" is a truthful answer *)

Lemma deliveries_app a b :
  deliveries (a ++ b) = (deliveries a + deliveries b)%nat.
Proof. unfold deliveries. now rewrite List.filter_app, length_app. Qed.

Lemma deliveries_status_queries sid ev :
  Forall (is_status_query sid) ev -> deliveries ev = 0%nat.
Proof. induction 1 as [| e ev [st ->] _ IH]; [reflexivity | exact IH]. Qed.

Lemma deliveries_quiet ev : forallb is_quiet ev = true -> deliveries ev = 0%nat.
Proof.
  induction ev as [| e ev IH]; [reflexivity |]. cbn [forallb].
  intros [He Hev]%andb_true_iff. destruct e; try discriminate; exact (IH Hev).
Qed.

Lemma getStatus_truthful sid w st w' ev :
  truthful -> is_Some (ledger w !! sid) ->
  getStatus sid w = (st, w', ev) -> st <> ChainUnknown.
Proof.
  intros Htruth [x Hx]. unfold Orchestrator.getStatus. cbv zeta.
  intros ?; simplify_eq. rewrite Hx.
  destruct (onStatus sc (statusCalls w)) eqn:Hn; try discriminate.
  - destruct x as [op [realized | detail]]; discriminate.
  - now apply Htruth in Hn.
Qed.

Section Delivery.
Variable ctx : Attempt.
Hypothesis Htruth : truthful.

Lemma retry_delivers_once again phase sid retry s o s' evs :
  (forall r, again = Some r -> delivers_once r) ->
  retry_or_fail again ctx phase sid retry s = (o, s', evs) ->
  wf_world (world s) ->
  (forall sid, phase = DoWait sid -> is_Some (ledger (world s) !! sid)) ->
  (deliveries evs <= budget phase)%nat.
Proof.
  intros IH Hrun Hwf Hon. unfold Orchestrator.retry_or_fail in Hrun.
  destruct again as [r |].
  - eapply (IH r eq_refl); eauto.
  - apply exhaust_spec in Hrun as (_ & _ & _ & ->). cbn. lia.
Qed.

Lemma confirm_deliveries from sid s o s' ev :
  confirm ctx from sid s = (o, s', ev) -> deliveries ev = 0%nat.
Proof.
  intros Hc. apply confirm_spec in Hc as (_ & _ & _ & ev' & -> & Hq).
  exact (deliveries_quiet ev' Hq).
Qed.

Lemma await_delivers_nothing again sid retry s o s' evs :
  (forall r, again = Some r -> delivers_once r) ->
  await again ctx sid retry s = (o, s', evs) ->
  wf_world (world s) ->
  is_Some (ledger (world s) !! sid) ->
  deliveries evs = 0%nat.
Proof.
  intros IH Hrun Hwf Hon. unfold Orchestrator.await in Hrun.
  destruct (poll _ sid (world s)) as [[r w1] ev1] eqn:Hpoll.
  apply poll_spec in Hpoll as (Hsame1 & Hq & _).
  pose proof (deliveries_status_queries sid ev1 Hq) as Hd1.
  destruct r as [| detail |].
  - destruct (confirm ctx Submitted sid _) as [[o2 s2] ev2] eqn:Hc.
    apply confirm_deliveries in Hc. simplify_eq.
    rewrite deliveries_app. lia.
  - destruct (reject ctx Submitted sid retry detail _) as [[o2 s2] ev2] eqn:Hc.
    apply reject_spec in Hc as (_ & _ & _ & ->). simplify_eq.
    rewrite deliveries_app, Hd1. reflexivity.
  - destruct (getStatus sid w1) as [[st w2] ev2] eqn:Hst.
    assert (Hon1 : is_Some (ledger w1 !! sid))
      by (destruct Hsame1 as [-> _]; exact Hon).
    pose proof (getStatus_truthful _ _ _ _ _ Htruth Hon1 Hst) as Hknown.
    apply getStatus_spec in Hst as (Hsame2 & -> & _).
    destruct st as [| | detail |]; [| | | contradiction].
    + destruct (retry_or_fail again ctx (DoWait sid) _ _ _)
        as [[o3 s3] ev3] eqn:Hr.
      apply retry_delivers_once in Hr; [| assumption | |].
      * simplify_eq. rewrite !deliveries_app, Hd1. cbn in *. lia.
      * simpl. eapply same_ledger_wf; [| exact Hwf].
        eapply same_ledger_trans; eauto.
      * simpl. intros sid' [= <-]. destruct Hsame2 as [-> _]. exact Hon1.
    + destruct (confirm ctx TimedOut sid _) as [[o3 s3] ev3] eqn:Hc.
      apply confirm_deliveries in Hc. simplify_eq.
      rewrite !deliveries_app, Hd1, Hc. reflexivity.
    + destruct (reject ctx TimedOut sid retry detail _) as [[o3 s3] ev3] eqn:Hc.
      apply reject_spec in Hc as (_ & _ & _ & ->). simplify_eq.
      rewrite !deliveries_app, Hd1. reflexivity.
Qed.

Lemma step_delivers_once again :
  (forall r, again = Some r -> delivers_once r) -> delivers_once (step again ctx).
Proof.
  intros IH phase retry s o s' evs Hrun Hwf Hon.
  unfold Orchestrator.step in Hrun. destruct phase as [| sid].
  - destruct (submit _ (world s)) as [[handle w1] ev1] eqn:Hsubmit.
    apply (submit_spec _ _ _ _ _ Hwf) in Hsubmit as (Hwf1 & -> & _ & Hnew).
    destruct handle as [sid |].
    + destruct (await again ctx sid retry _) as [[o2 s2] ev2] eqn:Ha.
      apply await_delivers_nothing in Ha; [| assumption | assumption |].
      * simplify_eq. rewrite !deliveries_app, Ha. cbn. lia.
      * destruct (Hnew sid eq_refl) as (fin & Hl & _).
        cbn [world]. rewrite Hl. eauto.
    + destruct (retry_or_fail again ctx DoSubmit None retry _)
        as [[o2 s2] ev2] eqn:Hr.
      apply retry_delivers_once in Hr; [| assumption | assumption | discriminate].
      simplify_eq. rewrite deliveries_app. cbn in *. lia.
  - cbn. erewrite await_delivers_nothing; eauto.
Qed.

Lemma run_delivers_once fuel : delivers_once (run fuel ctx).
Proof. apply run_induction. exact step_delivers_once. Qed.

End Delivery.

(** When "unknown" is a truthful answer, an execution delivers at most
    one submission to the ledger: the intent is not executed twice. *)
Lemma execute_delivers_once (now : Z) (intent : TradeIntent) (s : Sys) :
  truthful -> wf_world (world s) ->
  (deliveries (snd (execute now intent s)) <= 1)%nat.
Proof.
  intros Htruth Hwf. unfold Orchestrator.execute.
  destruct (dedupHit _ _ _ _ _); [cbn; lia |].
  destruct (readBalance _ _ (world s)) as [[spent w1] ev1] eqn:Hb1.
  apply readBalance_spec in Hb1 as [Hsame1 ->].
  destruct (spent <? _); [cbn; lia |].
  destruct (curveFor _ _ _); [| cbn; lia].
  destruct (negb (_ && _)); [cbn; lia |].
  destruct (negb (hasKey _ _)); [cbn; lia |].
  destruct (readBalance _ _ w1) as [[received w2] ev2] eqn:Hb2.
  apply readBalance_spec in Hb2 as [Hsame2 ->].
  match goal with
  | |- context [run ?fuel ?ctx DoSubmit 0%nat ?s0] =>
      destruct (run fuel ctx DoSubmit 0%nat s0) as [[o s'] ev3] eqn:Hrun;
      assert (Hone : (deliveries ev3 <= budget DoSubmit)%nat)
  end.
  { eapply (run_delivers_once _ Htruth); [exact Hrun | | discriminate].
    simpl. eapply same_ledger_wf; [| exact Hwf].
    eapply same_ledger_trans; eauto. }
  cbn [snd app]. unfold deliveries in *. cbn [List.filter is_delivery].
  exact Hone.
Qed.

(** *** One call of submit on a reliable network *)

Lemma submissions_status_queries sid ev :
  Forall (is_status_query sid) ev -> submissions ev = 0%nat.
Proof.
  intros Hq.
  now destruct (scan_status_queries sid [] ev Hq ltac:(constructor))
    as (_ & _ & Hn).
Qed.

Lemma confirm_submissions ctx from sid s o s' ev :
  confirm ctx from sid s = (o, s', ev) -> submissions ev = 0%nat.
Proof.
  intros Hc. apply confirm_spec in Hc as (_ & _ & _ & ev' & -> & Hq).
  now destruct (scan_quiet [] ev' Hq) as (_ & _ & Hn).
Qed.

Section Calls.
Variable ctx : Attempt.
Hypothesis Htruth : truthful.
Hypothesis Hup : reliable.

Lemma retry_waits again sid last retry s o s' evs :
  (forall r, again = Some r -> submits_once r) ->
  retry_or_fail again ctx (DoWait sid) last retry s = (o, s', evs) ->
  is_Some (ledger (world s) !! sid) ->
  submissions evs = 0%nat.
Proof.
  intros IH Hrun Hon. unfold Orchestrator.retry_or_fail in Hrun.
  destruct again as [r |].
  - apply (IH r eq_refl _ _ _ _ _ _ Hrun). now intros sid' [= <-].
  - now apply exhaust_spec in Hrun as (_ & _ & _ & ->).
Qed.

Lemma await_submits_nothing again sid retry s o s' evs :
  (forall r, again = Some r -> submits_once r) ->
  await again ctx sid retry s = (o, s', evs) ->
  is_Some (ledger (world s) !! sid) ->
  submissions evs = 0%nat.
Proof.
  intros IH Hrun Hon. unfold Orchestrator.await in Hrun.
  destruct (poll _ sid (world s)) as [[r w1] ev1] eqn:Hpoll.
  apply poll_spec in Hpoll as (Hsame1 & Hq & _).
  pose proof (submissions_status_queries sid ev1 Hq) as Hn1.
  destruct r as [| detail |].
  - destruct (confirm ctx Submitted sid _) as [[o2 s2] ev2] eqn:Hc.
    apply confirm_submissions in Hc. simplify_eq.
    rewrite submissions_app. lia.
  - destruct (reject ctx Submitted sid retry detail _) as [[o2 s2] ev2] eqn:Hc.
    apply reject_spec in Hc as (_ & _ & _ & ->). simplify_eq.
    rewrite submissions_app, Hn1. reflexivity.
  - destruct (getStatus sid w1) as [[st w2] ev2] eqn:Hst.
    assert (Hon1 : is_Some (ledger w1 !! sid))
      by (destruct Hsame1 as [-> _]; exact Hon).
    pose proof (getStatus_truthful _ _ _ _ _ Htruth Hon1 Hst) as Hknown.
    apply getStatus_spec in Hst as (Hsame2 & -> & _).
    destruct st as [| | detail |]; [| | | contradiction].
    + destruct (retry_or_fail again ctx (DoWait sid) _ _ _)
        as [[o3 s3] ev3] eqn:Hr.
      apply retry_waits in Hr; [| assumption |].
      * simplify_eq. rewrite !submissions_app, Hn1, Hr. reflexivity.
      * simpl. destruct Hsame2 as [-> _]. exact Hon1.
    + destruct (confirm ctx TimedOut sid _) as [[o3 s3] ev3] eqn:Hc.
      apply confirm_submissions in Hc. simplify_eq.
      rewrite !submissions_app, Hn1, Hc. reflexivity.
    + destruct (reject ctx TimedOut sid retry detail _) as [[o3 s3] ev3] eqn:Hc.
      apply reject_spec in Hc as (_ & _ & _ & ->). simplify_eq.
      rewrite !submissions_app, Hn1. reflexivity.
Qed.

Lemma step_submits_once again :
  (forall r, again = Some r -> submits_once r) -> submits_once (step again ctx).
Proof.
  intros IH phase retry s o s' evs Hrun Hon.
  unfold Orchestrator.step in Hrun. destruct phase as [| sid].
  - unfold Orchestrator.submit in Hrun.
    destruct (onSubmit sc (submitCalls (world s))) as [| curve refusal] eqn:Hnet;
      [now apply Hup in Hnet |].
    destruct (await again ctx (nextId (world s)) retry _)
      as [[o2 s2] ev2] eqn:Ha.
    apply await_submits_nothing in Ha; [| assumption |].
    + simplify_eq. rewrite !submissions_app, Ha. reflexivity.
    + cbn [world ledger]. rewrite lookup_insert_eq. eauto.
  - cbn [budget]. eapply await_submits_nothing; eauto.
Qed.

Lemma run_submits_once fuel : submits_once (run fuel ctx).
Proof. apply run_induction. exact step_submits_once. Qed.

End Calls.

(** *** The states an execution starts from and ends in *)

Lemma backed_grows r w w' : grows w w' -> backed r w -> backed r w'.
Proof.
  intros Hg. unfold OrchestratorProps.backed.
  destruct (outcome_of_record r) as [sid | e]; [| auto].
  intros (op & realized & floor & Hl & Hrest).
  exists op, realized, floor. split; [apply Hg, Hl | exact Hrest].
Qed.

Lemma sound_same_ledger s w :
  same_ledger (world s) w -> sound s -> sound (mkSys w (oplog s)).
Proof.
  intros Hsame [Hwf Hback]. split; simpl.
  - eapply same_ledger_wf; eauto.
  - intros h r Hl. eapply backed_grows; [apply same_ledger_grows |]; eauto.
Qed.

(** The empty state is sound. *)
Lemma sound_start : sound start.
Proof.
  split.
  - intros sid x. unfold start. simpl. rewrite lookup_empty. discriminate.
  - intros h r. unfold start. simpl. rewrite lookup_empty. discriminate.
Qed.

(** [execute] leads from a sound state to a sound state: what it writes
    to the log is backed by the ledger. *)
Lemma execute_sound (now : Z) (intent : TradeIntent) (s : Sys) :
  sound s -> sound (snd (fst (execute now intent s))).
Proof.
  intros Hsound. unfold Orchestrator.execute.
  destruct (dedupHit _ _ _ _ _); [exact Hsound |].
  destruct (readBalance _ _ (world s)) as [[spent w1] ev1] eqn:Hb1.
  apply readBalance_spec in Hb1 as [Hsame1 _].
  pose proof (sound_same_ledger s w1 Hsame1 Hsound) as Hpre.
  destruct (spent <? _); [exact Hpre |].
  destruct (curveFor _ _ _) as [curve |] eqn:Hcurve; [| exact Hpre].
  destruct (negb (_ && _)); [exact Hpre |].
  destruct (negb (hasKey _ _)); [exact Hpre |].
  destruct (readBalance _ _ w1) as [[received w2] ev2] eqn:Hb2.
  apply readBalance_spec in Hb2 as [Hsame2 _].
  assert (Hsame : same_ledger (world s) w2)
    by (eapply same_ledger_trans; eauto).
  destruct Hsound as [Hwf Hback].
  assert (Hwf2 : wf_world w2) by (eapply same_ledger_wf; eauto).
  match goal with
  | |- context [run ?fuel ?ctx DoSubmit 0%nat ?s0] =>
      destruct (run fuel ctx DoSubmit 0%nat s0) as [[o s'] ev3] eqn:Hrun;
      pose proof (run_floor_safe ctx _ _ _ _ _ _ _ Hrun Hwf2
                    ltac:(discriminate)) as [Hwf' Hhon];
      pose proof (run_framed ctx _ _ _ _ _ _ _ Hrun Hwf2) as [Hgrows Hframe];
      pose proof (run_recorded ctx _ _ _ _ _ _ _ Hrun ltac:(discriminate))
        as (r0 & Hl0 & Ho & _ & Hint)
  end.
  simpl in Hgrows, Hframe, Hl0, Hint. cbn [fst snd].
  split; [exact Hwf' |]. intros h r Hl.
  destruct (decide (h = intentHash intent)) as [-> | Hne].
  - rewrite Hl0 in Hl. injection Hl as <-.
    unfold OrchestratorProps.backed. rewrite Ho, Hint.
    destruct o as [sid | e]; simpl in Hhon; [| exact Hhon].
    destruct Hhon as (op & realized & Hl' & Hop & Hfloor).
    exists op, realized. eexists. split; [exact Hl' |]. split; [exact Hop |].
    split; [| exact Hfloor].
    unfold OrchestratorProps.declaredFloor. now rewrite Hcurve.
  - rewrite (Hframe h Hne) in Hl. apply Hback in Hl.
    eapply backed_grows; [| exact Hl].
    eapply grows_trans; [apply same_ledger_grows |]; eauto.
Qed.

(** Every state the orchestrator reaches is sound. *)
Lemma reachable_sound (s : Sys) : reachable s -> sound s.
Proof.
  induction 1 as [| now intent s _ IH]; [exact sound_start |].
  now apply execute_sound.
Qed.

(** Without a record of another intent under its hash, an execution
    answers for the intent it was given. *)
Lemma served_unambiguous (now : Z) (intent : TradeIntent) (s : Sys) :
  unambiguous intent s -> served now intent s = intent.
Proof.
  intros Hunamb. unfold OrchestratorProps.served, dedupHit, lookup.
  destruct (oplog s !! intentHash intent) as [r |] eqn:Hl; [| reflexivity].
  destruct (_ <=? _); [| reflexivity]. exact (Hunamb r Hl).
Qed.

(** C1 (amended): in every sound state, so after any number of executions
    from the empty state, [execute] of a valid intent with a sufficient
    balance ends either confirmed or with a terminal error (rejected by
    the ledger, or retries exhausted).  A confirmed outcome names a
    submission that the ledger executed with a realized output at or
    above the floor declared by the intent that submission was made for.
    That intent is the executed one, except when the execution is
    answered from the log, as a duplicate, by the record of another
    intent with the same hash; when the log holds no such record the
    realized output is at or above the floor of the executed intent. *)
Theorem execute_never_below_floor (now : Z) (intent : TradeIntent) (s : Sys) :
  sound s ->
  valid intent ->
  sufficient intent s ->
  match execute now intent s with
  | (OutcomeConfirmed sid, s', _) =>
      exists op realized floor,
        ledger (world s') !! sid = Some (op, FinalOk realized)
        /\ op_intent op = served now intent s
        /\ declaredFloor (served now intent s) = Some floor
        /\ floor <= realized
        /\ (unambiguous intent s ->
            op_intent op = intent /\ declaredFloor intent = Some floor)
  | (OutcomeError e, _, _) =>
      (exists detail, e = Rejected detail) \/ e = FailedExhaustedRetries
  end.
Proof.
  intros [Hwf Hback] (Hbps & [curve Hcurve] & Hkey) Hsuff.
  pose proof (served_unambiguous now intent s) as Hsame.
  unfold OrchestratorProps.served in *.
  unfold Orchestrator.execute.
  destruct (dedupHit _ _ _ _ _) as [r |] eqn:Hdup.
  { unfold dedupHit, lookup in Hdup.
    destruct (oplog s !! intentHash intent) as [r0 |] eqn:Hl; [| discriminate].
    destruct (_ <=? _); [| discriminate]. injection Hdup as ->.
    pose proof (Hback _ _ Hl) as Hb. unfold OrchestratorProps.backed in Hb.
    destruct (outcome_of_record r) as [sid | e].
    - destruct Hb as (op & realized & floor & Hledger & Hop & Hfloor & Hle).
      exists op, realized, floor. do 4 (split; [assumption |]).
      intros Hunamb. rewrite <- (Hsame Hunamb). split; assumption.
    - destruct e; simpl in Hb; try contradiction; eauto. }
  unfold OrchestratorProps.declaredFloor. rewrite Hcurve.
  destruct (readBalance _ _ (world s)) as [[spent w1] ev1] eqn:Hb1.
  assert (Hspent : spent = onBalance sc (balanceCalls (world s)))
    by (unfold Orchestrator.readBalance in Hb1; cbv zeta in Hb1; now simplify_eq).
  apply readBalance_spec in Hb1 as [Hsame1 _].
  unfold OrchestratorProps.sufficient in Hsuff.
  destruct (spent <? _) eqn:Hlt; [apply Z.ltb_lt in Hlt; lia |].
  destruct (negb (_ && _)) eqn:Hrange.
  { apply negb_true_iff, andb_false_iff in Hrange as [Hr | Hr];
      apply Z.leb_gt in Hr; lia. }
  rewrite Hkey. cbn [negb].
  destruct (readBalance _ _ w1) as [[received w2] ev2] eqn:Hb2.
  apply readBalance_spec in Hb2 as [Hsame2 _].
  match goal with
  | |- context [run ?fuel ?ctx DoSubmit 0%nat ?s0] =>
      destruct (run fuel ctx DoSubmit 0%nat s0) as [[o s'] ev3] eqn:Hrun;
      assert (Hhon : honoured ctx o (world s'))
  end.
  { eapply run_floor_safe; [exact Hrun | | discriminate].
    simpl. eapply same_ledger_wf; [| exact Hwf].
    eapply same_ledger_trans; eauto. }
  destruct o as [sid | e]; simpl in Hhon.
  - destruct Hhon as (op & realized & Hl & Hint & Hfloor).
    exists op, realized. eexists.
    split; [exact Hl |]. split; [exact Hint |]. split; [reflexivity |].
    split; [exact Hfloor |]. intros _. split; [exact Hint | reflexivity].
  - destruct e; simpl in Hhon; try contradiction; eauto.
Qed.

(** C3: in every execution, whenever a submission has timed out and a
    call of ChainClient.submit follows, the status of that very
    submission was queried in between and answered "unknown"; and the
    execution makes at most one transition to Confirmed. *)
Theorem resubmission_only_after_unknown (now : Z) (intent : TradeIntent)
    (s : Sys) :
  (forall pre sid from mid key handle post,
      snd (execute now intent s)
      = (pre ++ EvTransition sid from TimedOut :: mid
             ++ EvSubmit key handle :: post)%list ->
      In (EvGetStatus sid ChainUnknown) mid)
  /\ (confirmations (snd (execute now intent s)) <= 1)%nat.
Proof.
  assert (Hscan : is_Some (scan [] (snd (execute now intent s)))
                  /\ (confirmations (snd (execute now intent s)) <= 1)%nat).
  { unfold Orchestrator.execute.
    destruct (dedupHit _ _ _ _ _); [split; [now eexists | unfold confirmations; cbn; lia] |].
    destruct (readBalance _ _ (world s)) as [[spent w1] ev1] eqn:Hb1.
    apply readBalance_spec in Hb1 as [_ ->].
    destruct (spent <? _); [split; [now eexists | unfold confirmations; cbn; lia] |].
    destruct (curveFor _ _ _); [| split; [now eexists | unfold confirmations; cbn; lia]].
    destruct (negb (_ && _)); [split; [now eexists | unfold confirmations; cbn; lia] |].
    destruct (negb (hasKey _ _)); [split; [now eexists | unfold confirmations; cbn; lia] |].
    destruct (readBalance _ _ w1) as [[received w2] ev2] eqn:Hb2.
    apply readBalance_spec in Hb2 as [_ ->].
    match goal with
    | |- context [run ?fuel ?ctx DoSubmit 0%nat ?s0] =>
        destruct (run fuel ctx DoSubmit 0%nat s0) as [[o s'] ev3] eqn:Hrun;
        destruct (run_guarded ctx _ _ _ _ _ _ _ [] Hrun eq_refl) as [Hs Hc]
    end.
    cbn [snd app scan]. split; [exact Hs |].
    unfold confirmations in *. cbn [List.filter is_confirmation].
    rewrite Hc. destruct o; simpl; lia. }
  destruct Hscan as [Hscan Hcount]. split; [| exact Hcount].
  intros pre sid from mid key handle post Hevs.
  eapply scan_guard; eauto.
Qed.

(** An execution that has called ChainClient.submit leaves a record of
    its outcome in the log, under the hash of its intent. *)
Lemma execute_recorded (now : Z) (intent : TradeIntent) (s0 s1 : Sys)
    (o1 : OperationOutcome) (ev1 : list Event) :
  execute now intent s0 = (o1, s1, ev1) ->
  (0 < submissions ev1)%nat ->
  (exists r, oplog s1 !! intentHash intent = Some r
             /\ outcome_of_record r = o1
             /\ rec_submittedAt r = now
             /\ rec_intent r = intent)
  /\ (reliable -> truthful -> submissions ev1 = 1%nat).
Proof.
  intros Hfirst Hsub. unfold Orchestrator.execute in Hfirst.
  destruct (dedupHit _ _ _ _ _); [simplify_eq; unfold submissions in Hsub; cbn in Hsub; lia |].
  destruct (readBalance _ _ (world s0)) as [[spent w1] e1] eqn:Hb1.
  apply readBalance_spec in Hb1 as [_ ->].
  destruct (spent <? _); [simplify_eq; unfold submissions in Hsub; cbn in Hsub; lia |].
  destruct (curveFor _ _ _); [| simplify_eq; unfold submissions in Hsub; cbn in Hsub; lia].
  destruct (negb (_ && _)); [simplify_eq; unfold submissions in Hsub; cbn in Hsub; lia |].
  destruct (negb (hasKey _ _)); [simplify_eq; unfold submissions in Hsub; cbn in Hsub; lia |].
  destruct (readBalance _ _ w1) as [[received w2] e2] eqn:Hb2.
  apply readBalance_spec in Hb2 as [_ ->].
  match type of Hfirst with
  | context [run ?fuel ?ctx DoSubmit 0%nat ?s] =>
      destruct (run fuel ctx DoSubmit 0%nat s) as [[o s'] e3] eqn:Hrun;
      pose proof (run_recorded ctx _ _ _ _ _ _ _ Hrun ltac:(discriminate))
        as Hlog;
      pose proof (fun Hup Htruth =>
                    run_submits_once ctx Htruth Hup _ _ _ _ _ _ _ Hrun
                      ltac:(discriminate)) as Hone
  end.
  simplify_eq. destruct Hlog as (r & Hl & Ho & Hat & Hint).
  split; [now exists r |].
  intros Hup Htruth. rewrite !submissions_app, (Hone Hup Htruth). reflexivity.
Qed.

(** An execution that finds a record under the hash of its intent, within
    the dedup window, answers with the outcome of that record and does
    nothing else. *)
Lemma execute_duplicate (now : Z) (intent : TradeIntent) (s : Sys)
    (r : SubmissionRecord) :
  oplog s !! intentHash intent = Some r ->
  now - rec_submittedAt r <= dedupWindow cfg ->
  execute now intent s = (outcome_of_record r, s, []).
Proof.
  intros Hl Hwindow. unfold Orchestrator.execute, dedupHit, lookup. rewrite Hl.
  destruct (_ <=? _) eqn:Hle; [reflexivity |].
  apply Z.leb_gt in Hle. lia.
Qed.

(** C2 (amended): when an execution has called ChainClient.submit, a
    second execution of the same intent, or of any intent with the same
    hash, within the dedup window returns the outcome of the first,
    leaves the log and the ledger as they are and calls nothing: every
    call of submit across the two executions is a call of the first.
    There is exactly one such call when no call of submit fails with a
    NetworkError and the status service answers "unknown" only for
    submissions the ledger does not hold. *)
Theorem duplicate_returns_prior_outcome (now1 now2 : Z)
    (intent intent2 : TradeIntent) (s0 s1 : Sys) (o1 : OperationOutcome)
    (ev1 : list Event) :
  execute now1 intent s0 = (o1, s1, ev1) ->
  (0 < submissions ev1)%nat ->
  intentHash intent2 = intentHash intent ->
  now2 - now1 <= dedupWindow cfg ->
  execute now2 intent2 s1 = (o1, s1, [])
  /\ submissions (ev1 ++ snd (execute now2 intent2 s1)) = submissions ev1
  /\ (reliable -> truthful ->
      submissions (ev1 ++ snd (execute now2 intent2 s1)) = 1%nat).
Proof.
  intros Hfirst Hsub Hhash Hwindow.
  destruct (execute_recorded _ _ _ _ _ _ Hfirst Hsub)
    as [(r & Hl & Ho & Hat & _) Hone].
  assert (Hsecond : execute now2 intent2 s1 = (o1, s1, [])).
  { rewrite <- Ho. apply execute_duplicate; [now rewrite Hhash |].
    now rewrite Hat. }
  split; [exact Hsecond |]. rewrite Hsecond. simpl. rewrite app_nil_r.
  split; [reflexivity | exact Hone].
Qed.

End WithScenario.

(** *** Executions on concrete scenarios *)

(** C2, as stated, fails, in two ways.  When the first call of submit
    meets a NetworkError and is retried, the two executions of the intent
    return the same outcome, yet ChainClient.submit was called twice.
    And when the first execution is refused before submission, for
    insufficient funds, nothing is recorded: the second execution of the
    same intent, within the dedup window, finds the account funded and
    ends confirmed, which is not the outcome of the first. *)
Lemma repeated_intent_is_not_idempotent :
  (let first := execute config transient hashOf 0 buyIntent start in
   let second := execute config transient hashOf 10 buyIntent (snd (fst first)) in
   10 - 0 <= dedupWindow config
   /\ fst (fst second) = fst (fst first)
   /\ submissions (snd first ++ snd second) = 2%nat
   /\ submissions (snd first ++ snd second) <> 1%nat)
  /\ (let first := execute config topped_up hashOf 0 buyIntent start in
      let second := execute config topped_up hashOf 10 buyIntent (snd (fst first)) in
      10 - 0 <= dedupWindow config
      /\ fst (fst first) = OutcomeError InsufficientFunds
      /\ fst (fst second) = OutcomeConfirmed 0
      /\ fst (fst second) <> fst (fst first)).
Proof. vm_compute. repeat split; try discriminate. Qed.

(** The amended C2 on the calm scenario: one call of submit in all. *)
Lemma duplicate_returns_prior_outcome_witness :
  let first := execute config calm hashOf 0 buyIntent start in
  execute config calm hashOf 10 buyIntent (snd (fst first))
  = (fst (fst first), snd (fst first), [])
  /\ submissions (snd first
                  ++ snd (execute config calm hashOf 10 buyIntent (snd (fst first))))
     = submissions (snd first)
  /\ submissions (snd first
                  ++ snd (execute config calm hashOf 10 buyIntent (snd (fst first))))
     = 1%nat.
Proof.
  intros first.
  destruct (duplicate_returns_prior_outcome config calm hashOf 0 10 buyIntent
              buyIntent start (snd (fst first)) (fst (fst first)) (snd first))
    as (Hsame & Hcalls & Hone).
  - subst first. now destruct (execute _ _ _ _ _ _) as [[o s] ev].
  - vm_compute. lia.
  - reflexivity.
  - vm_compute. discriminate.
  - split; [exact Hsame |]. split; [exact Hcalls |].
    apply Hone; intros n; discriminate.
Defined.

(** C1, as stated, fails.  The purchase with a tolerance of 500 basis
    points is executed after the price has moved, at 29000, above its
    floor of 28471, and is confirmed.  The same purchase with no
    tolerance, a valid intent with a sufficient balance and a floor of
    29970, has the same hash: executed within the dedup window it is
    answered from the log with the confirmed submission of the first,
    whose output of 29000 is below 29970. *)
Lemma duplicate_is_answered_below_its_floor :
  let s1 := snd (fst (execute config slipped hashOf 0 buyIntent start)) in
  let second := execute config slipped hashOf 10 strictIntent s1 in
  hashOf strictIntent = hashOf buyIntent
  /\ sound config slipped s1
  /\ valid config slipped strictIntent
  /\ sufficient config slipped strictIntent s1
  /\ declaredFloor config slipped strictIntent = Some 29970
  /\ fst (fst second) = OutcomeConfirmed 0
  /\ (exists op, ledger (world (snd (fst second))) !! 0%nat
                 = Some (op, FinalOk 29000))
  /\ 29000 < 29970.
Proof.
  intros s1 second. split; [reflexivity |].
  split; [apply execute_sound, sound_start |].
  split; [split; [simpl; lia | split; [now eexists | reflexivity]] |].
  split; [unfold sufficient; simpl; lia |].
  split; [reflexivity |]. split; [vm_compute; reflexivity |].
  split; [| lia]. eexists. vm_compute. reflexivity.
Qed.

(** The same under every hash function that gives the two intents one
    hash, as every hash of the account, the kind, the asset and the
    amount does. *)
Lemma colliding_intent_is_answered_below_its_floor
    (h : TradeIntent -> N) :
  h strictIntent = h buyIntent ->
  let s1 := snd (fst (execute config slipped h 0 buyIntent start)) in
  execute config slipped h 10 strictIntent s1 = (OutcomeConfirmed 0, s1, [])
  /\ (exists op, ledger (world s1) !! 0%nat = Some (op, FinalOk 29000))
  /\ declaredFloor config slipped strictIntent = Some 29970.
Proof.
  intros Hhash s1.
  destruct (execute config slipped h 0 buyIntent start) as [[o1 s1'] ev1]
    eqn:Hfirst.
  assert (Ho : o1 = OutcomeConfirmed 0)
    by (change o1 with (fst (fst (o1, s1', ev1))); rewrite <- Hfirst;
        vm_compute; reflexivity).
  assert (Hsub : (0 < submissions ev1)%nat)
    by (change ev1 with (snd (o1, s1', ev1)); rewrite <- Hfirst;
        vm_compute; lia).
  assert (Hledger : exists op, ledger (world s1') !! 0%nat
                               = Some (op, FinalOk 29000))
    by (change s1' with (snd (fst (o1, s1', ev1))); rewrite <- Hfirst;
        eexists; vm_compute; reflexivity).
  destruct (execute_recorded _ _ _ _ _ _ _ _ _ Hfirst Hsub)
    as [(r & Hl & Hr & Hat & _) _].
  subst s1. cbn [fst snd]. split; [| split; [exact Hledger | reflexivity]].
  rewrite <- Ho, <- Hr. apply execute_duplicate; [now rewrite Hhash |].
  rewrite Hat. simpl. lia.
Qed.

(** The amended C1 at the state of the counterexample: the answer to the
    second purchase names the submission made for the first, executed at
    29000, at or above the floor of 28471 that the first declared. *)
Lemma execute_never_below_floor_witness :
  let s1 := snd (fst (execute config slipped hashOf 0 buyIntent start)) in
  match execute config slipped hashOf 10 strictIntent s1 with
  | (OutcomeConfirmed sid, s', _) =>
      exists op realized floor,
        ledger (world s') !! sid = Some (op, FinalOk realized)
        /\ op_intent op = served config hashOf 10 strictIntent s1
        /\ declaredFloor config slipped (served config hashOf 10 strictIntent s1)
           = Some floor
        /\ floor <= realized
        /\ (unambiguous hashOf strictIntent s1 ->
            op_intent op = strictIntent
            /\ declaredFloor config slipped strictIntent = Some floor)
  | (OutcomeError e, _, _) =>
      (exists detail, e = Rejected detail) \/ e = FailedExhaustedRetries
  end.
Proof.
  intros s1.
  apply (execute_never_below_floor config slipped hashOf 10 strictIntent s1).
  - apply execute_sound, sound_start.
  - split; [simpl; lia |]. split; [now eexists | reflexivity].
  - unfold sufficient. simpl. lia.
Defined.

(** In the empty state the purchase is executed: on the calm scenario it
    is confirmed at 29970, above the floor of 28471. *)
Example first_execution_honours_the_floor :
  fst (fst (execute config calm hashOf 0 buyIntent start)) = OutcomeConfirmed 0
  /\ (exists op, ledger (world (snd (fst (execute config calm hashOf 0 buyIntent
                                            start)))) !! 0%nat
                 = Some (op, FinalOk 29970))
  /\ declaredFloor config calm buyIntent = Some 28471
  /\ served config hashOf 0 buyIntent start = buyIntent.
Proof.
  split; [vm_compute; reflexivity |].
  split; [eexists; vm_compute; reflexivity |]. split; reflexivity.
Qed.

Example calm_execution :
  fst (fst (execute config calm hashOf 0 buyIntent start)) = OutcomeConfirmed 0
  /\ submissions (snd (execute config calm hashOf 0 buyIntent start)) = 1%nat.
Proof. vm_compute. split; reflexivity. Qed.

(** With the curve moved against the buyer the ledger refuses, and the
    execution ends rejected. *)
Example moved_price_is_rejected :
  fst (fst (execute config
              {| lookupCurve := lookupCurve calm; hasKey := hasKey calm;
                 onSubmit := fun _ =>
                   Delivered {| virtualBase := 20000000; virtualQuote := 1500000000;
                                realBase := 0; totalSupply := 0 |} None;
                 onStatus := onStatus calm; onBalance := onBalance calm |}
              hashOf 0 buyIntent start))
  = OutcomeError (Rejected SlippageExceeded).
Proof. vm_compute. reflexivity. Qed.

(** A timeout followed by the answer "unknown" and a resubmission. *)
Example partitioned_execution :
  snd (execute config partitioned hashOf 0 buyIntent start)
  = [EvReadBalance "alice" "SOL" 5000000; EvReadBalance "alice" "TKN" 5000000;
     EvSubmit (hashOf buyIntent, 0%nat) (Some 0%nat);
     EvTransition 0 Created Submitted;
     EvGetStatus 0 ChainPending; EvGetStatus 0 ChainPending;
     EvTransition 0 Submitted TimedOut;
     EvGetStatus 0 ChainUnknown;
     EvSubmit (hashOf buyIntent, 1%nat) (Some 1%nat);
     EvTransition 1 Created Submitted;
     EvGetStatus 1 ChainConfirmed;
     EvTransition 1 Submitted Confirmed;
     EvReadBalance "alice" "SOL" 5000000; EvReadBalance "alice" "TKN" 5000000;
     EvIntegrityWarning 1].
Proof. vm_compute. reflexivity. Qed.

(** C3 on the partitioned scenario: the resubmission follows the answer
    "unknown" for the submission that timed out. *)
Lemma resubmission_only_after_unknown_witness :
  In (EvGetStatus 0 ChainUnknown) [EvGetStatus 0 ChainUnknown].
Proof.
  apply (proj1 (resubmission_only_after_unknown config partitioned hashOf 0
                  buyIntent start))
    with (pre := [EvReadBalance "alice" "SOL" 5000000;
                  EvReadBalance "alice" "TKN" 5000000;
                  EvSubmit (hashOf buyIntent, 0%nat) (Some 0%nat);
                  EvTransition 0 Created Submitted;
                  EvGetStatus 0 ChainPending; EvGetStatus 0 ChainPending])
         (from := Submitted)
         (key := (hashOf buyIntent, 1%nat)) (handle := Some 1%nat)
         (post := [EvTransition 1 Created Submitted;
                   EvGetStatus 1 ChainConfirmed;
                   EvTransition 1 Submitted Confirmed;
                   EvReadBalance "alice" "SOL" 5000000;
                   EvReadBalance "alice" "TKN" 5000000;
                   EvIntegrityWarning 1]).
  vm_compute. reflexivity.
Defined.

(** On the partitioned scenario the answer "unknown" is not truthful, and
    the ledger executes the intent twice; on the transient scenario it
    does so once. *)
Example deliveries_of_the_scenarios :
  deliveries (snd (execute config partitioned hashOf 0 buyIntent start)) = 2%nat
  /\ deliveries (snd (execute config transient hashOf 0 buyIntent start)) = 1%nat.
Proof. vm_compute. split; reflexivity. Qed.

End OrchestratorFacts.

(** ** utils/wallet: the private key file, the fallback and the listing *)

Module WalletFallbackFacts.
Import Wallet WalletProps Props.
Section WithRuntime.
Context `{Runtime}.
Variable fs : FileSystem.

(** X1: [loadWalletFromPrivateKey] throws "Private key file not found:
    <path>" when the file is missing.  It returns a keypair only when the
    file exists and its text splits at the commas into exactly 64 fields;
    the fields themselves are not validated: whatever they hold, the bytes
    [parseInt] and [Uint8Array] make of them are handed to
    [Keypair.fromSecretKey].  Every other failure is wrapped as "Failed to
    load wallet from private key file <filename>: <cause>". *)
Theorem loadWalletFromPrivateKey_outcomes (this : WalletManager)
    (filename : string) :
  let filePath := path_join (walletsDir this) filename in
  (existsSync fs filePath = false ->
   loadWalletFromPrivateKey fs this filename
   = Throw (Error ("Private key file not found: " +:+ filePath)))
  /\ (forall text,
        existsSync fs filePath = true ->
        readFileSync fs filePath = Ok text ->
        length (String_split (String_trim text) ",") = 64%nat ->
        loadWalletFromPrivateKey fs this filename
        = match Keypair_fromSecretKey (key_bytes text) with
          | Ok kp => Ok kp
          | Throw cause =>
              Throw (Error ("Failed to load wallet from private key file "
                            +:+ filename +:+ ": " +:+ toString cause))
          end)
  /\ (forall kp,
        loadWalletFromPrivateKey fs this filename = Ok kp ->
        existsSync fs filePath = true /\ holds_key_fields fs filePath)
  /\ (existsSync fs filePath = true -> ~ holds_key_fields fs filePath ->
      exists cause,
        loadWalletFromPrivateKey fs this filename
        = Throw (Error ("Failed to load wallet from private key file "
                        +:+ filename +:+ ": " +:+ toString cause))).
Proof.
  intros filePath. unfold loadWalletFromPrivateKey. fold filePath.
  destruct (existsSync fs filePath) eqn:Hex; cbn [negb].
  2:{ repeat split; try discriminate. }
  split; [discriminate |]. split; [| split].
  - intros text _ Hread Hlen. rewrite Hread. cbn [bindR].
    rewrite !length_map, Hlen. cbn [Nat.eqb negb].
    unfold key_bytes. destruct (Keypair_fromSecretKey _); reflexivity.
  - intros kp Hok. split; [reflexivity |]. unfold holds_key_fields.
    destruct (readFileSync fs filePath) as [text | e]; [| discriminate].
    cbn [bindR] in Hok. rewrite !length_map in Hok.
    destruct (Nat.eqb _ 64) eqn:Hlen; [| discriminate].
    exists text. apply Nat.eqb_eq in Hlen. auto.
  - intros _ Hnot. unfold holds_key_fields in Hnot.
    destruct (readFileSync fs filePath) as [text | e]; [| simpl; eauto].
    cbn [bindR]. rewrite !length_map.
    destruct (Nat.eqb _ 64) eqn:Hlen; [| simpl; eauto].
    exfalso. apply Hnot. exists text. apply Nat.eqb_eq in Hlen. auto.
Qed.

(** The two-step loading of a wallet: the wallet file, then the private
    key file. *)
Lemma fallback_ok (primary fallback : Result Keypair) (kind : string)
    (kp : Keypair) :
  try_catch primary
    (fun error =>
       try_catch fallback
         (fun fallbackError =>
            Throw (Error ("Failed to load " +:+ kind +:+ " wallet: "
                          +:+ toString error
                          +:+ ". Fallback also failed: "
                          +:+ toString fallbackError)))) = Ok kp
  <-> primary = Ok kp \/ ((exists e, primary = Throw e) /\ fallback = Ok kp).
Proof.
  destruct primary as [kp1 | e1]; simpl.
  - split; [auto |]. intros [Hp | [[e He] _]]; [exact Hp | discriminate].
  - destruct fallback as [kp2 | e2]; simpl.
    + split; [eauto |]. intros [Hp | [_ Hf]]; [discriminate | exact Hf].
    + split; [discriminate |]. intros [Hp | [_ Hf]]; discriminate.
Qed.

Lemma missing_wallet_file (this : WalletManager) (filename : string) :
  existsSync fs (path_join (walletsDir this) filename) = false ->
  loadWalletFromFile fs this filename
  = Throw (Error ("Wallet file not found: "
                  +:+ path_join (walletsDir this) filename)).
Proof. intros Hex. unfold loadWalletFromFile. now rewrite Hex. Qed.

Lemma missing_key_file (this : WalletManager) (filename : string) :
  existsSync fs (path_join (walletsDir this) filename) = false ->
  loadWalletFromPrivateKey fs this filename
  = Throw (Error ("Private key file not found: "
                  +:+ path_join (walletsDir this) filename)).
Proof. intros Hex. unfold loadWalletFromPrivateKey. now rewrite Hex. Qed.

(** X2: [loadTradingWallet] and [loadTestWallet] prefer the JSON wallet
    file: they return a keypair exactly when the wallet file loads, or
    when it fails to load and the private key file loads.  When neither
    file exists the error names both causes: "Failed to load trading
    wallet: Error: Wallet file not found: <path>. Fallback also failed:
    Error: Private key file not found: <path>". *)
Theorem wallet_file_then_private_key (this : WalletManager) :
  (forall kp,
      loadTradingWallet fs this = Ok kp
      <-> loadWalletFromFile fs this "trading-wallet.json" = Ok kp
          \/ ((exists e, loadWalletFromFile fs this "trading-wallet.json" = Throw e)
              /\ loadWalletFromPrivateKey fs this "trading-private_key.txt" = Ok kp))
  /\ (forall kp,
        loadTestWallet fs this = Ok kp
        <-> loadWalletFromFile fs this "test-wallet.json" = Ok kp
            \/ ((exists e, loadWalletFromFile fs this "test-wallet.json" = Throw e)
                /\ loadWalletFromPrivateKey fs this "test-private_key.txt" = Ok kp))
  /\ (existsSync fs (path_join (walletsDir this) "trading-wallet.json") = false ->
      existsSync fs (path_join (walletsDir this) "trading-private_key.txt") = false ->
      loadTradingWallet fs this
      = Throw (Error (both_missing "trading"
                        (path_join (walletsDir this) "trading-wallet.json")
                        (path_join (walletsDir this) "trading-private_key.txt"))))
  /\ (existsSync fs (path_join (walletsDir this) "test-wallet.json") = false ->
      existsSync fs (path_join (walletsDir this) "test-private_key.txt") = false ->
      loadTestWallet fs this
      = Throw (Error (both_missing "test"
                        (path_join (walletsDir this) "test-wallet.json")
                        (path_join (walletsDir this) "test-private_key.txt")))).
Proof.
  split; [| split; [| split]].
  - intros kp. apply (fallback_ok _ _ "trading").
  - intros kp. apply (fallback_ok _ _ "test").
  - intros H1 H2. unfold loadTradingWallet.
    rewrite (missing_wallet_file _ _ H1), (missing_key_file _ _ H2).
    unfold both_missing, toString, Error. simpl.
    reflexivity.
  - intros H1 H2. unfold loadTestWallet.
    rewrite (missing_wallet_file _ _ H1), (missing_key_file _ _ H2).
    unfold both_missing, toString, Error. simpl.
    reflexivity.
Qed.

(** X3: [listAvailableWallets] returns the empty list when the wallets
    directory is missing, without reading it.  Otherwise it lists the
    entries of the directory whose names end in ".json" or
    "_private_key.txt", and so never the files "trading-private_key.txt"
    and "test-private_key.txt" that [loadTradingWallet] and
    [loadTestWallet] fall back to: their names have a hyphen where the
    filter asks for an underscore. *)
Theorem fallback_key_files_are_not_listed (this : WalletManager) :
  standard_strings ->
  (existsSync fs (walletsDir this) = false ->
   listAvailableWallets fs this = Ok [])
  /\ forall names,
       listAvailableWallets fs this = Ok names ->
       (forall name, In name names ->
          Fixture.endsWith name ".json" = true
          \/ Fixture.endsWith name "_private_key.txt" = true)
       /\ ~ In "trading-private_key.txt" names
       /\ ~ In "test-private_key.txt" names.
Proof.
  intros [Hends _]. split.
  { intros Hex. unfold listAvailableWallets. now rewrite Hex. }
  intros names Hlist.
  assert (Hin : forall name, In name names ->
            Fixture.endsWith name ".json" = true
            \/ Fixture.endsWith name "_private_key.txt" = true).
  { unfold listAvailableWallets in Hlist.
    destruct (existsSync fs (walletsDir this)); cbn [negb] in Hlist.
    - destruct (readdirSync fs (walletsDir this)) as [files | e];
        [| discriminate].
      cbn [bindR] in Hlist. injection Hlist as <-.
      intros name Hname. apply filter_In in Hname as [_ Hname].
      rewrite !Hends in Hname. now apply orb_true_iff in Hname.
    - injection Hlist as <-. intros name []. }
  split; [exact Hin |].
  split; intros Hname; apply Hin in Hname as [Hname | Hname];
    vm_compute in Hname; discriminate.
Qed.

End WithRuntime.

Lemma loadWalletFromPrivateKey_outcomes_witness :
  @loadWalletFromPrivateKey Fixture.runtime Fixture.files WalletManager_new
     "trading-private_key.txt"
  = Throw (Error "Private key file not found: ./wallets/trading-private_key.txt").
Proof.
  apply (proj1 (@loadWalletFromPrivateKey_outcomes Fixture.runtime
                  Fixture.files WalletManager_new "trading-private_key.txt")).
  reflexivity.
Defined.

(** The theorem on the wallets directory of the examples, which holds
    neither a test wallet nor its private key file. *)
Lemma wallet_file_then_private_key_witness :
  @loadTestWallet Fixture.runtime Fixture.files WalletManager_new
  = Throw (Error (both_missing "test" "./wallets/test-wallet.json"
                    "./wallets/test-private_key.txt")).
Proof.
  apply (proj2 (proj2 (proj2 (@wallet_file_then_private_key Fixture.runtime
                                Fixture.files WalletManager_new))));
    reflexivity.
Defined.

(** The theorem on the wallets directory of the examples. *)
Lemma fallback_key_files_are_not_listed_witness :
  ~ In "trading-private_key.txt" ["trading-wallet.json"].
Proof.
  refine (proj1 (proj2 (proj2 (@fallback_key_files_are_not_listed
                                 Fixture.runtime Fixture.files
                                 WalletManager_new _)
                          ["trading-wallet.json"] _))).
  - split; reflexivity.
  - reflexivity.
Defined.

End WalletFallbackFacts.

(** ** utils/provider: validateConfig and the constructor *)

Module FloatFacts.

Lemma is_nan_spec (x : float) :
  PrimFloat.is_nan x = true -> Prim2SF x = S754_nan.
Proof.
  unfold PrimFloat.is_nan. rewrite FloatAxioms.eqb_spec. unfold SFeqb, SFcompare.
  destruct (Prim2SF x) as [s | s | | s m e]; try discriminate; try reflexivity.
  - destruct s; discriminate.
  - rewrite Z.compare_refl, Pos.compare_cont_refl. destruct s; discriminate.
Qed.

(** [NaN < 0] is false. *)
Lemma nan_not_negative (x : float) :
  PrimFloat.is_nan x = true -> (x <? 0)%float = false.
Proof.
  intros Hnan. rewrite FloatAxioms.ltb_spec, (is_nan_spec x Hnan). reflexivity.
Qed.

End FloatFacts.

Module ProviderFacts.
Import Devnet Provider WalletProps Props FloatFacts.
Section WithRuntime.
Context `{Runtime}.

Lemma levels_spec (c : string) :
  existsb (String.eqb c) ["processed"; "confirmed"; "finalized"] = true
  <-> In c ["processed"; "confirmed"; "finalized"].
Proof.
  rewrite existsb_exists. split.
  - intros (x & Hin & Heq). apply String.eqb_eq in Heq. now subst.
  - intros Hin. exists c. split; [exact Hin | apply String.eqb_refl].
Qed.

Lemma app_nil_iff {A} (a b : list A) : (a ++ b)%list = [] <-> a = [] /\ b = [].
Proof.
  split.
  - intros Hab. now apply app_eq_nil in Hab.
  - intros [-> ->]. reflexivity.
Qed.

Lemma errors_none (this : ProviderManager) :
  snd (validateConfig this) = []
  <-> rpcUrl (config this) <> ""
      /\ String_startsWith (rpcUrl (config this)) "http" = true
      /\ In (commitment (config this)) ["processed"; "confirmed"; "finalized"]
      /\ forall fee, priorityFee (config this) = Some fee ->
                     (fee <? 0)%float = false.
Proof.
  unfold validateConfig. cbn [snd].
  rewrite !app_nil_iff, <- levels_spec.
  destruct (rpcUrl (config this)) as [| c url] eqn:Hurl; cbn [truthy_string].
  { split; [intros [Hno _]; discriminate | intros [Hno _]; congruence]. }
  destruct (String_startsWith _ "http");
    [| split; [intros (_ & Hno & _); discriminate
              | intros (_ & Hno & _); discriminate]].
  destruct (existsb _ _);
    [| split; [intros (_ & _ & Hno & _); discriminate
              | intros (_ & _ & Hno & _); discriminate]].
  destruct (priorityFee (config this)) as [fee |].
  - destruct (fee <? 0)%float eqn:Hfee.
    + split; [intros (_ & _ & _ & Hno); discriminate |].
      intros (_ & _ & _ & Hno). specialize (Hno fee eq_refl). congruence.
    + split; [| auto]. intros _. repeat split; try discriminate.
      now intros fee' [= <-].
  - split; [| auto]. intros _. repeat split; discriminate.
Qed.

Lemma isValid_errors (this : ProviderManager) :
  fst (validateConfig this) = true <-> snd (validateConfig this) = [].
Proof.
  unfold validateConfig. cbn [fst snd]. rewrite Nat.eqb_eq.
  apply length_zero_iff_nil.
Qed.

(** X4: [validateConfig] reports a configuration as valid exactly when it
    lists no error, and that is exactly when the URL is not empty and
    starts with "http", the commitment is one of "processed", "confirmed"
    and "finalized", and the priority fee, if there is one, is not below
    zero.  A priority fee of NaN (what [parseInt] makes of text that is
    not a number) passes.  The check for an empty URL adds nothing to the
    verdict: an empty URL does not start with "http" either, so the first
    error is never reported without the second. *)
Theorem validateConfig_accepts (this : ProviderManager) :
  (fst (validateConfig this) = true <-> snd (validateConfig this) = [])
  /\ (fst (validateConfig this) = true
      <-> rpcUrl (config this) <> ""
          /\ String_startsWith (rpcUrl (config this)) "http" = true
          /\ In (commitment (config this)) ["processed"; "confirmed"; "finalized"]
          /\ forall fee, priorityFee (config this) = Some fee ->
                         (fee <? 0)%float = false)
  /\ (forall fee,
        priorityFee (config this) = Some fee ->
        PrimFloat.is_nan fee = true ->
        ~ In "Priority fee must be non-negative" (snd (validateConfig this)))
  /\ (standard_strings ->
      In "No RPC URL configured" (snd (validateConfig this)) ->
      In "Invalid RPC URL format" (snd (validateConfig this))).
Proof.
  split; [apply isValid_errors |].
  split; [rewrite isValid_errors; apply errors_none |].
  split.
  - intros fee Hfee Hnan. unfold validateConfig. cbn [snd].
    rewrite Hfee, (nan_not_negative fee Hnan), !in_app_iff.
    intros [Hin | [Hin | [Hin | []]]].
    + destruct (truthy_string _); [destruct Hin |].
      destruct Hin as [Hin | []]. discriminate.
    + destruct (String_startsWith _ _); [destruct Hin |].
      destruct Hin as [Hin | []]. discriminate.
    + destruct (existsb _ _); [destruct Hin |].
      destruct Hin as [Hin | []]. discriminate.
  - intros [_ Hstarts]. unfold validateConfig. cbn [snd].
    rewrite !in_app_iff. intros [Hin | [Hin | [Hin | Hin]]].
    + destruct (rpcUrl (config this)) as [| c url] eqn:Hurl;
        cbn [truthy_string] in Hin; [| destruct Hin].
      right. left. rewrite Hstarts. simpl. now left.
    + destruct (String_startsWith _ _); [destruct Hin |].
      destruct Hin as [Hin | []]. discriminate.
    + destruct (existsb _ _); [destruct Hin |].
      destruct Hin as [Hin | []]. discriminate.
    + destruct (priorityFee (config this)) as [fee |]; [| destruct Hin].
      destruct (fee <? 0)%float; [| destruct Hin].
      destruct Hin as [Hin | []]. discriminate.
Qed.

(** [getDevnetRpcUrl] never returns the empty string. *)
Lemma getDevnetRpcUrl_not_empty (env : Environment) : getDevnetRpcUrl env <> "".
Proof.
  unfold getDevnetRpcUrl, or_string, or_string_opt.
  destruct (env !! "DEVNET_RPC_URL") as [[| c s] |]; cbn [truthy_string];
    try discriminate;
    destruct (env !! "HELIUS_DEVNET_RPC_URL") as [[| c' s'] |];
    cbn [truthy_string]; discriminate.
Qed.

(** X5: the configuration [new ProviderManager()] reads from the
    environment.  Its URL is that of [getDevnetRpcUrl] and is never
    empty; the commitment is COMMITMENT when that is set and not empty and
    "confirmed" otherwise; there is a priority fee only when PRIORITY_FEE
    is set and not empty.  Neither value is checked by the constructor:
    the configuration is valid exactly when the URL starts with "http",
    COMMITMENT is unset, empty or one of the three levels, and
    [parseInt(PRIORITY_FEE)] is not below zero.  With none of the four
    variables set the configuration is valid. *)
Theorem environment_configuration (env : Environment) :
  let this := ProviderManager_new env in
  rpcUrl (config this) = getDevnetRpcUrl env
  /\ rpcUrl (config this) <> ""
  /\ commitment (config this) = or_string (env !! "COMMITMENT") "confirmed"
  /\ (fst (validateConfig this) = true
      <-> String_startsWith (getDevnetRpcUrl env) "http" = true
          /\ (unset_or_empty (env !! "COMMITMENT")
              \/ exists c, env !! "COMMITMENT" = Some c
                           /\ In c ["processed"; "confirmed"; "finalized"])
          /\ forall s, env !! "PRIORITY_FEE" = Some s -> s <> "" ->
                       (parseInt s <? 0)%float = false)
  /\ (standard_strings ->
      unset_or_empty (env !! "DEVNET_RPC_URL") ->
      unset_or_empty (env !! "HELIUS_DEVNET_RPC_URL") ->
      unset_or_empty (env !! "COMMITMENT") ->
      unset_or_empty (env !! "PRIORITY_FEE") ->
      validateConfig this = (true, [])).
Proof.
  intros this.
  assert (Hvalid : fst (validateConfig this) = true
      <-> String_startsWith (getDevnetRpcUrl env) "http" = true
          /\ (unset_or_empty (env !! "COMMITMENT")
              \/ exists c, env !! "COMMITMENT" = Some c
                           /\ In c ["processed"; "confirmed"; "finalized"])
          /\ forall s, env !! "PRIORITY_FEE" = Some s -> s <> "" ->
                       (parseInt s <? 0)%float = false).
  { rewrite isValid_errors, errors_none. subst this. cbn [config rpcUrl commitment priorityFee ProviderManager_new].
    split.
    - intros (_ & Hstarts & Hlevel & Hfee). split; [exact Hstarts |]. split.
      + unfold or_string, SETTINGS_DEFAULT_COMMITMENT in Hlevel.
        destruct (env !! "COMMITMENT") as [[| c s] |]; cbn [truthy_string] in Hlevel.
        * left. now right.
        * right. eauto.
        * left. now left.
      + intros s Hs Hne. rewrite Hs in Hfee.
        destruct s as [| c s]; [congruence |]. cbn [truthy_string] in Hfee.
        now apply Hfee.
    - intros (Hstarts & Hlevel & Hfee).
      split; [apply getDevnetRpcUrl_not_empty |]. split; [exact Hstarts |].
      split.
      + unfold or_string, SETTINGS_DEFAULT_COMMITMENT.
        destruct Hlevel as [[-> | ->] | (c & -> & Hc)]; cbn [truthy_string].
        * simpl. auto.
        * simpl. auto.
        * destruct c; [| exact Hc]. simpl in Hc. 
          destruct Hc as [Hc | [Hc | [Hc | []]]]; discriminate.
      + intros fee. destruct (env !! "PRIORITY_FEE") as [s |] eqn:Hs;
          [| discriminate].
        destruct s as [| c s]; cbn [truthy_string]; [discriminate |].
        intros [= <-]. now apply Hfee. }
  split; [reflexivity |]. split; [apply getDevnetRpcUrl_not_empty |].
  split; [reflexivity |]. split; [exact Hvalid |].
  intros [_ Hstarts] Hd Hh Hc Hp.
  assert (Hok : fst (validateConfig this) = true).
  { apply Hvalid. split; [| split].
    - unfold getDevnetRpcUrl. rewrite (DevnetFacts.or_string_opt_falsy _ _ Hd).
      rewrite Hstarts. destruct Hh as [-> | ->]; reflexivity.
    - now left.
    - intros s Hs Hne. destruct Hp as [Hp | Hp]; rewrite Hp in Hs; congruence. }
  pose proof (proj1 (isValid_errors this) Hok) as Hnil.
  destruct (validateConfig this) as [valid errors]. simpl in *. congruence.
Qed.

End WithRuntime.

(** The theorem on a configuration whose priority fee is NaN. *)
Lemma validateConfig_accepts_witness :
  ~ In "Priority fee must be non-negative"
       (snd (@validateConfig Fixture.runtime
               {| config := {| rpcUrl := "https://api.devnet.solana.com";
                               commitment := "confirmed";
                               priorityFee := Some PrimFloat.nan |} |})).
Proof.
  apply (proj1 (proj2 (proj2 (@validateConfig_accepts Fixture.runtime
                                {| config :=
                                     {| rpcUrl := "https://api.devnet.solana.com";
                                        commitment := "confirmed";
                                        priorityFee := Some PrimFloat.nan |} |})))
           PrimFloat.nan eq_refl eq_refl).
Defined.

(** The theorem on the empty environment. *)
Lemma environment_configuration_witness :
  @validateConfig Fixture.runtime (@ProviderManager_new Fixture.runtime ∅)
  = (true, []).
Proof.
  apply (proj2 (proj2 (proj2 (proj2 (@environment_configuration
                                       Fixture.runtime ∅))))).
  - split; reflexivity.
  - left. apply lookup_empty.
  - left. apply lookup_empty.
  - left. apply lookup_empty.
  - left. apply lookup_empty.
Defined.

End ProviderFacts.

(** ** buy-tokens: the calls of TokenBuyer and of main *)

Module TokenBuyerCallFacts.
Import Devnet Wallet Provider TokenBuyer Props TraceFacts TokenBuyerFacts.
Import BuyerProps.

(** A [catch] that throws the error again changes nothing. *)
Lemma rethrow {A} (body : Eff A) (st : State) :
  try_catch_eff body (fun error => throw error) st = body st.
Proof. unfold try_catch_eff, throw. now destruct (body st) as [[a | e] st']. Qed.

Lemma bind_lift_throw {A B} (k : A -> Eff B) (e : JsError) (st : State) :
  bind (lift (Throw e)) k st = (Throw e, st).
Proof. reflexivity. Qed.

Section WithPlatform.
Context `{Runtime} `{Network}.
Variable fs : FileSystem.

Lemma getTokenInfo_run (this : TokenBuyer) (mintAddress : string)
    (st : State) (sdk : PumpFunSDK) (mint : PublicKey) :
  this_sdk st = Some sdk ->
  PublicKey_new mintAddress = Ok mint ->
  getTokenInfo this mintAddress st
  = (match sdk_getBondingCurveAccount (trace st) sdk mint with
     | Ok (Some account) =>
         let! buyPrice := getBuyPrice account 1000 in
         let! sellPrice := getSellPrice account 1000 100 in
         Ok tt
     | Ok None => Ok tt
     | Throw e => Throw e
     end,
     log (GetBondingCurveAccount sdk mint) st).
Proof.
  intros Hsdk Hmint. unfold getTokenInfo. rewrite bind_get_sdk, Hsdk, rethrow.
  rewrite (bind_lift _ _ _ _ Hmint).
  unfold bind, getBondingCurveAccount.
  destruct (sdk_getBondingCurveAccount _ _ _) as [[account |] | e];
    [| reflexivity | reflexivity].
  unfold lift. destruct (getBuyPrice account 1000) as [b | e]; [| reflexivity].
  destruct (getSellPrice account 1000 100) as [s | e]; reflexivity.
Qed.

(** X7: [getTokenInfo] throws "SDK not initialized" when the SDK is not
    set, and the error of [new PublicKey] when the address is not a valid
    key, each without a call.  Otherwise it makes exactly one call, the
    lookup of the bonding curve, and leaves the SDK as it is.  A token
    without a bonding curve is not an error; the errors are those of the
    lookup and of the two price computations on the curve that was
    found. *)
Theorem getTokenInfo_outcomes (this : TokenBuyer) (mintAddress : string)
    (st : State) :
  match this_sdk st, PublicKey_new mintAddress with
  | None, _ =>
      getTokenInfo this mintAddress st
      = (Throw (Error "SDK not initialized"), st)
  | Some sdk, Throw e => getTokenInfo this mintAddress st = (Throw e, st)
  | Some sdk, Ok mint =>
      getTokenInfo this mintAddress st
      = (match sdk_getBondingCurveAccount (trace st) sdk mint with
         | Ok (Some account) =>
             let! buyPrice := getBuyPrice account 1000 in
             let! sellPrice := getSellPrice account 1000 100 in
             Ok tt
         | Ok None => Ok tt
         | Throw e => Throw e
         end,
         mkState (trace st ++ [GetBondingCurveAccount sdk mint]) (Some sdk))
  end.
Proof.
  destruct (this_sdk st) as [sdk |] eqn:Hsdk.
  - destruct (PublicKey_new mintAddress) as [mint | e] eqn:Hmint.
    + rewrite (getTokenInfo_run this mintAddress st sdk mint Hsdk Hmint).
      unfold log. now rewrite Hsdk.
    + unfold getTokenInfo. now rewrite bind_get_sdk, Hsdk, rethrow, Hmint.
  - unfold getTokenInfo. now rewrite bind_get_sdk, Hsdk.
Qed.

(** What [initializeSDK] does, by the three things it depends on. *)
Lemma initializeSDK_run (this : TokenBuyer) (walletType : WalletType)
    (st : State) :
  initializeSDK fs this walletType st
  = match loadWallet fs this walletType with
    | Throw e => (Throw e, st)
    | Ok wallet =>
        match createProvider (providerManager this) wallet with
        | Throw e => (Throw e, st)
        | Ok provider =>
            let sdk := PumpFunSDK_new provider in
            (match connection_getBalance (trace st) (connection sdk)
                                         (publicKey wallet) with
             | Ok balance => Ok tt
             | Throw e => Throw e
             end,
             mkState (trace st ++ [GetBalance (connection sdk) (publicKey wallet)])
                     (Some sdk))
        end
    end.
Proof.
  unfold initializeSDK. rewrite rethrow.
  destruct (loadWallet fs this walletType) as [wallet | e]; [| reflexivity].
  rewrite (bind_lift _ _ _ _ eq_refl).
  destruct (createProvider (providerManager this) wallet) as [provider | e];
    [| reflexivity].
  rewrite (bind_lift _ _ _ _ eq_refl).
  unfold checkWalletBalance, bind, set_sdk, get_sdk, getBalance, log, ret. simpl.
  destruct (connection_getBalance _ _ _) as [balance | e]; reflexivity.
Qed.

(** X6: [initializeSDK] throws the error of the wallet loader or of the
    provider without a call and without touching the SDK.  Once the
    provider exists it sets the SDK first and queries the balance of the
    wallet after: it succeeds exactly when that one query is answered,
    whatever the balance, zero included; and when the query fails the
    error is thrown while the SDK stays set. *)
Theorem initializeSDK_outcomes (this : TokenBuyer) (walletType : WalletType)
    (st : State) :
  match loadWallet fs this walletType with
  | Throw e => initializeSDK fs this walletType st = (Throw e, st)
  | Ok wallet =>
      match createProvider (providerManager this) wallet with
      | Throw e => initializeSDK fs this walletType st = (Throw e, st)
      | Ok provider =>
          let sdk := PumpFunSDK_new provider in
          let st' :=
            mkState (trace st ++ [GetBalance (connection sdk) (publicKey wallet)])
                    (Some sdk) in
          match connection_getBalance (trace st) (connection sdk)
                                      (publicKey wallet) with
          | Ok balance => initializeSDK fs this walletType st = (Ok tt, st')
          | Throw e => initializeSDK fs this walletType st = (Throw e, st')
          end
      end
  end.
Proof.
  rewrite initializeSDK_run.
  destruct (loadWallet fs this walletType) as [wallet | e]; [| reflexivity].
  destruct (createProvider (providerManager this) wallet) as [provider | e];
    [| reflexivity].
  cbv zeta. destruct (connection_getBalance _ _ _); reflexivity.
Qed.

End WithPlatform.
End TokenBuyerCallFacts.

Module TokenBuyerOrderFacts.
Import Devnet Wallet Provider TokenBuyer Props TraceFacts TokenBuyerFacts.
Import BuyerProps TokenBuyerCallFacts.

Lemma prefix_take {A} (k : nat) (l : list A) : firstn k l `prefix_of` l.
Proof. exists (skipn k l). symmetry. apply firstn_skipn. Qed.

Section WithPlatform.
Context `{Runtime} `{Network}.
Variable fs : FileSystem.

(** The calls of [buyTokens] once the SDK, the wallet, the mint and the
    amount are there: the first [k] calls of a purchase, all five when it
    returns normally, and at most two when the slippage is not an
    integer. *)
Lemma buyTokens_shape (this : TokenBuyer) (config : BuyTokensConfig)
    (st : State) sdk wallet mint lamports :
  this_sdk st = Some sdk ->
  loadWallet fs this (default Trading (walletType config)) = Ok wallet ->
  PublicKey_new (mintAddress config) = Ok mint ->
  BigInt (Math_floor (buyAmountSol config * LAMPORTS_PER_SOL)%float)
  = Ok lamports ->
  exists (k : nat) (sig : string),
    (1 <= k)%nat
    /\ this_sdk (snd (buyTokens fs this config st)) = Some sdk
    /\ (forall slippage,
          BigInt (default 500%float (slippageBasisPoints config)) = Ok slippage ->
          trace (snd (buyTokens fs this config st))
          = (trace st
             ++ firstn k (purchase_calls sdk wallet mint lamports slippage sig))%list
          /\ (fst (buyTokens fs this config st) = Ok tt -> k = 5%nat))
    /\ (forall e,
          BigInt (default 500%float (slippageBasisPoints config)) = Throw e ->
          (k <= 2)%nat
          /\ trace (snd (buyTokens fs this config st))
             = (trace st
                ++ firstn k (purchase_calls sdk wallet mint lamports 0 sig))%list
          /\ fst (buyTokens fs this config st) <> Ok tt).
Proof.
  intros Hsdk Hwallet Hmint Hlamports.
  destruct (buyTokens fs this config st) as [r st'] eqn:Hrun. cbn [fst snd].
  unfold buyTokens in Hrun. rewrite bind_get_sdk, Hsdk, rethrow in Hrun.
  cbv zeta in Hrun.
  rewrite (bind_lift _ _ _ _ Hwallet), (bind_lift _ _ _ _ Hmint),
          (bind_lift _ _ _ _ Hlamports) in Hrun.
  unfold bind at 1 in Hrun.
  rewrite (getTokenInfo_run this _ st sdk mint Hsdk Hmint) in Hrun.
  match type of Hrun with
  | context [match ?r1 with Ok _ => _ | Throw _ => _ end] =>
      destruct r1 as [[] | e1]
  end.
  2:{ injection Hrun as <- <-.
      exists 1%nat, "". split; [lia |]. split; [exact Hsdk |]. split.
      - intros slippage _. split; [reflexivity | discriminate].
      - intros e _. split; [lia |]. split; [reflexivity | discriminate]. }
  unfold bind at 1, getBondingCurveAccount at 1 in Hrun.
  destruct (sdk_getBondingCurveAccount _ sdk mint) as [[account |] | e2].
  2:{ injection Hrun as <- <-.
      exists 2%nat, "". split; [lia |]. split; [exact Hsdk |]. split.
      - intros slippage _. split; [| discriminate].
        cbn. now rewrite <- app_assoc.
      - intros e _. split; [lia |]. split; [| discriminate].
        cbn. now rewrite <- app_assoc. }
  2:{ injection Hrun as <- <-.
      exists 2%nat, "". split; [lia |]. split; [exact Hsdk |]. split.
      - intros slippage _. split; [| discriminate].
        cbn. now rewrite <- app_assoc.
      - intros e _. split; [lia |]. split; [| discriminate].
        cbn. now rewrite <- app_assoc. }
  destruct (BigInt (default 500%float (slippageBasisPoints config)))
    as [slippage | e3] eqn:Hslip.
  2:{ rewrite bind_lift_throw in Hrun. injection Hrun as <- <-.
      exists 2%nat, "". split; [lia |]. split; [exact Hsdk |]. split.
      - intros slippage [=].
      - intros e _. split; [lia |]. split; [| discriminate].
        cbn. now rewrite <- app_assoc. }
  rewrite (bind_lift _ _ _ _ eq_refl) in Hrun.
  unfold bind at 1, buy at 1 in Hrun.
  destruct (sdk_buy _ _ _ _ _ _ _) as [result | e4].
  2:{ injection Hrun as <- <-.
      exists 3%nat, "". split; [lia |]. split; [exact Hsdk |]. split.
      - intros slippage' [= <-]. split; [| discriminate].
        cbn. now rewrite <- !app_assoc.
      - intros e [=]. }
  destruct (success result); cbn [negb] in Hrun.
  2:{ injection Hrun as <- <-.
      exists 3%nat, "". split; [lia |]. split; [exact Hsdk |]. split.
      - intros slippage' [= <-]. split; [| discriminate].
        cbn. now rewrite <- !app_assoc.
      - intros e [=]. }
  unfold bind at 1, confirmTransaction at 1 in Hrun.
  destruct (connection_confirmTransaction _ _ _ _) as [confirmation | e5].
  2:{ injection Hrun as <- <-.
      exists 4%nat, (or_string (signature result) "").
      split; [lia |]. split; [exact Hsdk |]. split.
      - intros slippage' [= <-]. split; [| discriminate].
        cbn. now rewrite <- !app_assoc.
      - intros e [=]. }
  destruct (value_err confirmation) as [err |].
  { injection Hrun as <- <-.
    exists 4%nat, (or_string (signature result) "").
    split; [lia |]. split; [exact Hsdk |]. split.
    - intros slippage' [= <-]. split; [| discriminate].
      cbn. now rewrite <- !app_assoc.
    - intros e [=]. }
  match type of Hrun with
  | context [getTokenInfo this ?a ?s] =>
      rewrite (getTokenInfo_run this a s sdk mint Hsdk Hmint) in Hrun
  end.
  injection Hrun as <- <-.
  exists 5%nat, (or_string (signature result) "").
  split; [lia |]. split; [exact Hsdk |]. split.
  - intros slippage' [= <-]. split; [| reflexivity].
    cbn. now rewrite <- !app_assoc.
  - intros e [=].
Qed.

(** X8: the calls [buyTokens] makes are always the first calls of one
    purchase, in its order: bonding curve lookup, bonding curve lookup,
    buy, confirmTransaction, bonding curve lookup, all for the mint of the
    configuration.  So it submits at most one purchase, never before two
    lookups, never sells or creates, and it returns normally only after
    all five calls.  When it throws without a call nothing was looked up
    or submitted. *)
Theorem buyTokens_call_order (this : TokenBuyer) (config : BuyTokensConfig)
    (st : State) :
  let run := buyTokens fs this config st in
  (trace (snd run) = trace st /\ exists e, fst run = Throw e)
  \/ exists sdk wallet mint lamports slippage sig calls,
       this_sdk st = Some sdk
       /\ loadWallet fs this (default Trading (walletType config)) = Ok wallet
       /\ PublicKey_new (mintAddress config) = Ok mint
       /\ BigInt (Math_floor (buyAmountSol config * LAMPORTS_PER_SOL)%float)
          = Ok lamports
       /\ trace (snd run) = (trace st ++ calls)%list
       /\ calls <> []
       /\ calls `prefix_of` purchase_calls sdk wallet mint lamports slippage sig
       /\ (fst run = Ok tt ->
           calls = purchase_calls sdk wallet mint lamports slippage sig).
Proof.
  intros run. subst run.
  destruct (this_sdk st) as [sdk |] eqn:Hsdk.
  2:{ left. unfold buyTokens. rewrite bind_get_sdk, Hsdk. simpl. eauto. }
  destruct (loadWallet fs this (default Trading (walletType config)))
    as [wallet | e] eqn:Hwallet.
  2:{ left. unfold buyTokens. rewrite bind_get_sdk, Hsdk, rethrow. cbv zeta.
      rewrite Hwallet, bind_lift_throw. simpl. eauto. }
  destruct (PublicKey_new (mintAddress config)) as [mint | e] eqn:Hmint.
  2:{ left. unfold buyTokens. rewrite bind_get_sdk, Hsdk, rethrow. cbv zeta.
      rewrite (bind_lift _ _ _ _ Hwallet), Hmint, bind_lift_throw.
      simpl. eauto. }
  destruct (BigInt (Math_floor (buyAmountSol config * LAMPORTS_PER_SOL)%float))
    as [lamports | e] eqn:Hlamports.
  2:{ left. unfold buyTokens. rewrite bind_get_sdk, Hsdk, rethrow. cbv zeta.
      rewrite (bind_lift _ _ _ _ Hwallet), (bind_lift _ _ _ _ Hmint),
              Hlamports, bind_lift_throw.
      simpl. eauto. }
  right.
  destruct (buyTokens_shape this config st sdk wallet mint lamports
              Hsdk Hwallet Hmint Hlamports)
    as (k & sig & Hk & _ & Hok & Hbad).
  destruct (BigInt (default 500%float (slippageBasisPoints config)))
    as [slippage | e] eqn:Hslip.
  - destruct (Hok slippage eq_refl) as [Htrace Hfull].
    exists sdk, wallet, mint, lamports, slippage, sig.
    eexists. do 4 (split; [reflexivity |]).
    split; [exact Htrace |]. split; [| split; [apply prefix_take |]].
    + destruct k; [lia | discriminate].
    + intros Hr. now rewrite (Hfull Hr).
  - destruct (Hbad e eq_refl) as (_ & Htrace & Hnot).
    exists sdk, wallet, mint, lamports, 0, sig.
    eexists. do 4 (split; [reflexivity |]).
    split; [exact Htrace |]. split; [| split; [apply prefix_take |]].
    + destruct k; [lia | discriminate].
    + intros Hr. contradiction.
Qed.

(** X9: what [buyTokens] does with a purchase that was submitted.  When
    the SDK answers that the purchase failed, [buyTokens] throws "Buy
    failed: " followed by the SDK's error, or by "Unknown error" when
    there is none, and does not call [confirmTransaction].  When the
    purchase succeeded and the confirmation carries an error, it throws
    "Transaction failed: " followed by that error.  In both cases the
    exception comes after the purchase was sent to the SDK. *)
Theorem buy_failures_come_after_submission (this : TokenBuyer)
    (config : BuyTokensConfig) (st : State) sdk wallet mint lamports slippage
    account result :
  this_sdk st = Some sdk ->
  loadWallet fs this (default Trading (walletType config)) = Ok wallet ->
  PublicKey_new (mintAddress config) = Ok mint ->
  BigInt (Math_floor (buyAmountSol config * LAMPORTS_PER_SOL)%float)
  = Ok lamports ->
  fst (getTokenInfo this (mintAddress config) st) = Ok tt ->
  let lookups := [GetBondingCurveAccount sdk mint;
                  GetBondingCurveAccount sdk mint] in
  let purchase := Buy sdk wallet mint lamports slippage (Some priorityFees) in
  sdk_getBondingCurveAccount (trace st ++ [GetBondingCurveAccount sdk mint])
                             sdk mint = Ok (Some account) ->
  BigInt (default 500%float (slippageBasisPoints config)) = Ok slippage ->
  sdk_buy (trace st ++ lookups) sdk wallet mint lamports slippage
          (Some priorityFees) = Ok result ->
  (success result = false ->
   buyTokens fs this config st
   = (Throw (Error ("Buy failed: "
                    +:+ or_string (error result) "Unknown error")),
      mkState (trace st ++ lookups ++ [purchase]) (Some sdk)))
  /\ (forall err,
        success result = true ->
        connection_confirmTransaction (trace st ++ lookups ++ [purchase])
          (connection sdk) (or_string (signature result) "") "confirmed"
        = Ok {| value_err := Some err |} ->
        buyTokens fs this config st
        = (Throw (Error ("Transaction failed: " +:+ err)),
           mkState (trace st ++ lookups ++ [purchase;
                      ConfirmTransaction (connection sdk)
                        (or_string (signature result) "") "confirmed"])
                   (Some sdk))).
Proof.
  intros Hsdk Hwallet Hmint Hlamports Hinfo lookups purchase Hfound Hslip Hbuy.
  assert (Hrun :
    buyTokens fs this config st
    = (result <- buy sdk wallet mint lamports slippage (Some priorityFees) ;;
       if negb (success result) then
         throw (Error ("Buy failed: "
                       +:+ or_string (error result) "Unknown error"))
       else
         confirmation <- confirmTransaction (connection sdk)
                           (or_string (signature result) "") "confirmed" ;;
         match value_err confirmation with
         | Some err => throw (Error ("Transaction failed: " +:+ err))
         | None => getTokenInfo this (mintAddress config)
         end)
        (mkState (trace st ++ lookups) (Some sdk))).
  { unfold buyTokens. rewrite bind_get_sdk, Hsdk, rethrow. cbv zeta.
    rewrite (bind_lift _ _ _ _ Hwallet), (bind_lift _ _ _ _ Hmint),
            (bind_lift _ _ _ _ Hlamports).
    unfold bind at 1.
    rewrite (getTokenInfo_run this _ st sdk mint Hsdk Hmint) in Hinfo |- *.
    cbn [fst] in Hinfo. rewrite Hinfo.
    unfold bind at 1, getBondingCurveAccount at 1.
    cbn [trace log]. rewrite Hfound.
    rewrite (bind_lift _ _ _ _ Hslip).
    unfold log. cbn [trace this_sdk]. rewrite Hsdk, <- app_assoc.
    reflexivity. }
  rewrite Hrun.
  split; [| intros err]; unfold bind at 1, buy at 1; cbn [trace];
    fold purchase; rewrite Hbuy; cbv beta iota.
  - intros ->. cbn [negb]. unfold throw, log. cbn [trace this_sdk].
    now rewrite <- app_assoc.
  - intros -> Hconfirm. cbn [negb].
    unfold bind, confirmTransaction, log. cbn [trace this_sdk].
    rewrite <- app_assoc. fold purchase. rewrite Hconfirm. cbn [value_err].
    unfold throw. cbn [trace this_sdk]. now rewrite <- !app_assoc.
Qed.

End WithPlatform.

(** The theorem on a network whose SDK reports the purchase as failed. *)
Lemma buy_failures_come_after_submission_witness :
  @buyTokens Fixture.runtime ExampleFixture.refusing Fixture.files
    Fixture.buyer buyConfig Fixture.initialized
  = (Throw (Error "Buy failed: insufficient lamports"),
     mkState [GetBondingCurveAccount Fixture.sdk Fixture.mint;
              GetBondingCurveAccount Fixture.sdk Fixture.mint;
              Buy Fixture.sdk Fixture.wallet Fixture.mint 100000 500
                  (Some priorityFees)]
             (Some Fixture.sdk)).
Proof.
  refine (proj1 (@buy_failures_come_after_submission Fixture.runtime
                   ExampleFixture.refusing Fixture.files Fixture.buyer
                   buyConfig Fixture.initialized Fixture.sdk Fixture.wallet
                   Fixture.mint 100000 500 Fixture.curve
                   {| success := false; signature := None;
                      error := Some "insufficient lamports";
                      results_slot := None |}
                   _ _ _ _ _ _ _ _) _);
    vm_compute; reflexivity.
Defined.

(** One complete purchase on the network of the examples. *)
Example buyTokens_complete_purchase :
  trace (snd (@buyTokens Fixture.runtime (Fixture.network true) Fixture.files
                Fixture.buyer buyConfig Fixture.initialized))
  = purchase_calls Fixture.sdk Fixture.wallet Fixture.mint 100000 500 "5h4z".
Proof. vm_compute. reflexivity. Qed.

End TokenBuyerOrderFacts.

Module TokenBuyerEdgeFacts.
Import Devnet Wallet Provider TokenBuyer Props TraceFacts TokenBuyerFacts.
Import BuyerProps TokenBuyerCallFacts TokenBuyerOrderFacts.

Lemma BigInt_not_finite (y : number) :
  finite_value y = None ->
  BigInt y
  = Throw (RangeError
             ("The number " +:+ Number_toString y
              +:+ " cannot be converted to a BigInt because it is not an integer")).
Proof. intros Hy. unfold BigInt, integer_value. now rewrite Hy. Qed.

Lemma Math_floor_not_finite (y : number) :
  finite_value y = None -> Math_floor y = y.
Proof.
  unfold finite_value, Math_floor.
  destruct (Prim2SF y); try discriminate; reflexivity.
Qed.

(** NaN and the infinities stay what they are when multiplied by
    [LAMPORTS_PER_SOL]. *)
Lemma mul_not_finite (x : number) :
  finite_value x = None ->
  Prim2SF (x * LAMPORTS_PER_SOL)%float = Prim2SF x.
Proof.
  unfold finite_value. rewrite FloatAxioms.mul_spec.
  destruct (Prim2SF LAMPORTS_PER_SOL) as [s | s | | s m e] eqn:HL;
    vm_compute in HL; try discriminate.
  injection HL as <- _ _.
  destruct (Prim2SF x) as [s' | s' | | s' m' e']; try discriminate;
    [destruct s' |]; reflexivity.
Qed.

Section WithPlatform.
Context `{Runtime} `{Network}.
Variable fs : FileSystem.

(** X10: an amount that is NaN or infinite never reaches the network:
    [buyTokens] throws without a call and leaves the state as it was, and
    once the SDK, the wallet and the mint are there the error is the
    RangeError of [BigInt], which names the number: "NaN", "Infinity" or
    "-Infinity". *)
Theorem amount_must_be_finite (this : TokenBuyer) (config : BuyTokensConfig)
    (st : State) :
  finite_value (buyAmountSol config) = None ->
  (exists e, buyTokens fs this config st = (Throw e, st))
  /\ forall sdk wallet mint,
       this_sdk st = Some sdk ->
       loadWallet fs this (default Trading (walletType config)) = Ok wallet ->
       PublicKey_new (mintAddress config) = Ok mint ->
       buyTokens fs this config st
       = (Throw (RangeError
                   ("The number "
                    +:+ match Prim2SF (buyAmountSol config) with
                        | S754_infinity false => "Infinity"
                        | S754_infinity true => "-Infinity"
                        | _ => "NaN"
                        end
                    +:+ " cannot be converted to a BigInt because it is not an integer")),
          st).
Proof.
  intros Hamount.
  pose proof (mul_not_finite _ Hamount) as Hmul.
  assert (Hfin : finite_value (buyAmountSol config * LAMPORTS_PER_SOL)%float = None)
    by (unfold finite_value in *; now rewrite Hmul).
  pose proof (BigInt_not_finite _ Hfin) as Hbig.
  assert (Htext :
    Number_toString (buyAmountSol config * LAMPORTS_PER_SOL)%float
    = match Prim2SF (buyAmountSol config) with
      | S754_infinity false => "Infinity"
      | S754_infinity true => "-Infinity"
      | _ => "NaN"
      end).
  { unfold Number_toString. rewrite Hmul. unfold finite_value in Hamount.
    destruct (Prim2SF (buyAmountSol config)) as [s | s | | s m e];
      try discriminate; reflexivity. }
  rewrite Htext in Hbig.
  rewrite <- (Math_floor_not_finite _ Hfin) in Hbig at 1.
  assert (Hgen : forall sdk wallet mint,
       this_sdk st = Some sdk ->
       loadWallet fs this (default Trading (walletType config)) = Ok wallet ->
       PublicKey_new (mintAddress config) = Ok mint ->
       buyTokens fs this config st
       = (Throw (RangeError
                   ("The number "
                    +:+ match Prim2SF (buyAmountSol config) with
                        | S754_infinity false => "Infinity"
                        | S754_infinity true => "-Infinity"
                        | _ => "NaN"
                        end
                    +:+ " cannot be converted to a BigInt because it is not an integer")),
          st)).
  { intros sdk wallet mint Hsdk Hwallet Hmint.
    unfold buyTokens. rewrite bind_get_sdk, Hsdk, rethrow. cbv zeta.
    rewrite (bind_lift _ _ _ _ Hwallet), (bind_lift _ _ _ _ Hmint), Hbig.
    apply bind_lift_throw. }
  split; [| exact Hgen].
  destruct (this_sdk st) as [sdk |] eqn:Hsdk.
  2:{ unfold buyTokens. rewrite bind_get_sdk, Hsdk. simpl. eauto. }
  destruct (loadWallet fs this (default Trading (walletType config)))
    as [wallet | e] eqn:Hwallet.
  2:{ unfold buyTokens. rewrite bind_get_sdk, Hsdk, rethrow. cbv zeta.
      rewrite Hwallet, bind_lift_throw. eauto. }
  destruct (PublicKey_new (mintAddress config)) as [mint | e] eqn:Hmint.
  2:{ unfold buyTokens. rewrite bind_get_sdk, Hsdk, rethrow. cbv zeta.
      rewrite (bind_lift _ _ _ _ Hwallet), Hmint, bind_lift_throw. eauto. }
  rewrite (Hgen sdk wallet mint eq_refl eq_refl eq_refl). eauto.
Qed.

(** X11: [sellTokens] makes no lookup before it sells.  Unless the SDK,
    the wallet and the mint are all there it throws without a call.  Once
    they are, its first call is the sale, of exactly the amount it was
    given and with 500 basis points.  When that call throws, or the SDK
    answers that the sale failed, [sellTokens] throws after this one call
    (with "Sell failed: " and the SDK's error in the second case).  When
    the sale succeeded the one call that follows is the confirmation of
    that sale: [confirmTransaction] on the signature of its result (the
    empty string when the result has none), and [sellTokens] returns
    normally exactly when that confirmation comes back without an
    error. *)
Theorem sellTokens_call_order (this : TokenBuyer) (mintAddress : string)
    (sellAmount : Z) (walletType : WalletType) (st : State) :
  let run := sellTokens fs this mintAddress sellAmount walletType st in
  match this_sdk st, loadWallet fs this walletType, PublicKey_new mintAddress with
  | Some sdk, Ok wallet, Ok mint =>
      let sale := Sell sdk wallet mint sellAmount 500 in
      match sdk_sell (trace st) sdk wallet mint sellAmount 500 with
      | Ok result =>
          if success result then
            let sig := or_string (signature result) "" in
            trace (snd run)
            = (trace st ++ sale_calls sdk wallet mint sellAmount sig)%list
            /\ (fst run = Ok tt <->
                connection_confirmTransaction (trace st ++ [sale])
                  (connection sdk) sig "confirmed"
                = Ok {| value_err := None |})
          else
            run = (Throw (Error ("Sell failed: "
                                 +:+ or_string (error result) "Unknown error")),
                   mkState (trace st ++ [sale]) (Some sdk))
      | Throw e => run = (Throw e, mkState (trace st ++ [sale]) (Some sdk))
      end
  | _, _, _ => trace (snd run) = trace st /\ exists e, fst run = Throw e
  end.
Proof.
  intros run. subst run. unfold sellTokens. rewrite bind_get_sdk.
  destruct (this_sdk st) as [sdk |] eqn:Hsdk.
  2:{ simpl. eauto. }
  rewrite rethrow.
  destruct (loadWallet fs this walletType) as [wallet | e] eqn:Hwallet.
  2:{ rewrite bind_lift_throw. simpl. eauto. }
  rewrite (bind_lift _ _ _ _ eq_refl).
  destruct (PublicKey_new mintAddress) as [mint | e] eqn:Hmint.
  2:{ rewrite bind_lift_throw. simpl. eauto. }
  rewrite (bind_lift _ _ _ _ eq_refl). cbv zeta.
  unfold bind, sell, confirmTransaction, throw, ret, log.
  cbn [trace this_sdk]. rewrite Hsdk.
  destruct (sdk_sell _ _ _ _ _ _) as [result | e]; [| reflexivity].
  destruct (success result); cbn [negb]; [| reflexivity].
  destruct (connection_confirmTransaction _ _ _ _) as [[[err |]] | e];
    cbn [fst snd trace value_err]; rewrite <- app_assoc;
    (split; [reflexivity |]); split; congruence.
Qed.

End WithPlatform.

Section Main.
Context `{Runtime} `{Network}.
Variable fs : FileSystem.
Variable env : Environment.

Lemma listWallets_run (this : TokenBuyer) (st : State) :
  listWallets fs this st
  = (match listAvailableWallets fs (walletManager this) with
     | Ok wallets => Ok tt
     | Throw e => Throw e
     end, st).
Proof.
  unfold listWallets, bind, lift, ret.
  now destruct (listAvailableWallets fs (walletManager this)).
Qed.

Lemma main_amount :
  BigInt (Math_floor (buyAmountSol buyConfig * LAMPORTS_PER_SOL)%float)
  = Ok 100000.
Proof. vm_compute. reflexivity. Qed.

Lemma main_slippage :
  BigInt (default 500%float (slippageBasisPoints buyConfig)) = Ok 500.
Proof. vm_compute. reflexivity. Qed.

(** X12: the calls of [main] are always the first calls of one fixed
    sequence.  [main] makes no call, and exits with code 1, when the
    wallets cannot be listed, the trading wallet cannot be loaded or the
    provider cannot be created.  Otherwise its first call is the balance
    query of [initializeSDK] for that wallet, and what follows are the
    first calls of one purchase of 100000 lamports with 500 basis points
    of the mint of the configuration, [new PublicKey] of its address:
    none when that address is not a key.  [main] completes only after
    all six calls and exits with code 1 otherwise; it never sells or
    creates a token. *)
Theorem main_call_order (st : State) :
  let run := main fs env st in
  let buyer := TokenBuyer_new env in
  match listAvailableWallets fs (walletManager buyer),
        loadWallet fs buyer Trading with
  | Ok _, Ok wallet =>
      match createProvider (providerManager buyer) wallet with
      | Ok provider =>
          let sdk := PumpFunSDK_new provider in
          let query := GetBalance (connection sdk) (publicKey wallet) in
          match PublicKey_new (mintAddress buyConfig) with
          | Ok mint =>
              exists sig calls,
                trace (snd run) = (trace st ++ query :: calls)%list
                /\ calls `prefix_of` purchase_calls sdk wallet mint 100000 500 sig
                /\ (fst run = Completed ->
                    calls = purchase_calls sdk wallet mint 100000 500 sig)
                /\ (fst run = Completed \/ fst run = Exited 1)
          | Throw _ =>
              trace (snd run) = (trace st ++ [query])%list
              /\ fst run = Exited 1
          end
      | Throw _ => trace (snd run) = trace st /\ fst run = Exited 1
      end
  | _, _ => trace (snd run) = trace st /\ fst run = Exited 1
  end.
Proof.
  intros run buyer. subst run.
  destruct (main fs env st) as [o st'] eqn:Hrun. cbn [fst snd].
  unfold main, main_body in Hrun. fold buyer in Hrun.
  unfold bind at 1 in Hrun. rewrite listWallets_run in Hrun.
  destruct (listAvailableWallets fs (walletManager buyer)) as [wallets | e].
  2:{ injection Hrun as <- <-.
      destruct (loadWallet fs buyer Trading); split; reflexivity. }
  unfold bind at 1 in Hrun. rewrite initializeSDK_run in Hrun.
  destruct (loadWallet fs buyer Trading) as [wallet | e] eqn:Hwallet.
  2:{ injection Hrun as <- <-. split; reflexivity. }
  destruct (createProvider (providerManager buyer) wallet) as [provider | e].
  2:{ injection Hrun as <- <-. split; reflexivity. }
  cbv zeta in Hrun |- *. set (sdk := PumpFunSDK_new provider) in *.
  destruct (connection_getBalance _ _ _) as [balance | e].
  2:{ injection Hrun as <- <-. cbn [trace].
      destruct (PublicKey_new (mintAddress buyConfig)) as [mint | e'].
      - exists "", []. split; [reflexivity |].
        split; [apply prefix_nil |]. split; [discriminate | now right].
      - split; reflexivity. }
  set (st1 := mkState _ (Some sdk)) in *.
  destruct (PublicKey_new (mintAddress buyConfig)) as [mint | e] eqn:Hmint.
  2:{ assert (Hbuy : buyTokens fs buyer buyConfig st1 = (Throw e, st1)).
      { unfold buyTokens. rewrite bind_get_sdk. cbn [this_sdk st1].
        rewrite rethrow. cbv zeta.
        change (default Trading (walletType buyConfig)) with Trading.
        rewrite (bind_lift _ _ _ _ Hwallet), Hmint. apply bind_lift_throw. }
      rewrite Hbuy in Hrun. injection Hrun as <- <-. split; reflexivity. }
  destruct (buyTokens_shape fs buyer buyConfig st1 sdk wallet mint 100000
              eq_refl Hwallet Hmint main_amount)
    as (k & sig & Hk & _ & Hok & _).
  destruct (Hok 500 main_slippage) as [Htrace Hfull].
  exists sig, (firstn k (purchase_calls sdk wallet mint 100000 500 sig)).
  destruct (buyTokens fs buyer buyConfig st1) as [[[] | e] st2];
    cbn [fst snd] in *; injection Hrun as <- <-; rewrite Htrace;
    subst st1; cbn [trace]; rewrite <- app_assoc.
  - split; [reflexivity |]. split; [apply prefix_take |].
    split; [| now left]. intros _. now rewrite (Hfull eq_refl).
  - split; [reflexivity |]. split; [apply prefix_take |].
    split; [discriminate | now right].
Qed.

End Main.

(** The theorem on the configuration of [main] with NaN as the amount:
    the error names NaN. *)
Lemma amount_must_be_finite_witness :
  @buyTokens Fixture.runtime (Fixture.network true) Fixture.files
    Fixture.buyer
    {| mintAddress := "7vS7ViHrrMSx19kG95k1KKDFDdq3YTBZNJrDwhPTTj9v";
       buyAmountSol := PrimFloat.nan;
       slippageBasisPoints := Some 500%float;
       walletType := Some Trading |}
    Fixture.initialized
  = (Throw (RangeError "The number NaN cannot be converted to a BigInt because it is not an integer"),
     Fixture.initialized).
Proof.
  refine (proj2 (@amount_must_be_finite Fixture.runtime (Fixture.network true)
                   Fixture.files Fixture.buyer
                   {| mintAddress := "7vS7ViHrrMSx19kG95k1KKDFDdq3YTBZNJrDwhPTTj9v";
                      buyAmountSol := PrimFloat.nan;
                      slippageBasisPoints := Some 500%float;
                      walletType := Some Trading |}
                   Fixture.initialized eq_refl)
                Fixture.sdk Fixture.wallet Fixture.mint _ _ _);
    vm_compute; reflexivity.
Defined.

(** An infinite amount on the same platform: the error names Infinity. *)
Example infinite_amount_is_refused :
  fst (@buyTokens Fixture.runtime (Fixture.network true) Fixture.files
         Fixture.buyer
         {| mintAddress := "7vS7ViHrrMSx19kG95k1KKDFDdq3YTBZNJrDwhPTTj9v";
            buyAmountSol := PrimFloat.infinity;
            slippageBasisPoints := Some 500%float;
            walletType := Some Trading |}
         Fixture.initialized)
  = Throw (RangeError "The number Infinity cannot be converted to a BigInt because it is not an integer").
Proof. vm_compute. reflexivity. Qed.

(** [BigInt] names the number it refuses. *)
Example BigInt_names_the_number :
  BigInt 0.5%float
  = Throw (RangeError "The number 0.5 cannot be converted to a BigInt because it is not an integer")
  /\ BigInt (0 - 1.5e-7)%float
     = Throw (RangeError "The number -1.5e-7 cannot be converted to a BigInt because it is not an integer")
  /\ BigInt PrimFloat.neg_infinity
     = Throw (RangeError "The number -Infinity cannot be converted to a BigInt because it is not an integer")
  /\ BigInt 20000%float = Ok 20000.
Proof. vm_compute. repeat split; reflexivity. Qed.

End TokenBuyerEdgeFacts.

(** ** example/basic and example/util: the rest of the script *)

Module ExampleFacts.
Import Util Basic Example Props ExampleProps TokenBuyerFacts TokenBuyerCallFacts.

(** A [catch] that only logs turns every exception into a normal
    return. *)
Lemma swallow {A} (body : Eff A) (a : A) (st : State) :
  try_catch_eff body (fun error => ret a) st
  = (match fst (body st) with Ok x => Ok x | Throw _ => Ok a end,
     snd (body st)).
Proof. unfold try_catch_eff, ret. now destruct (body st) as [[x | e] st']. Qed.

Lemma firstWithBalance_none (accounts : list ParsedTokenAccount) :
  Forall no_balance accounts -> firstWithBalance accounts = Ok None.
Proof.
  induction 1 as [| account rest (uiAmount & Hread & Hno) _ IH];
    [reflexivity |].
  cbn [firstWithBalance]. rewrite Hread. cbn [bindR]. now rewrite Hno.
Qed.

Lemma firstWithBalance_first (before after : list ParsedTokenAccount)
    (account : ParsedTokenAccount) (balance : number) :
  Forall no_balance before ->
  parsed_uiAmount account = Ok (Some balance) ->
  (0 <? balance)%float = true ->
  firstWithBalance (before ++ account :: after)
  = Ok (Some (pubkey account, balance)).
Proof.
  intros Hbefore Hread Hpos.
  induction Hbefore as [| a rest (uiAmount & Ha & Hno) _ IH].
  - cbn [app firstWithBalance]. rewrite Hread. cbn [bindR positive_balance].
    now rewrite Hpos.
  - cbn [app firstWithBalance]. rewrite Ha. cbn [bindR]. now rewrite Hno.
Qed.

(** What the loop finds is the first account with a balance above
    zero. *)
Lemma firstWithBalance_found (accounts : list ParsedTokenAccount)
    (tokenToSell : PublicKey) (balance : number) :
  firstWithBalance accounts = Ok (Some (tokenToSell, balance)) ->
  exists before account after,
    accounts = (before ++ account :: after)%list
    /\ Forall no_balance before
    /\ parsed_uiAmount account = Ok (Some balance)
    /\ (0 <? balance)%float = true
    /\ pubkey account = tokenToSell.
Proof.
  induction accounts as [| a rest IH]; [discriminate |].
  cbn [firstWithBalance].
  destruct (parsed_uiAmount a) as [uiAmount | e] eqn:Ha; [| discriminate].
  cbn [bindR].
  destruct (positive_balance uiAmount) as [b |] eqn:Hb.
  - intros [= <- <-]. exists [], a, rest.
    unfold positive_balance in Hb.
    destruct uiAmount as [x |]; [| discriminate].
    destruct (0 <? x)%float eqn:Hx; [| discriminate].
    injection Hb as <-. repeat split; auto.
  - intros Hrest. destruct (IH Hrest) as (before & account & after & -> & Hall & Hrest').
    exists (a :: before), account, after. split; [reflexivity |].
    split; [| exact Hrest'].
    constructor; [| exact Hall]. now exists uiAmount.
Qed.

Section WithNetwork.
Context `{Network}.

Lemma printSOLBalance_run (connection : Connection) (publicKey : PublicKey)
    (st : State) :
  printSOLBalance connection publicKey st
  = (Ok tt, log (GetBalance connection publicKey) st).
Proof.
  unfold printSOLBalance. rewrite swallow.
  unfold bind, getBalance, ret.
  destruct (connection_getBalance _ _ _); reflexivity.
Qed.

(** X14: the two printing helpers never throw, whatever the connection
    answers, and each makes exactly one call: [printSOLBalance] the
    balance query of the account, [printSPLBalance] the token account
    query of the owner for the mint. *)
Theorem print_helpers_never_throw (connection : Connection)
    (mint owner : PublicKey) (st : State) :
  printSOLBalance connection owner st
  = (Ok tt, mkState (trace st ++ [GetBalance connection owner]) (this_sdk st))
  /\ printSPLBalance connection mint owner st
     = (Ok tt,
        mkState (trace st ++ [GetParsedTokenAccountsByOwner connection owner
                                                             (ByMint mint)])
                (this_sdk st)).
Proof.
  split; [apply printSOLBalance_run | apply BasicFacts.printSPLBalance_run].
Qed.

(** X13: [createAndBuyToken] of the basic example never throws.  It
    makes one call of [createAndBuy], for the mint it was given, with
    100000 lamports and 100 basis points, and asks for the token balance
    of the creator afterwards exactly when the SDK reports success. *)
Theorem createAndBuyToken_calls (sdk : PumpFunSDK)
    (testAccount mint : Keypair) (st : State) :
  let creation :=
    CreateAndBuy sdk testAccount mint
      {| meta_name := "TST-7"; meta_symbol := "TST-7";
         meta_description := "TST-7: This is a test token";
         meta_file := {| blob_parts := ["Test token image"];
                         blob_type := "image/png" |} |}
      100000 100 in
  let answer :=
    sdk_createAndBuy (trace st) sdk testAccount mint
      {| meta_name := "TST-7"; meta_symbol := "TST-7";
         meta_description := "TST-7: This is a test token";
         meta_file := {| blob_parts := ["Test token image"];
                         blob_type := "image/png" |} |}
      100000 100 in
  fst (createAndBuyToken sdk testAccount mint st) = Ok tt
  /\ trace (snd (createAndBuyToken sdk testAccount mint st))
     = (trace st
        ++ creation
           :: match answer with
              | Ok createResults =>
                  if success createResults then
                    [GetParsedTokenAccountsByOwner (connection sdk)
                       (publicKey testAccount) (ByMint (publicKey mint))]
                  else []
              | Throw _ => []
              end)%list.
Proof.
  intros creation answer. unfold createAndBuyToken.
  rewrite swallow, BasicFacts.BigInt_buy_amount.
  rewrite (bind_lift _ _ _ _ eq_refl).
  unfold bind, createAndBuy, SLIPPAGE_BASIS_POINTS. fold answer. fold creation.
  destruct answer as [createResults | e]; cbn [fst snd trace log].
  - destruct (success createResults).
    + rewrite BasicFacts.printSPLBalance_run. cbn [fst snd trace log].
      split; [reflexivity |]. now rewrite <- app_assoc.
    + cbn [fst snd trace log ret]. split; reflexivity.
  - split; reflexivity.
Qed.

End WithNetwork.
End ExampleFacts.

Module ExampleSaleFacts.
Import Util Basic Example Props ExampleProps TokenBuyerFacts TokenBuyerCallFacts.
Import ExampleFacts.

Section WithPlatform.
Context `{Runtime} `{Network}.

(** The sale of [sellTokens] and what follows it. *)
Lemma sale_run (sdk : PumpFunSDK) (testAccount mint : Keypair)
    (tokenBalance : number) (st : State) :
  fst (sale_attempt sdk testAccount mint tokenBalance st) = Ok tt
  /\ this_sdk (snd (sale_attempt sdk testAccount mint tokenBalance st))
     = this_sdk st
  /\ match BigInt (tokenBalance * Math_pow10 DEFAULT_DECIMALS)%float with
     | Throw _ =>
         trace (snd (sale_attempt sdk testAccount mint tokenBalance st))
         = trace st
     | Ok amount =>
         exists rest,
           trace (snd (sale_attempt sdk testAccount mint tokenBalance st))
           = (trace st
              ++ Sell sdk testAccount (publicKey mint) amount 100 :: rest)%list
           /\ forallb (fun c => negb (is_transaction c)) rest = true
     end.
Proof.
  unfold sale_attempt, try_catch_eff, bind, lift, sell, printSOLBalance,
    try_catch_eff, bind, getBalance, getBondingCurveAccount, ret, log,
    SLIPPAGE_BASIS_POINTS.
  destruct (BigInt _) as [amount | e]; cbn [fst snd trace this_sdk];
    [| repeat split].
  destruct (sdk_sell _ _ _ _ _ _) as [sellResults | e];
    cbn [fst snd trace this_sdk].
  2:{ split; [reflexivity |]. split; [reflexivity |].
      exists []. split; reflexivity. }
  destruct (success sellResults); cbn [fst snd trace this_sdk].
  2:{ split; [reflexivity |]. split; [reflexivity |].
      exists []. split; reflexivity. }
  destruct (connection_getBalance _ _ _) as [balance | e];
    cbn [fst snd trace this_sdk];
    (destruct (sdk_getBondingCurveAccount _ _ _) as [account | e'];
     cbn [fst snd trace this_sdk];
     (split; [reflexivity |]; split; [reflexivity |];
      eexists; split; [rewrite <- !app_assoc; reflexivity | reflexivity])).
Qed.

(** [sellTokens], step by step. *)
Lemma sellTokens_run (sdk : PumpFunSDK) (testAccount mint : Keypair)
    (st : State) :
  sellTokens sdk testAccount mint st
  = (Ok tt,
     match PublicKey_new TOKEN_PROGRAM_ID with
     | Throw _ => st
     | Ok programId =>
         let st1 :=
           log (GetParsedTokenAccountsByOwner (connection sdk)
                  (publicKey testAccount) (ByProgramId programId)) st in
         match connection_getParsedTokenAccountsByOwner (trace st)
                 (connection sdk) (publicKey testAccount)
                 (ByProgramId programId) with
         | Throw _ => st1
         | Ok accounts =>
             match firstWithBalance accounts with
             | Ok (Some (_, tokenBalance)) =>
                 snd (sale_attempt sdk testAccount mint tokenBalance st1)
             | _ => st1
             end
         end
     end).
Proof.
  assert (Heq :
    sellTokens sdk testAccount mint
    = try_catch_eff
        (programId <- lift (PublicKey_new TOKEN_PROGRAM_ID) ;;
         tokenAccounts <- getParsedTokenAccountsByOwner (connection sdk)
                            (publicKey testAccount) (ByProgramId programId) ;;
         match tokenAccounts with
         | [] => ret tt
         | _ :: _ =>
             found <- lift (firstWithBalance tokenAccounts) ;;
             match found with
             | None => ret tt
             | Some (tokenToSell, tokenBalance) =>
                 sale_attempt sdk testAccount mint tokenBalance
             end
         end)
        (fun error => ret tt)) by reflexivity.
  rewrite Heq. clear Heq.
  unfold try_catch_eff, bind, lift, ret, getParsedTokenAccountsByOwner.
  destruct (PublicKey_new TOKEN_PROGRAM_ID) as [programId | e]; [| reflexivity].
  cbv beta iota zeta.
  destruct (connection_getParsedTokenAccountsByOwner _ _ _ _)
    as [accounts | e]; [| reflexivity].
  destruct accounts as [| a rest]; [reflexivity |].
  destruct (firstWithBalance (a :: rest)) as [[[tokenToSell tokenBalance] |] | e];
    [| reflexivity | reflexivity].
  pose proof (sale_run sdk testAccount mint tokenBalance
                (log (GetParsedTokenAccountsByOwner (connection sdk)
                        (publicKey testAccount) (ByProgramId programId)) st))
    as [Hok _].
  destruct (sale_attempt _ _ _ _ _) as [r st2]. cbn [fst snd] in *.
  now rewrite Hok.
Qed.

(** X15: [sellTokens] of the basic example never throws.  It asks for
    all token accounts of the owner and takes the balance of the first
    one whose balance is above zero; with no such account it sells
    nothing.  What it then sells is not the token of that account but the
    mint it was given: one call of [sell] for that mint, with the balance
    times 10^6 as the amount and 100 basis points; when that product is
    not an integer it sells nothing either.  After the sale it only
    reads. *)
Theorem example_sellTokens_sale (sdk : PumpFunSDK)
    (testAccount mint : Keypair) (st : State) :
  let run := sellTokens sdk testAccount mint st in
  fst run = Ok tt
  /\ this_sdk (snd run) = this_sdk st
  /\ forall programId,
       PublicKey_new TOKEN_PROGRAM_ID = Ok programId ->
       let query :=
         GetParsedTokenAccountsByOwner (connection sdk) (publicKey testAccount)
                                       (ByProgramId programId) in
       let answer :=
         connection_getParsedTokenAccountsByOwner (trace st) (connection sdk)
           (publicKey testAccount) (ByProgramId programId) in
       (forall accounts,
           answer = Ok accounts -> Forall no_balance accounts ->
           trace (snd run) = (trace st ++ [query])%list)
       /\ (forall before account after balance,
             answer = Ok (before ++ account :: after)%list ->
             Forall no_balance before ->
             parsed_uiAmount account = Ok (Some balance) ->
             (0 <? balance)%float = true ->
             match BigInt (balance * Math_pow10 DEFAULT_DECIMALS)%float with
             | Ok amount =>
                 exists rest,
                   trace (snd run)
                   = (trace st
                      ++ query
                         :: Sell sdk testAccount (publicKey mint) amount 100
                         :: rest)%list
                   /\ forallb (fun c => negb (is_transaction c)) rest = true
             | Throw _ => trace (snd run) = (trace st ++ [query])%list
             end).
Proof.
  intros run. subst run. rewrite sellTokens_run. cbn [fst snd].
  split; [reflexivity |]. split.
  { destruct (PublicKey_new TOKEN_PROGRAM_ID) as [programId | e];
      [| reflexivity].
    cbv zeta.
    destruct (connection_getParsedTokenAccountsByOwner _ _ _ _)
      as [accounts | e]; [| reflexivity].
    destruct (firstWithBalance accounts) as [[[tok bal] |] | e];
      try reflexivity.
    now destruct (sale_run sdk testAccount mint bal
                    (log (GetParsedTokenAccountsByOwner (connection sdk)
                            (publicKey testAccount) (ByProgramId programId)) st))
      as (_ & -> & _). }
  intros programId ->. split.
  - intros accounts -> Hnone. now rewrite (firstWithBalance_none _ Hnone).
  - intros before account after balance -> Hbefore Hread Hpos.
    rewrite (firstWithBalance_first before after account balance
               Hbefore Hread Hpos).
    match goal with
    | |- context [sale_attempt _ _ _ _ ?s] =>
        destruct (sale_run sdk testAccount mint balance s) as (_ & _ & Hsale)
    end.
    destruct (BigInt _) as [amount | e].
    + destruct Hsale as (rest & -> & Hrest). exists rest.
      split; [| exact Hrest]. cbn [log trace]. now rewrite <- app_assoc.
    + now rewrite Hsale.
Qed.

End WithPlatform.

(** The theorem on a network where the owner holds 2.5 units of another
    token: 2500000 units of the given mint are offered for sale. *)
Lemma example_sellTokens_sale_witness :
  exists rest,
    trace (snd (@sellTokens Fixture.runtime ExampleFixture.holding
                  Fixture.sdk Fixture.wallet (mkKeypair Fixture.mint [])
                  Fixture.fresh))
    = ([] ++ GetParsedTokenAccountsByOwner (connection Fixture.sdk)
               (publicKey Fixture.wallet)
               (ByProgramId (mkPublicKey TOKEN_PROGRAM_ID))
          :: Sell Fixture.sdk Fixture.wallet Fixture.mint 2500000 100
          :: rest)%list
    /\ forallb (fun c => negb (is_transaction c)) rest = true.
Proof.
  exact (proj2 (proj2 (proj2 (@example_sellTokens_sale Fixture.runtime
                                ExampleFixture.holding Fixture.sdk
                                Fixture.wallet (mkKeypair Fixture.mint [])
                                Fixture.fresh))
                  (mkPublicKey TOKEN_PROGRAM_ID) eq_refl)
           [ {| pubkey := mkPublicKey "EmptyAccount";
                parsed_uiAmount := Ok (Some 0%float) |} ]
           {| pubkey := mkPublicKey "OtherToken";
              parsed_uiAmount := Ok (Some 2.5%float) |}
           [] 2.5%float eq_refl
           ltac:(repeat constructor; eexists; split; reflexivity)
           eq_refl eq_refl).
Defined.

End ExampleSaleFacts.

Module ExampleSetupFacts.
Import Devnet Util Basic Example Props ExampleProps TokenBuyerFacts.
Import TokenBuyerCallFacts ExampleFacts.

Lemma truthy_env_falsy (v : option string) :
  unset_or_empty v -> truthy_env v = false.
Proof. intros [-> | ->]; reflexivity. Qed.

Section WithPlatform.
Context `{Runtime} `{Network}.
Variable Connection_of : string -> Result Connection.

Notation getProvider := (getProvider Connection_of).

Lemma getProvider_connects (env : Environment) (url : string) (st : State) :
  url <> "" ->
  env !! "DEVNET_RPC_URL" = Some url
  \/ (unset_or_empty (env !! "DEVNET_RPC_URL")
      /\ env !! "HELIUS_RPC_URL" = Some url) ->
  getProvider env st
  = match Connection_of url with
    | Ok connection =>
        (Ok (mkAnchorProvider connection (Keypair_generate (trace st))),
         log KeypairGenerate st)
    | Throw e => (Throw e, st)
    end.
Proof.
  intros Hurl Hset. unfold Example.getProvider.
  destruct url as [| c url]; [congruence |].
  destruct Hset as [-> | [Hd ->]].
  - cbn [truthy_env truthy_string negb andb or_string or_string_opt].
    unfold bind, lift, generate, ret.
    destruct (Connection_of _); reflexivity.
  - rewrite (truthy_env_falsy _ Hd), (DevnetFacts.or_string_opt_falsy _ _ Hd).
    cbn [truthy_env truthy_string negb andb or_string or_string_opt].
    unfold bind, lift, generate, ret.
    destruct (Connection_of _); reflexivity.
Qed.

(** X16: [getProvider] of the examples throws "Please set DEVNET_RPC_URL
    or HELIUS_RPC_URL in .env file", without connecting, exactly when
    both variables are unset or empty.  Otherwise it connects to the
    value of DEVNET_RPC_URL when that is set and not empty, and else to
    that of HELIUS_RPC_URL, so never to the empty URL of its last
    fallback, and draws a fresh keypair for the wallet.  It does not read
    HELIUS_DEVNET_RPC_URL: with only that variable set, the URL that
    [getDevnetRpcUrl] returns, [getProvider] throws. *)
Theorem getProvider_outcomes (env : Environment) (st : State) :
  (unset_or_empty (env !! "DEVNET_RPC_URL") ->
   unset_or_empty (env !! "HELIUS_RPC_URL") ->
   getProvider env st
   = (Throw (Error "Please set DEVNET_RPC_URL or HELIUS_RPC_URL in .env file"),
      st))
  /\ (forall url,
        url <> "" ->
        env !! "DEVNET_RPC_URL" = Some url
        \/ (unset_or_empty (env !! "DEVNET_RPC_URL")
            /\ env !! "HELIUS_RPC_URL" = Some url) ->
        getProvider env st
        = match Connection_of url with
          | Ok connection =>
              (Ok (mkAnchorProvider connection (Keypair_generate (trace st))),
               mkState (trace st ++ [KeypairGenerate]) (this_sdk st))
          | Throw e => (Throw e, st)
          end)
  /\ (forall url,
        url <> "" ->
        unset_or_empty (env !! "DEVNET_RPC_URL") ->
        unset_or_empty (env !! "HELIUS_RPC_URL") ->
        env !! "HELIUS_DEVNET_RPC_URL" = Some url ->
        getDevnetRpcUrl env = url
        /\ exists e, getProvider env st = (Throw e, st)).
Proof.
  assert (Hnone : unset_or_empty (env !! "DEVNET_RPC_URL") ->
                  unset_or_empty (env !! "HELIUS_RPC_URL") ->
                  getProvider env st
                  = (Throw (Error "Please set DEVNET_RPC_URL or HELIUS_RPC_URL in .env file"),
                     st)).
  { intros Hd Hh. unfold Example.getProvider.
    now rewrite (truthy_env_falsy _ Hd), (truthy_env_falsy _ Hh). }
  split; [exact Hnone |]. split.
  - intros url Hurl Hset. apply getProvider_connects; assumption.
  - intros url Hurl Hd Hh Hhd. split; [| rewrite (Hnone Hd Hh); eauto].
    unfold getDevnetRpcUrl.
    rewrite (DevnetFacts.or_string_opt_falsy _ _ Hd), Hhd.
    now apply DevnetFacts.or_string_truthy.
Qed.

End WithPlatform.

(** The theorem on an environment that sets only HELIUS_DEVNET_RPC_URL. *)
Lemma getProvider_outcomes_witness :
  getDevnetRpcUrl {[ "HELIUS_DEVNET_RPC_URL" := "https://helius.example" ]}
  = "https://helius.example"
  /\ exists e,
       @getProvider (Fixture.network true) ExampleFixture.connect
         {[ "HELIUS_DEVNET_RPC_URL" := "https://helius.example" ]}
         Fixture.fresh
       = (Throw e, Fixture.fresh).
Proof.
  apply (proj2 (proj2 (@getProvider_outcomes (Fixture.network true)
                         ExampleFixture.connect
                         {[ "HELIUS_DEVNET_RPC_URL" := "https://helius.example" ]}
                         Fixture.fresh))).
  - discriminate.
  - left. now rewrite lookup_singleton_ne.
  - left. now rewrite lookup_singleton_ne.
  - apply lookup_singleton_eq.
Defined.

End ExampleSetupFacts.

(** ** create-and-buy: TokenCreator.getTokenInfo *)

Module CreatorFacts.
Import Props TokenBuyerFacts TokenBuyerCallFacts ExampleFacts.
Section WithPlatform.
Context `{Runtime} `{Network}.

(** X19: [TokenCreator.getTokenInfo] throws only when the SDK is not
    set.  With the SDK set it always returns normally: an address that is
    not a valid key and a lookup that fails are caught and logged, where
    [TokenBuyer.getTokenInfo] throws them again.  It makes the lookup
    when the address is valid, no other call, and leaves the SDK as it
    is. *)
Theorem creator_getTokenInfo_swallows (mintAddress : string) (st : State) :
  match this_sdk st with
  | None =>
      Creator.getTokenInfo mintAddress st
      = (Throw (Error "SDK not initialized"), st)
  | Some sdk =>
      Creator.getTokenInfo mintAddress st
      = (Ok tt,
         match PublicKey_new mintAddress with
         | Ok mint =>
             mkState (trace st ++ [GetBondingCurveAccount sdk mint]) (Some sdk)
         | Throw _ => st
         end)
  end.
Proof.
  unfold Creator.getTokenInfo. rewrite bind_get_sdk.
  destruct (this_sdk st) as [sdk |] eqn:Hsdk; [| reflexivity].
  rewrite swallow.
  destruct (PublicKey_new mintAddress) as [mint | e].
  - rewrite (bind_lift _ _ _ _ eq_refl).
    unfold bind, getBondingCurveAccount, ret, log. rewrite Hsdk.
    destruct (sdk_getBondingCurveAccount _ _ _); reflexivity.
  - now rewrite bind_lift_throw.
Qed.

End WithPlatform.
End CreatorFacts.

Module ExampleMainFacts.
Import Devnet Util Basic Example Props ExampleProps TokenBuyerFacts.
Import TokenBuyerCallFacts ExampleFacts.

Lemma reads_only_ret {A} (a : A) : reads_only (ret a).
Proof. intros st. exists []. simpl. now rewrite app_nil_r. Qed.

Lemma reads_only_throw {A} e : reads_only (@throw A e).
Proof. intros st. exists []. simpl. now rewrite app_nil_r. Qed.

Lemma reads_only_lift {A} (r : Result A) : reads_only (lift r).
Proof. intros st. exists []. simpl. now rewrite app_nil_r. Qed.

Lemma reads_only_bind {A B} (m : Eff A) (k : A -> Eff B) :
  reads_only m -> (forall a, reads_only (k a)) -> reads_only (bind m k).
Proof.
  intros Hm Hk st. unfold bind.
  destruct (Hm st) as (c1 & H1 & Hq1).
  destruct (m st) as [[a | e] st1]; cbn [snd] in *.
  - destruct (Hk a st1) as (c2 & H2 & Hq2). exists (c1 ++ c2)%list.
    rewrite H2, H1, forallb_app, Hq1, Hq2. now rewrite app_assoc.
  - eauto.
Qed.

Lemma reads_only_try_catch {A} (body : Eff A) handler :
  reads_only body -> (forall e, reads_only (handler e)) ->
  reads_only (try_catch_eff body handler).
Proof.
  intros Hm Hk st. unfold try_catch_eff.
  destruct (Hm st) as (c1 & H1 & Hq1).
  destruct (body st) as [[a | e] st1]; cbn [snd] in *.
  - eauto.
  - destruct (Hk e st1) as (c2 & H2 & Hq2). exists (c1 ++ c2)%list.
    rewrite H2, H1, forallb_app, Hq1, Hq2. now rewrite app_assoc.
Qed.

Section WithPlatform.
Context `{Runtime} `{Network}.
Context {D : Type}.
Variable disk : MutableFs D.
Variable Connection_of : string -> Result Connection.
Variable Uint8Array_of : Json -> Result (list Z).
Variable JSON_stringify : list Z -> string.
Variable dirname : string.

Notation getProvider := (getProvider Connection_of).
Notation getOrCreateKeypair :=
  (getOrCreateKeypair disk Uint8Array_of JSON_stringify).
Notation main :=
  (main disk Connection_of Uint8Array_of JSON_stringify dirname).
Notation Script := (@Script D).

Lemma reads_only_generate : reads_only generate.
Proof. intros st. now exists [KeypairGenerate]. Qed.

Lemma reads_only_getBalance c a : reads_only (getBalance c a).
Proof. intros st. now exists [GetBalance c a]. Qed.

Lemma reads_only_getBondingCurveAccount sdk mint :
  reads_only (getBondingCurveAccount sdk mint).
Proof. intros st. now exists [GetBondingCurveAccount sdk mint]. Qed.

Lemma reads_only_printSOLBalance c a : reads_only (printSOLBalance c a).
Proof.
  intros st. rewrite printSOLBalance_run. now exists [GetBalance c a].
Qed.

Lemma reads_only_getProvider env : reads_only (getProvider env).
Proof.
  unfold Example.getProvider.
  destruct (_ && _); [apply reads_only_throw |].
  apply reads_only_bind; [apply reads_only_lift | intros connection].
  apply reads_only_bind; [apply reads_only_generate | intros wallet].
  apply reads_only_ret.
Qed.

Lemma script_reads_only_ret {A} (a : A) : script_reads_only (@retS D A a).
Proof. intros d st. exists []. simpl. now rewrite app_nil_r. Qed.

Lemma script_reads_only_liftE {A} (m : Eff A) :
  reads_only m -> script_reads_only (@liftE D A m).
Proof.
  intros Hm d st. unfold liftE. destruct (Hm st) as (calls & Hc & Hq).
  destruct (m st) as [r st']. eauto.
Qed.

Lemma script_reads_only_on_disk {A} (op : D -> Result A * D) :
  script_reads_only (on_disk op).
Proof.
  intros d st. unfold on_disk. destruct (op d) as [r d'].
  exists []. simpl. now rewrite app_nil_r.
Qed.

Lemma script_reads_only_look {A} (f : FileSystem -> Result A) :
  script_reads_only (look disk f).
Proof. intros d st. exists []. simpl. now rewrite app_nil_r. Qed.

Lemma script_reads_only_bind {A B} (m : Script A) (k : A -> Script B) :
  script_reads_only m ->
  (forall a, script_returns m a -> script_reads_only (k a)) ->
  script_reads_only (bindS m k).
Proof.
  intros Hm Hk d st. unfold bindS.
  destruct (Hm d st) as (c1 & H1 & Hq1).
  destruct (m d st) as [[[a | e] d1] st1] eqn:Hrun; cbn [snd] in *.
  - assert (Hret : script_returns m a) by now exists d, st, d1, st1.
    destruct (Hk a Hret d1 st1) as (c2 & H2 & Hq2). exists (c1 ++ c2)%list.
    rewrite H2, H1, forallb_app, Hq1, Hq2. now rewrite app_assoc.
  - eauto.
Qed.

Lemma script_reads_only_try_catch {A} (body : Script A) handler :
  script_reads_only body -> (forall e, script_reads_only (handler e)) ->
  script_reads_only (try_catch_script body handler).
Proof.
  intros Hm Hk d st. unfold try_catch_script.
  destruct (Hm d st) as (c1 & H1 & Hq1).
  destruct (body d st) as [[[a | e] d1] st1]; cbn [snd] in *.
  - eauto.
  - destruct (Hk e d1 st1) as (c2 & H2 & Hq2). exists (c1 ++ c2)%list.
    rewrite H2, H1, forallb_app, Hq1, Hq2. now rewrite app_assoc.
Qed.

Lemma script_reads_only_getOrCreateKeypair folder name :
  script_reads_only (getOrCreateKeypair folder name).
Proof.
  unfold Example.getOrCreateKeypair.
  apply script_reads_only_bind; [apply script_reads_only_look |].
  intros folderExists _.
  apply script_reads_only_bind.
  { destruct (negb folderExists);
      [apply script_reads_only_on_disk | apply script_reads_only_ret]. }
  intros [] _.
  apply script_reads_only_bind; [apply script_reads_only_look |].
  intros fileExists _. destruct fileExists.
  - apply script_reads_only_bind; [apply script_reads_only_look |].
    intros text _.
    apply script_reads_only_bind;
      [apply script_reads_only_liftE, reads_only_lift |].
    intros secretKey _.
    apply script_reads_only_bind;
      [apply script_reads_only_liftE, reads_only_lift |].
    intros bytes _. apply script_reads_only_liftE, reads_only_lift.
  - apply script_reads_only_bind;
      [apply script_reads_only_liftE, reads_only_generate |].
    intros keypair _.
    apply script_reads_only_bind; [apply script_reads_only_on_disk |].
    intros [] _. apply script_reads_only_ret.
Qed.

(** A balance the script was given is one the connection reported. *)
Lemma returned_balance (c : Connection) (account : PublicKey)
    (balance : number) :
  without_funds ->
  script_returns (@liftE D _ (getBalance c account)) balance ->
  (0 <? balance)%float = false.
Proof.
  intros Hfunds (d & st & d' & st' & Hrun).
  unfold liftE, getBalance in Hrun.
  destruct (connection_getBalance (trace st) c account) as [b | e] eqn:Hb;
    [| discriminate].
  injection Hrun as <- _ _. exact (Hfunds _ _ _ _ Hb).
Qed.

(** X17: [main] of the basic example never throws, whatever the
    network, the disk and the environment are.  On an account without
    funds, where every balance the connection reports is zero, below zero
    or NaN, it submits nothing: it creates no token and makes no purchase
    and no sale, whatever the disk, the environment and the bonding curve
    are; the calls it makes only read. *)
Theorem main_without_funds_only_reads (env : Environment) (d : D)
    (st : State) :
  fst (fst (main env d st)) = Ok tt
  /\ (without_funds ->
      exists calls,
        trace (snd (main env d st)) = (trace st ++ calls)%list
        /\ forallb (fun c => negb (is_transaction c)) calls = true).
Proof.
  split.
  { unfold Example.main, try_catch_script, retS.
    now destruct (bindS _ _ d st) as [[[[] | e] d1] st1]. }
  intros Hfunds. revert d st. change (script_reads_only (main env)).
  unfold Example.main.
  apply script_reads_only_try_catch; [| intros e; apply script_reads_only_ret].
  apply script_reads_only_bind;
    [apply script_reads_only_liftE, reads_only_getProvider |].
  intros provider _. cbv zeta.
  apply script_reads_only_bind;
    [apply script_reads_only_getOrCreateKeypair |].
  intros testAccount _.
  apply script_reads_only_bind;
    [apply script_reads_only_getOrCreateKeypair |].
  intros mint _.
  apply script_reads_only_bind;
    [apply script_reads_only_liftE, reads_only_printSOLBalance |].
  intros [] _.
  apply script_reads_only_bind;
    [apply script_reads_only_liftE, reads_only_getBalance |].
  intros currentSolBalance Hbalance.
  rewrite (returned_balance _ _ _ Hfunds Hbalance).
  apply script_reads_only_bind;
    [apply script_reads_only_liftE, reads_only_getBondingCurveAccount |].
  intros found _.
  apply script_reads_only_bind.
  { destruct found; apply script_reads_only_ret. }
  intros [account |] _; [| apply script_reads_only_ret].
  apply script_reads_only_bind;
    [apply script_reads_only_liftE, reads_only_lift |].
  intros currentPrice _. apply script_reads_only_ret.
Qed.

End WithPlatform.

(** The theorem on an empty disk and a network that reports a balance of
    zero: [main] returns, and the calls it made only read. *)
Lemma main_without_funds_only_reads_witness :
  fst (fst (@main Fixture.runtime ExampleFixture.broke _ ExampleFixture.memory
              ExampleFixture.connect (fun _ => Ok [])
              ExampleFixture.stringify "/app"
              {[ "DEVNET_RPC_URL" := "https://api.devnet.solana.com" ]}
              [] Fixture.fresh)) = Ok tt
  /\ exists calls,
       trace (snd (@main Fixture.runtime ExampleFixture.broke _
                     ExampleFixture.memory ExampleFixture.connect
                     (fun _ => Ok []) ExampleFixture.stringify "/app"
                     {[ "DEVNET_RPC_URL" := "https://api.devnet.solana.com" ]}
                     [] Fixture.fresh))
       = (trace Fixture.fresh ++ calls)%list
       /\ forallb (fun c => negb (is_transaction c)) calls = true.
Proof.
  destruct (@main_without_funds_only_reads Fixture.runtime ExampleFixture.broke
              _ ExampleFixture.memory ExampleFixture.connect (fun _ => Ok [])
              ExampleFixture.stringify "/app"
              {[ "DEVNET_RPC_URL" := "https://api.devnet.solana.com" ]}
              [] Fixture.fresh) as [Hreturns Hreads].
  split; [exact Hreturns |]. apply Hreads.
  intros tr c account balance [= <-]. reflexivity.
Defined.

(** On a funded account too [main] returns: what fails inside is caught. *)
Example main_with_funds_returns :
  fst (fst (@main Fixture.runtime ExampleFixture.holding _
              ExampleFixture.memory ExampleFixture.connect
              (fun _ => Ok []) ExampleFixture.stringify "/app"
              {[ "DEVNET_RPC_URL" := "https://api.devnet.solana.com" ]}
              [] Fixture.fresh)) = Ok tt.
Proof. vm_compute. reflexivity. Qed.

(** With funds and a bonding curve the script does submit
    transactions. *)
Example main_with_funds_transacts :
  existsb is_transaction
    (trace (snd (@main Fixture.runtime ExampleFixture.holding _
                   ExampleFixture.memory ExampleFixture.connect
                   (fun _ => Ok []) ExampleFixture.stringify "/app"
                   {[ "DEVNET_RPC_URL" := "https://api.devnet.solana.com" ]}
                   [] Fixture.fresh)))
  = true.
Proof. vm_compute. reflexivity. Qed.

End ExampleMainFacts.

Module KeypairFileFacts.
Import Devnet Util Basic Example Props ExampleProps TokenBuyerFacts.
Import TokenBuyerCallFacts ExampleFacts.

(** The disk in memory keeps what is written to it. *)
Lemma memory_lawful : lawful ExampleFixture.memory.
Proof.
  split.
  - intros d p text d' [= <-]. cbn. unfold ExampleFixture.entry. cbn.
    rewrite String.eqb_refl. split; reflexivity.
  - intros d p text d' q [= <-]. cbn. unfold ExampleFixture.entry. cbn.
    destruct (String.eqb p q); [reflexivity | auto].
  - intros d p d' [= <-]. cbn. unfold ExampleFixture.entry. cbn.
    now rewrite String.eqb_refl.
Qed.

Section WithPlatform.
Context `{Runtime} `{Network}.
Context {D : Type}.
Variable disk : MutableFs D.
Variable Uint8Array_of : Json -> Result (list Z).
Variable JSON_stringify : list Z -> string.

Notation getOrCreateKeypair :=
  (getOrCreateKeypair disk Uint8Array_of JSON_stringify).
Notation Uint8Array_new := (Uint8Array_new Uint8Array_of).

(** With the directory and the file there, the key is read from the
    file, and nothing changes. *)
Lemma getOrCreateKeypair_loads (folder name : string) (d : D) (st : State) :
  existsSync (view disk d) folder = true ->
  existsSync (view disk d) (path_join folder (name +:+ ".json")) = true ->
  getOrCreateKeypair folder name d st
  = (let! text := readFileSync (view disk d)
                    (path_join folder (name +:+ ".json")) in
     let! value := JSON_parse text in
     let! bytes := Uint8Array_new value in
     Keypair_fromSecretKey bytes,
     d, st).
Proof.
  intros Hfolder Hfile. unfold Example.getOrCreateKeypair.
  unfold bindS, look, retS, liftE, lift. rewrite Hfolder. cbn [negb].
  rewrite Hfile.
  destruct (readFileSync _ _) as [text | e]; [| reflexivity].
  cbn [bindR]. destruct (JSON_parse text) as [value | e]; [| reflexivity].
  cbn [bindR]. destruct (Uint8Array_new value) as [bytes | e]; [| reflexivity].
  cbn [bindR]. destruct (Keypair_fromSecretKey bytes); reflexivity.
Qed.

(** A call that drew a key wrote it to the file. *)
Lemma getOrCreateKeypair_created (folder name : string) (d d1 : D)
    (st st1 : State) (kp : Keypair) :
  getOrCreateKeypair folder name d st = (Ok kp, d1, st1) ->
  trace st1 <> trace st ->
  exists d0,
    (d0 = d /\ existsSync (view disk d) folder = true
     \/ mkdirSync disk d folder = (Ok tt, d0))
    /\ writeFileSync disk d0 (path_join folder (name +:+ ".json"))
         (JSON_stringify (secretKey kp)) = (Ok tt, d1)
    /\ kp = Keypair_generate (trace st)
    /\ st1 = log KeypairGenerate st.
Proof.
  unfold Example.getOrCreateKeypair.
  unfold bindS, look, retS, liftE, lift, on_disk, generate.
  intros Hrun Hgrew.
  destruct (existsSync (view disk d) folder) eqn:Hfolder; cbn [negb] in Hrun.
  - destruct (existsSync (view disk d) (path_join folder (name +:+ ".json")))
      eqn:Hfile; cbv beta in Hrun.
    + exfalso. apply Hgrew.
      repeat match type of Hrun with
             | context [match ?x with Ok _ => _ | Throw _ => _ end] =>
                 destruct x
             end;
        cbv beta iota in Hrun; now injection Hrun as _ _ <-.
    + destruct (writeFileSync _ _ _ _) as [[[] | e] d'] eqn:Hwrite;
        cbv beta iota in Hrun; [| discriminate].
      injection Hrun as <- <- <-. exists d. auto.
  - destruct (mkdirSync disk d folder) as [[[] | e] d0] eqn:Hmkdir;
      [| discriminate].
    destruct (existsSync (view disk d0) (path_join folder (name +:+ ".json")))
      eqn:Hfile; cbv beta in Hrun.
    + exfalso. apply Hgrew.
      repeat match type of Hrun with
             | context [match ?x with Ok _ => _ | Throw _ => _ end] =>
                 destruct x
             end;
        cbv beta iota in Hrun; now injection Hrun as _ _ <-.
    + destruct (writeFileSync _ _ _ _) as [[[] | e] d'] eqn:Hwrite;
        cbv beta iota in Hrun; [| discriminate].
      injection Hrun as <- <- <-. exists d0. auto.
Qed.

(** X18: a key [getOrCreateKeypair] has created is the key it returns
    from then on.  On a file system that keeps what is written to it, and
    with a JSON text of the secret key that reads back as that key, a call
    that drew a new key and returned it leaves the disk in a state in
    which the same call returns the same key, draws nothing and changes
    nothing; the file then holds the JSON text of the secret key. *)
Theorem created_key_is_loaded_again (folder name : string) (d d1 : D)
    (st st1 : State) (kp : Keypair) :
  lawful disk ->
  getOrCreateKeypair folder name d st = (Ok kp, d1, st1) ->
  trace st1 <> trace st ->
  (let! value := JSON_parse (JSON_stringify (secretKey kp)) in
   let! bytes := Uint8Array_new value in
   Keypair_fromSecretKey bytes) = Ok kp ->
  getOrCreateKeypair folder name d1 st1 = (Ok kp, d1, st1)
  /\ readFileSync (view disk d1) (path_join folder (name +:+ ".json"))
     = Ok (JSON_stringify (secretKey kp))
  /\ kp = Keypair_generate (trace st).
Proof.
  intros Hlaw Hrun Hgrew Hback.
  destruct (getOrCreateKeypair_created _ _ _ _ _ _ _ Hrun Hgrew)
    as (d0 & Hd0 & Hwrite & Hkp & Hst).
  destruct (write_read disk Hlaw _ _ _ _ Hwrite) as [Hfile Hread].
  assert (Hfolder : existsSync (view disk d1) folder = true).
  { apply (write_keeps disk Hlaw _ _ _ _ _ Hwrite).
    destruct Hd0 as [[-> Hthere] | Hmkdir]; [exact Hthere |].
    exact (mkdir_exists disk Hlaw _ _ _ Hmkdir). }
  split; [| split; [exact Hread | exact Hkp]].
  rewrite (getOrCreateKeypair_loads folder name d1 st1 Hfolder Hfile), Hread.
  cbn [bindR]. now rewrite Hback.
Qed.

End WithPlatform.

(** The theorem on an empty disk in memory: the key of the wallet file is
    drawn, written to "keys/mint.json" and loaded again. *)
Lemma created_key_is_loaded_again_witness :
  let d1 := [("keys/mint.json", Some Fixture.walletJson); ("keys", None)] in
  let st1 := mkState [KeypairGenerate] None in
  @getOrCreateKeypair Fixture.runtime ExampleFixture.holding _
    ExampleFixture.memory (fun _ => Ok []) ExampleFixture.stringify
    "keys" "mint" d1 st1
  = (Ok Fixture.wallet, d1, st1).
Proof.
  intros d1 st1.
  refine (proj1 (@created_key_is_loaded_again Fixture.runtime
                   ExampleFixture.holding _ ExampleFixture.memory
                   (fun _ => Ok []) ExampleFixture.stringify
                   "keys" "mint" [] d1 Fixture.fresh st1 Fixture.wallet
                   memory_lawful _ _ _)).
  - vm_compute. reflexivity.
  - discriminate.
  - vm_compute. reflexivity.
Defined.

End KeypairFileFacts.
